(** * Fitness tracker: derived metrics and dashboard aggregation

    A shallow embedding of the computation layer of the fitness tracker:
    the Mongoose model methods ([User], [Workout], [Meal], [Sleep],
    [Progress]) and the two handlers of [routes/dashboard.js].

    Conventions of the embedding.
    - A JavaScript Number is a binary64 number.  The methods whose result
      depends on the rounding of each operation ([calculateCaloriesBurned],
      [calculateBMR], [calculateTotals], [calculateBMI]) are embedded on
      primitive floats, operation by operation ([Double]).  The same
      methods and the routes are also embedded on exact rationals ([Q]),
      where division returns a [JS.Number] with [NaN] and the two
      infinities; this reading carries the statements on order, bounds,
      counts and selection, and it is the exact arithmetic a formula
      denotes.
    - A [Date] is its time value, the milliseconds since the epoch ([Z]).
      The local zone is a constant offset ([tza]) in the routes and an
      offset that may change ([Date.Zone]) where a date is moved to the
      next calendar day.
    - An object literal used as a table is the association list of its own
      properties, in source order (what [Object.keys] enumerates); a read
      [o[k]] that finds no own property goes to the prototype chain
      ([JS.Chain]).
    - A method that assigns to [this] returns the updated record next to
      its result; a Promise is the way it settles ([JS.Settled]).
    - A Mongoose query is [filter], then sort, then [firstn] over the list of
      stored documents; an aggregation is refused as a whole when a field
      of its [$group] stage is not an accumulator. *)

From Stdlib Require Import ZArith QArith Qround Qabs Lia Lqa Bool.
From Stdlib Require Import List String DecimalString.
From Stdlib Require Import Sorted Permutation.
From Stdlib Require Import PrimFloat FloatOps SpecFloat Uint63.
Import ListNotations.

Set Warnings "-inexact-float".

Local Open Scope string_scope.
Local Open Scope Z_scope.
Local Open Scope Q_scope.

(** ** JavaScript values used by the models *)

Module JS.

(** [Math.round(x)]: the nearest integer, a tie going towards +Infinity. *)
Definition Math_round (x : Q) : Z := Qfloor (x + (1 # 2)).

(** What a division can produce. *)
Inductive Number : Type :=
| Finite (q : Q)
| PosInfinity
| NegInfinity
| NaN.

(** [a / b] on finite operands.  The divisors of this code that can be zero
    (a difference [x - x], a square, a length) are [+0], so the sign of an
    infinite quotient is the sign of the numerator. *)
Definition div (a b : Q) : Number :=
  if Qeq_bool b 0 then
    if Qeq_bool a 0 then NaN
    else if Qle_bool a 0 then NegInfinity else PosInfinity
  else Finite (a / b).

(** [n * c] for a finite [c]. *)
Definition mul (n : Number) (c : Q) : Number :=
  match n with
  | Finite q => Finite (q * c)
  | NaN => NaN
  | PosInfinity =>
      if Qeq_bool c 0 then NaN
      else if Qle_bool c 0 then NegInfinity else PosInfinity
  | NegInfinity =>
      if Qeq_bool c 0 then NaN
      else if Qle_bool c 0 then PosInfinity else NegInfinity
  end.

(** [Math.abs]. *)
Definition Math_abs (n : Number) : Number :=
  match n with
  | Finite q => Finite (Qabs q)
  | PosInfinity | NegInfinity => PosInfinity
  | NaN => NaN
  end.

(** [Math.round] on a [Number]; the special values are kept. *)
Definition round (n : Number) : Number :=
  match n with
  | Finite q => Finite (inject_Z (Math_round q))
  | other => other
  end.

(** [n / c] for a finite non-zero constant [c] of the source. *)
Definition scale_down (n : Number) (c : Q) : Number :=
  match n with
  | Finite q => Finite (q / c)
  | other => other
  end.

(** [a < b] and [a >= b] against a finite constant; every comparison with
    [NaN] is false. *)
Definition ltb (n : Number) (c : Q) : bool :=
  match n with
  | Finite q => negb (Qle_bool c q)
  | NegInfinity => true
  | PosInfinity | NaN => false
  end.

Definition geb (n : Number) (c : Q) : bool :=
  match n with
  | Finite q => Qle_bool c q
  | PosInfinity => true
  | NegInfinity | NaN => false
  end.

(** Decimal digits of a natural number. *)
Definition digits (n : Z) : string := NilZero.string_of_uint (N.to_uint (Z.to_N n)).

(** [x.toFixed(1)] for a non-negative finite [x]: with [n] the integer for
    which [n / 10 - x] is closest to zero (the larger one on a tie), the
    digits of [n] with a point before the last one. *)
Definition toFixed1_nonneg (x : Q) : string :=
  let n := Math_round (x * 10) in
  digits (n / 10) ++ "." ++ digits (n mod 10).

(** [x.toFixed(1)]; values of 1e21 and more, which print in exponent form,
    do not occur for the quotients of this code. *)
Definition toFixed1 (n : Number) : string :=
  match n with
  | Finite q =>
      if Qle_bool 0 q then toFixed1_nonneg q else "-" ++ toFixed1_nonneg (- q)
  | PosInfinity => "Infinity"
  | NegInfinity => "-Infinity"
  | NaN => "NaN"
  end.

(** How a Promise settles. *)
Inductive Settled (A : Type) : Type :=
| Resolved (a : A)
| Rejected (message : string).
Arguments Resolved {A} a.
Arguments Rejected {A} message.

(** Own-property read [o[k]]; [None] is [undefined]. *)
Fixpoint get {A : Type} (o : list (string * A)) (k : string) : option A :=
  match o with
  | [] => None
  | (k', v) :: rest => if String.eqb k k' then Some v else get rest k
  end.

(** [Object.keys(o)]. *)
Definition keys {A : Type} (o : list (string * A)) : list string := map fst o.

(** A Mongoose [ObjectId]. *)
Definition ObjectId : Type := Z.

(** [xs.reduce((sum, x) => sum + f(x), 0)]. *)
Definition sumBy {A : Type} (f : A -> Q) (xs : list A) : Q :=
  fold_left (fun sum x => sum + f x) xs 0.

(** What a read [table[e]?.[i]] evaluates to: [undefined]; a number; a
    value of another kind (an object, a function, a string, [null]), known
    by its truthiness and by what [ToNumber] makes of it; or the exception
    of an accessor that throws. *)
Inductive Read : Type :=
| undefined
| number (x : float)
| other (truthy : bool) (asNumber : float)
| throws (message : string).

(** The prototype chain of an engine: what [table[e]?.[i]] evaluates to
    when the pair [(e, i)] names no own property of a two-level table.  With
    [Object.prototype] as the standard defines it, a row's ["constructor"]
    is a function: [other true nan]. *)
Definition Chain : Type := string -> string -> Read.

(** [!v] *)
Definition falsy (v : Read) : bool :=
  match v with
  | undefined => true
  | number x => (x =? 0)%float || PrimFloat.is_nan x
  | other truthy _ => negb truthy
  | throws _ => false
  end.

(** [ToNumber(v)], as a product takes its left operand. *)
Definition ToNumber (v : Read) : float :=
  match v with
  | undefined => PrimFloat.nan
  | number x => x
  | other _ asNumber => asNumber
  | throws _ => PrimFloat.nan
  end.

End JS.

(** ** Binary64 evaluation, for the worked examples *)

Module Binary64.

(** The rational a finite binary64 number stands for. *)
Definition exact (x : float) : option Q :=
  match Prim2SF x with
  | S754_zero _ => Some 0
  | S754_finite negative m e =>
      Some (inject_Z (if negative then Zneg m else Zpos m) * 2 ^ e)
  | S754_infinity _ | S754_nan => None
  end.

(** [Math.round] and [toFixed(1)] are defined on that rational. *)
Definition Math_round (x : float) : option Z := option_map JS.Math_round (exact x).

Definition toFixed1 (x : float) : option string :=
  option_map (fun q => JS.toFixed1 (JS.Finite q)) (exact x).

(** The binary64 number of a small non-negative integer. *)
Definition ofZ (z : Z) : float := PrimFloat.of_uint63 (Uint63.of_Z z).

(** The binary64 number of an integer below 2^52 in absolute value; zero
    takes the sign asked for. *)
Definition integer (negative : bool) (n : Z) : float :=
  if (n =? 0)%Z then (if negative then PrimFloat.neg_zero else PrimFloat.zero)
  else if (n <? 0)%Z then (- ofZ (- n))%float
  else ofZ n.

(** [Math.round(x)] as a binary64 number: [NaN], the infinities and the
    numbers from 2^52 on, which are integers, are returned as they are;
    any other [x] gives the integer nearest to it, a tie going towards
    +Infinity, and -0 when that integer is 0 and [x] is negative. *)
Definition round (x : float) : float :=
  match exact x with
  | None => x
  | Some q =>
      if Qle_bool 4503599627370496 (Qabs q) then x
      else integer (PrimFloat.get_sign x) (JS.Math_round q)
  end.

End Binary64.

(** ** models/User.js *)

Module User.

Inductive Gender : Type := male | female | other.

Inductive ActivityLevel : Type :=
| sedentary | lightly_active | moderately_active | very_active | extremely_active.

Inductive Goal : Type := lose_weight | maintain_weight | gain_weight.

Record t : Type := mk {
  _id : JS.ObjectId;
  name : string;
  gender : Gender;
  age : Q;
  weight : Q;
  height : Q;
  activityLevel : ActivityLevel;
  goal : Goal;
  targetWeight : option Q
}.

Definition calculateBMI (u : t) : string :=
  let heightInMeters := height u / 100 in
  JS.toFixed1 (JS.div (weight u) (heightInMeters * heightInMeters)).

Definition calculateBMR (u : t) : Z :=
  let bmr :=
    match gender u with
    | male => 88.362 + (13.397 * weight u) + (4.799 * height u) - (5.677 * age u)
    | _ => 447.593 + (9.247 * weight u) + (3.098 * height u) - (4.330 * age u)
    end in
  JS.Math_round bmr.

Definition activityMultipliers (a : ActivityLevel) : Q :=
  match a with
  | sedentary => 1.2
  | lightly_active => 1.375
  | moderately_active => 1.55
  | very_active => 1.725
  | extremely_active => 1.9
  end.

Definition calculateDailyCalories (u : t) : Z :=
  let bmr := calculateBMR u in
  JS.Math_round (inject_Z bmr * activityMultipliers (activityLevel u)).

(** The users collection as [populate('user')] reads it: the document with
    a given id, if there is one. *)
Definition Store : Type := JS.ObjectId -> option t.

End User.

(** ** models/Workout.js

    The exact reading, for the pairs of the table: a read of the table is a
    read of its own properties, the ones [Object.keys] lists and the check
    of the routes admits.  The read of any pair, through the prototype
    chain, and the binary64 product are in [Double.Workout]. *)

Module Workout.

Definition MET_VALUES : list (string * list (string * Q)) :=
  [ ("running", [("5 mph", 8.3); ("6 mph", 9.8); ("7 mph", 11.0);
                 ("8 mph", 11.8); ("9 mph", 12.8); ("10 mph", 14.5)]);
    ("cycling", [("leisurely", 3.5); ("moderate", 6.8); ("vigorous", 10.0);
                 ("racing", 15.8)]);
    ("swimming", [("leisurely", 5.8); ("moderate", 7.0); ("vigorous", 9.8)]);
    ("yoga", [("hatha", 2.5); ("power", 4.0); ("vinyasa", 3.0)]);
    ("weightlifting", [("light", 3.0); ("moderate", 5.0); ("vigorous", 6.0)]);
    ("walking", [("slow", 2.0); ("moderate", 3.5); ("brisk", 4.3);
                 ("very_brisk", 5.0)]);
    ("dancing", [("slow", 3.0); ("moderate", 4.8); ("fast", 5.5)]);
    ("basketball", [("casual", 6.0); ("competitive", 8.0)]);
    ("soccer", [("casual", 7.0); ("competitive", 10.0)]);
    ("tennis", [("singles", 8.0); ("doubles", 5.0)]);
    ("hiking", [("easy", 4.0); ("moderate", 6.0); ("strenuous", 8.0)]) ].

Record t : Type := mk {
  user : JS.ObjectId;
  exerciseType : string;
  intensity : string;
  duration : Q;
  date : Z;
  caloriesBurned : Q
}.

Definition set_caloriesBurned (w : t) (c : Q) : t :=
  mk (user w) (exerciseType w) (intensity w) (duration w) (date w) c.

(** [MET_VALUES[exerciseType]?.[intensity]] on the own properties *)
Definition lookupMET (exerciseType intensity : string) : option Q :=
  match JS.get MET_VALUES exerciseType with
  | None => None
  | Some byIntensity => JS.get byIntensity intensity
  end.

(** [!metValue] *)
Definition falsy (v : option Q) : bool :=
  match v with
  | None => true
  | Some q => Qeq_bool q 0
  end.

Definition calculateCaloriesBurned (users : User.Store) (w : t) : t * JS.Settled Q :=
  match users (user w) with
  | None => (w, JS.Rejected "User not found")
  | Some u =>
      let metValue := lookupMET (exerciseType w) (intensity w) in
      if falsy metValue then (w, JS.Rejected "Invalid exercise type or intensity")
      else
        match metValue with
        | None => (w, JS.Rejected "Invalid exercise type or intensity")
        | Some met =>
            let timeInHours := duration w / 60 in
            let calories := met * User.weight u * timeInHours in
            let w' := set_caloriesBurned w (inject_Z (JS.Math_round calories)) in
            (w', JS.Resolved (caloriesBurned w'))
        end
  end.

Definition getIntensities (exerciseType : string) : list string :=
  match JS.get MET_VALUES exerciseType with
  | Some byIntensity => JS.keys byIntensity
  | None => []
  end.

(** The rows of the table, as (exerciseType, intensity, MET) triples. *)
Definition MET_entries : list (string * string * Q) :=
  flat_map (fun row => map (fun cell => (fst row, fst cell, snd cell)) (snd row))
           MET_VALUES.

End Workout.

(** ** Date arithmetic used by the models and the routes

    In [addDays], [setHours] and [getDay] the local time zone adjustment
    [tza] is a constant offset in milliseconds: no daylight-saving
    transition falls between the instants compared.  [setDateBy] is the
    move by calendar days in a zone whose offset may change. *)

Module Date.

Definition msPerDay : Z := 86400000.
Definition msPerHour : Z := 3600000.
Definition msPerMinute : Z := 60000.
Definition msPerSecond : Z := 1000.

Definition Day (t : Z) : Z := (t / msPerDay)%Z.
Definition TimeWithinDay (t : Z) : Z := (t mod msPerDay)%Z.
Definition WeekDay (t : Z) : Z := ((Day t + 4) mod 7)%Z.
Definition MakeTime (hour min sec ms : Z) : Z :=
  (hour * msPerHour + min * msPerMinute + sec * msPerSecond + ms)%Z.
Definition MakeDate (day time : Z) : Z := (day * msPerDay + time)%Z.
Definition LocalTime (tza t : Z) : Z := (t + tza)%Z.
Definition UTC (tza t : Z) : Z := (t - tza)%Z.

(** [d.setDate(d.getDate() + n)]: the same local time of day, [n] local
    calendar days later. *)
Definition addDays (tza n t : Z) : Z :=
  let local := LocalTime tza t in
  UTC tza (MakeDate (Day local + n) (TimeWithinDay local)).

(** [d.setHours(h, m, s, ms)] *)
Definition setHours (tza : Z) (hour min sec ms : Z) (t : Z) : Z :=
  let local := LocalTime tza t in
  UTC tza (MakeDate (Day local) (MakeTime hour min sec ms)).

(** [d.getDay()] *)
Definition getDay (tza t : Z) : Z := WeekDay (LocalTime tza t).

(** A zone whose offset may change (daylight saving): the offset in force
    at an instant, and the offset the engine attributes to a local time
    ([LocalTZA(t, true)] and [LocalTZA(t, false)]). *)
Record Zone : Type := mkZone {
  offsetAt : Z -> Z;
  offsetOfLocal : Z -> Z
}.

(** The zone of a constant offset. *)
Definition fixed (tza : Z) : Zone := mkZone (fun _ => tza) (fun _ => tza).

(** [d.setDate(d.getDate() + n)] in a zone: the same local clock time, [n]
    local calendar days later, read back with the offset of that local
    time. *)
Definition setDateBy (zone : Zone) (n t : Z) : Z :=
  let local := (t + offsetAt zone t)%Z in
  let moved := MakeDate (Day local + n) (TimeWithinDay local) in
  (moved - offsetOfLocal zone moved)%Z.

End Date.

(** ** models/Meal.js *)

Module Meal.

Record FoodItem : Type := mkFood {
  food_name : string;
  quantity : Q;
  unit : string;
  calories : Q;
  protein : Q;
  carbs : Q;
  fat : Q;
  fiber : Q;
  sugar : Q
}.

Record t : Type := mk {
  user : JS.ObjectId;
  name : string;
  mealType : string;
  date : Z;
  foods : list FoodItem;
  totalCalories : Q;
  totalProtein : Q;
  totalCarbs : Q;
  totalFat : Q;
  totalFiber : Q;
  totalSugar : Q
}.

(** Assignment of the six totals of [this]. *)
Definition set_totals (m : t) (cal pro carb fat_ fib sug : Q) : t :=
  mk (user m) (name m) (mealType m) (date m) (foods m) cal pro carb fat_ fib sug.

(** The body of the [forEach] callback. *)
Definition addFood (m : t) (food : FoodItem) : t :=
  set_totals m
    (totalCalories m + calories food * quantity food)
    (totalProtein m + protein food * quantity food)
    (totalCarbs m + carbs food * quantity food)
    (totalFat m + fat food * quantity food)
    (totalFiber m + fiber food * quantity food)
    (totalSugar m + sugar food * quantity food).

(** [Math.round(x * 100) / 100] *)
Definition round2 (x : Q) : Q := inject_Z (JS.Math_round (x * 100)) / 100.

Definition calculateTotals (m : t) : t :=
  let zeroed := set_totals m 0 0 0 0 0 0 in
  let summed := fold_left addFood (foods zeroed) zeroed in
  set_totals summed
    (round2 (totalCalories summed))
    (round2 (totalProtein summed))
    (round2 (totalCarbs summed))
    (round2 (totalFat summed))
    (round2 (totalFiber summed))
    (round2 (totalSugar summed)).

(** The totals as the specification words them: the sum over the items of
    [field * quantity], rounded to two decimals. *)
Fixpoint spec_sum (field : FoodItem -> Q) (items : list FoodItem) : Q :=
  match items with
  | [] => 0
  | item :: rest => field item * quantity item + spec_sum field rest
  end.

End Meal.

(** ** models/Sleep.js *)

Module Sleep.

Record t : Type := mk {
  user : JS.ObjectId;
  sleepStart : option Z;
  sleepEnd : option Z;
  date : Z;
  duration : Q;
  quality : string
}.

Definition set_duration (s : t) (d : Q) : t :=
  mk (user s) (sleepStart s) (sleepEnd s) (date s) d (quality s).

Definition calculateDuration (zone : Date.Zone) (s : t) : t * Q :=
  match sleepStart s, sleepEnd s with
  | Some start, Some end_ =>
      let startTime := start in
      let endTime := end_ in
      (* Handle case where sleep crosses midnight *)
      let endTime :=
        if (endTime <? startTime)%Z then Date.setDateBy zone 1 endTime else endTime in
      let durationMs := (endTime - startTime)%Z in
      let s' := set_duration s
                  (inject_Z (JS.Math_round (inject_Z durationMs / (1000 * 60)))) in
      (s', duration s')
  | _, _ => (s, 0)
  end.

Definition qualityScores : list (string * Q) :=
  [("poor", 25); ("fair", 50); ("good", 75); ("excellent", 100)].

(** [qualityScores[this.quality] || 75], for a [quality] that names an own
    property or nothing at all; the schema admits the four names of the
    table only. *)
Definition getQualityScore (s : t) : Q :=
  match JS.get qualityScores (quality s) with
  | Some score => if Qeq_bool score 0 then 75 else score
  | None => 75
  end.

Definition isHealthyDuration (s : t) : bool :=
  let hours := duration s / 60 in
  Qle_bool 7 hours && Qle_bool hours 9.

End Sleep.

(** ** models/Progress.js *)

Module Progress.

Record t : Type := mk {
  user : JS.ObjectId;
  date : Z;
  weight : Q
}.

Definition calculateBMI (users : User.Store) (p : t) : JS.Settled JS.Number :=
  match users (user p) with
  | None => JS.Rejected "User not found"
  | Some u =>
      let heightInMeters := User.height u / 100 in
      let bmi := JS.div (weight p) (heightInMeters * heightInMeters) in
      JS.Resolved (JS.scale_down (JS.round (JS.mul bmi 10)) 10)
  end.

(** The [if]/[else if] chain that assigns [category]. *)
Definition categoryOf (bmi : JS.Number) : string :=
  if JS.ltb bmi 18.5 then "Underweight"
  else if JS.geb bmi 18.5 && JS.ltb bmi 25 then "Normal weight"
  else if JS.geb bmi 25 && JS.ltb bmi 30 then "Overweight"
  else "Obese".

Definition getBMICategory (users : User.Store) (p : t)
  : JS.Settled (JS.Number * string) :=
  match calculateBMI users p with
  | JS.Rejected e => JS.Rejected e
  | JS.Resolved bmi =>
      let category := categoryOf bmi in
      JS.Resolved (bmi, category)
  end.

End Progress.

(** ** The numeric methods on binary64 numbers

    The same methods with every Number a primitive float and every
    operation the rounded operation of IEEE 754 double precision, in the
    order the source writes them.  A document is the record of the paths the
    methods read or assign. *)

Module Double.

Module User.

Record t : Type := mk {
  _id : JS.ObjectId;
  gender : User.Gender;
  age : float;
  weight : float;
  height : float
}.

Definition calculateBMR (u : t) : float :=
  let bmr :=
    match gender u with
    | User.male =>
        (88.362 + (13.397 * weight u) + (4.799 * height u) - (5.677 * age u))%float
    | _ =>
        (447.593 + (9.247 * weight u) + (3.098 * height u) - (4.330 * age u))%float
    end in
  Binary64.round bmr.

Definition Store : Type := JS.ObjectId -> option t.

End User.

Module Workout.

Definition MET_VALUES : list (string * list (string * float)) :=
  [ ("running", [("5 mph", 8.3); ("6 mph", 9.8); ("7 mph", 11.0);
                 ("8 mph", 11.8); ("9 mph", 12.8); ("10 mph", 14.5)]);
    ("cycling", [("leisurely", 3.5); ("moderate", 6.8); ("vigorous", 10.0);
                 ("racing", 15.8)]);
    ("swimming", [("leisurely", 5.8); ("moderate", 7.0); ("vigorous", 9.8)]);
    ("yoga", [("hatha", 2.5); ("power", 4.0); ("vinyasa", 3.0)]);
    ("weightlifting", [("light", 3.0); ("moderate", 5.0); ("vigorous", 6.0)]);
    ("walking", [("slow", 2.0); ("moderate", 3.5); ("brisk", 4.3);
                 ("very_brisk", 5.0)]);
    ("dancing", [("slow", 3.0); ("moderate", 4.8); ("fast", 5.5)]);
    ("basketball", [("casual", 6.0); ("competitive", 8.0)]);
    ("soccer", [("casual", 7.0); ("competitive", 10.0)]);
    ("tennis", [("singles", 8.0); ("doubles", 5.0)]);
    ("hiking", [("easy", 4.0); ("moderate", 6.0); ("strenuous", 8.0)]) ]%float.

Record t : Type := mk {
  user : JS.ObjectId;
  exerciseType : string;
  intensity : string;
  duration : float;
  caloriesBurned : float
}.

Definition set_caloriesBurned (w : t) (c : float) : t :=
  mk (user w) (exerciseType w) (intensity w) (duration w) c.

(** [MET_VALUES[exerciseType]?.[intensity]]: the own property of the row
    when there is one, and else what the prototype chain gives. *)
Definition lookupMET (chain : JS.Chain) (exerciseType intensity : string) : JS.Read :=
  match JS.get MET_VALUES exerciseType with
  | Some byIntensity =>
      match JS.get byIntensity intensity with
      | Some met => JS.number met
      | None => chain exerciseType intensity
      end
  | None => chain exerciseType intensity
  end.

(** An exception inside the [then] callback reaches the [catch(reject)]. *)
Definition calculateCaloriesBurned (chain : JS.Chain) (users : User.Store) (w : t)
  : t * JS.Settled float :=
  match users (user w) with
  | None => (w, JS.Rejected "User not found")
  | Some u =>
      match lookupMET chain (exerciseType w) (intensity w) with
      | JS.throws message => (w, JS.Rejected message)
      | metValue =>
          if JS.falsy metValue
          then (w, JS.Rejected "Invalid exercise type or intensity")
          else
            let timeInHours := (duration w / 60)%float in
            let calories := (JS.ToNumber metValue * User.weight u * timeInHours)%float in
            let w' := set_caloriesBurned w (Binary64.round calories) in
            (w', JS.Resolved (caloriesBurned w'))
      end
  end.

(** [MET_VALUES[exerciseType]?.[intensity] || 0] *)
Definition getMETValue (chain : JS.Chain) (exerciseType intensity : string) : JS.Read :=
  match lookupMET chain exerciseType intensity with
  | JS.throws message => JS.throws message
  | metValue => if JS.falsy metValue then JS.number 0 else metValue
  end.

(** The rows of the table, as (exerciseType, intensity, MET) triples. *)
Definition MET_entries : list (string * string * float) :=
  flat_map (fun row => map (fun cell => (fst row, fst cell, snd cell)) (snd row))
           MET_VALUES.

End Workout.

Module Meal.

Record FoodItem : Type := mkFood {
  food_name : string;
  quantity : float;
  calories : float;
  protein : float;
  carbs : float;
  fat : float;
  fiber : float;
  sugar : float
}.

Record t : Type := mk {
  foods : list FoodItem;
  totalCalories : float;
  totalProtein : float;
  totalCarbs : float;
  totalFat : float;
  totalFiber : float;
  totalSugar : float
}.

Definition set_totals (m : t) (cal pro carb fat_ fib sug : float) : t :=
  mk (foods m) cal pro carb fat_ fib sug.

(** The body of the [forEach] callback. *)
Definition addFood (m : t) (food : FoodItem) : t :=
  set_totals m
    (totalCalories m + calories food * quantity food)%float
    (totalProtein m + protein food * quantity food)%float
    (totalCarbs m + carbs food * quantity food)%float
    (totalFat m + fat food * quantity food)%float
    (totalFiber m + fiber food * quantity food)%float
    (totalSugar m + sugar food * quantity food)%float.

(** [Math.round(x * 100) / 100] *)
Definition round2 (x : float) : float := (Binary64.round (x * 100) / 100)%float.

Definition calculateTotals (m : t) : t :=
  let zeroed := set_totals m 0 0 0 0 0 0 in
  let summed := fold_left addFood (foods zeroed) zeroed in
  set_totals summed
    (round2 (totalCalories summed))
    (round2 (totalProtein summed))
    (round2 (totalCarbs summed))
    (round2 (totalFat summed))
    (round2 (totalFiber summed))
    (round2 (totalSugar summed)).

End Meal.

Module Progress.

Record t : Type := mk {
  user : JS.ObjectId;
  weight : float
}.

Definition calculateBMI (users : User.Store) (p : t) : JS.Settled float :=
  match users (user p) with
  | None => JS.Rejected "User not found"
  | Some u =>
      let heightInMeters := (User.height u / 100)%float in
      let bmi := (weight p / (heightInMeters * heightInMeters))%float in
      JS.Resolved (Binary64.round (bmi * 10) / 10)%float
  end.

(** The [if]/[else if] chain that assigns [category]. *)
Definition categoryOf (bmi : float) : string :=
  if (bmi <? 18.5)%float then "Underweight"
  else if (18.5 <=? bmi)%float && (bmi <? 25)%float then "Normal weight"
  else if (25 <=? bmi)%float && (bmi <? 30)%float then "Overweight"
  else "Obese".

Definition getBMICategory (users : User.Store) (p : t)
  : JS.Settled (float * string) :=
  match calculateBMI users p with
  | JS.Rejected e => JS.Rejected e
  | JS.Resolved bmi =>
      let category := categoryOf bmi in
      JS.Resolved (bmi, category)
  end.

End Progress.

End Double.

(** ** The query operations the routes use *)

Module Mongo.

Section Sorting.
Context {A : Type} (leb : A -> A -> bool).

Fixpoint insert (x : A) (l : list A) : list A :=
  match l with
  | [] => [x]
  | y :: rest => if leb x y then x :: l else y :: insert x rest
  end.

(** [.sort(...)], stable. *)
Fixpoint sort (l : list A) : list A :=
  match l with
  | [] => []
  | x :: rest => insert x (sort rest)
  end.

End Sorting.

(** [.find(query)] / [$match] *)
Definition find {A : Type} (query : A -> bool) (collection : list A) : list A :=
  filter query collection.

(** [.limit(n)] *)
Definition limit {A : Type} (n : nat) (l : list A) : list A := firstn n l.

(** [{ date: -1 }] and [{ date: 1 }] *)
Definition dateDescending {A : Type} (date : A -> Z) (a b : A) : bool :=
  (date b <=? date a)%Z.
Definition dateAscending {A : Type} (date : A -> Z) (a b : A) : bool :=
  (date a <=? date b)%Z.

(** [xs[0] || fallback] on the result of an aggregation. *)
Definition firstOr {A : Type} (xs : list A) (fallback : A) : A :=
  match xs with
  | x :: _ => x
  | [] => fallback
  end.

(** The operator of a computed field of a [$group] stage.  The server takes
    an accumulator there ([$sum], [$avg], [$first], [$last]); an expression
    operator such as [$subtract] is no accumulator. *)
Inductive GroupOperator : Type := sum_ | avg_ | first_ | last_ | subtract_.

Definition accumulator (op : GroupOperator) : bool :=
  match op with
  | sum_ | avg_ | first_ | last_ => true
  | subtract_ => false
  end.

(** [Model.aggregate(pipeline)] for a pipeline that ends in a [$group]
    stage with the computed fields [fields]: the server refuses the pipeline,
    whatever the documents, unless every field is an accumulator. *)
Definition aggregate {A B : Type} (fields : list GroupOperator)
    (stages : list A -> list B) (collection : list A) : JS.Settled (list B) :=
  if forallb accumulator fields then JS.Resolved (stages collection)
  else JS.Rejected "unknown group operator".

End Mongo.

(** ** routes/dashboard.js *)

Module Dashboard.

Record Collections : Type := mkCollections {
  workouts : list Workout.t;
  meals : list Meal.t;
  sleeps : list Sleep.t;
  progress : list Progress.t
}.

(** What the handlers read from their surroundings: the local time zone
    adjustment, [Date.now()], and the first instant of the local calendar
    month of a date ([new Date(year, month, 1)]). *)
Record Env : Type := mkEnv {
  tza : Z;
  now : Z;
  startOfMonthOf : Z -> Z
}.

Record WorkoutSummary : Type := mkWorkoutSummary {
  w_count : Z;
  w_totalDuration : Q;
  w_totalCalories : Q;
  w_averageDuration : JS.Number
}.

Record MealSummary : Type := mkMealSummary {
  m_count : Z;
  m_totalCalories : Q;
  m_totalProtein : Q;
  m_totalCarbs : Q;
  m_totalFat : Q
}.

Record SleepSummary : Type := mkSleepSummary {
  s_count : Z;
  s_totalDuration : Q;
  s_averageDuration : JS.Number;
  s_averageQuality : JS.Number
}.

Record Summary : Type := mkSummary {
  sum_workouts : WorkoutSummary;
  sum_meals : MealSummary;
  sum_sleep : SleepSummary
}.

(** [xs.length] *)
Definition len {A : Type} (xs : list A) : Z := Z.of_nat (List.length xs).

(** [xs.length > 0 ? Math.round(xs.reduce(...) / xs.length) : 0] *)
Definition average {A : Type} (f : A -> Q) (xs : list A) : JS.Number :=
  if (0 <? len xs)%Z then JS.round (JS.div (JS.sumBy f xs) (inject_Z (len xs)))
  else JS.Finite 0.

(** The object literal of [dailySummary] and [weeklySummary]. *)
Definition summary (ws : list Workout.t) (ms : list Meal.t) (ss : list Sleep.t)
  : Summary :=
  {| sum_workouts :=
       {| w_count := len ws;
          w_totalDuration := JS.sumBy Workout.duration ws;
          w_totalCalories := JS.sumBy Workout.caloriesBurned ws;
          w_averageDuration := average Workout.duration ws |};
     sum_meals :=
       {| m_count := len ms;
          m_totalCalories := JS.sumBy Meal.totalCalories ms;
          m_totalProtein := JS.sumBy Meal.totalProtein ms;
          m_totalCarbs := JS.sumBy Meal.totalCarbs ms;
          m_totalFat := JS.sumBy Meal.totalFat ms |};
     sum_sleep :=
       {| s_count := len ss;
          s_totalDuration := JS.sumBy Sleep.duration ss;
          s_averageDuration := average Sleep.duration ss;
          s_averageQuality := average Sleep.getQualityScore ss |} |}.

Record ProgressSummary : Type := mkProgressSummary {
  currentWeight : Q;
  weightChange : Q;
  monthlyEntries : Z;
  recentEntries : list Progress.t
}.

Record Response : Type := mkResponse {
  r_date : Z;
  user_bmi : string;
  dailyCalorieNeeds : Z;
  daily_summary : Summary;
  calorieBalance : Q;
  calorieDeficit : Q;
  daily_workouts : list Workout.t;
  daily_meals : list Meal.t;
  daily_sleep : list Sleep.t;
  weekly_summary : Summary;
  progress_summary : ProgressSummary;
  currentBMI : option string;          (* [None] is [null] *)
  goalProgress : JS.Number;
  weightTrend : list (Z * Q)
}.

(** The instants the handler derives from [req.query.date]. *)
Definition targetDate (env : Env) (date : option Z) : Z :=
  match date with
  | Some d => d
  | None => now env
  end.

Definition startOfDay (env : Env) (date : option Z) : Z :=
  Date.setHours (tza env) 0 0 0 0 (targetDate env date).

Definition endOfDay (env : Env) (date : option Z) : Z :=
  Date.setHours (tza env) 23 59 59 999 (targetDate env date).

(** Start of week (Sunday) *)
Definition startOfWeek (env : Env) (date : option Z) : Z :=
  Date.setHours (tza env) 0 0 0 0
    (Date.addDays (tza env) (- Date.getDay (tza env) (targetDate env date))
       (targetDate env date)).

(** [new Date(Date.now() - 30 * 24 * 60 * 60 * 1000)] *)
Definition lookbackStart (env : Env) : Z :=
  (now env - 30 * 24 * 60 * 60 * 1000)%Z.

(** [{ user: req.user.id, date: { $gte: start, $lte: stop } }] *)
Definition between (user : User.t) (start stop : Z) (owner : JS.ObjectId) (d : Z) : bool :=
  (owner =? User._id user)%Z && (start <=? d)%Z && (d <=? stop)%Z.

(** [{ user: req.user.id, date: { $gte: start } }] *)
Definition since (user : User.t) (start : Z) (owner : JS.ObjectId) (d : Z) : bool :=
  (owner =? User._id user)%Z && (start <=? d)%Z.

(** The eighth query of the handler:
    [Progress.find({user, date: {$gte: now - 30 days}}).sort({date: -1}).limit(10)] *)
Definition recentProgress (env : Env) (db : Collections) (user : User.t)
  : list Progress.t :=
  Mongo.limit 10
    (Mongo.sort (Mongo.dateDescending Progress.date)
       (Mongo.find
          (fun p => since user (lookbackStart env) (Progress.user p) (Progress.date p))
          (progress db))).

Definition progressSummary (user : User.t) (monthlyProgress recentProgress : list Progress.t)
  : ProgressSummary :=
  {| currentWeight :=
       match recentProgress with
       | p :: _ => Progress.weight p
       | [] => User.weight user
       end;
     weightChange :=
       if (1 <? len recentProgress)%Z then
         match nth_error recentProgress 0,
               nth_error recentProgress (List.length recentProgress - 1) with
         | Some first, Some last_ => Progress.weight first - Progress.weight last_
         | _, _ => 0   (* not reached: both indices are in range *)
         end
       else 0;
     monthlyEntries := len monthlyProgress;
     recentEntries := firstn 5 recentProgress |}.

(** [let currentBMI = null; if (recentProgress.length > 0) { ... }] *)
Definition computeCurrentBMI (user : User.t) (recentProgress : list Progress.t)
  : option string :=
  match recentProgress with
  | p :: _ =>
      let heightInMeters := User.height user / 100 in
      Some (JS.toFixed1 (JS.div (Progress.weight p) (heightInMeters * heightInMeters)))
  | [] => None
  end.

(** [req.user.targetWeight ? Math.abs(((target - current) / (weight - target)) * 100) : 0] *)
Definition computeGoalProgress (user : User.t) (summary : ProgressSummary) : JS.Number :=
  match User.targetWeight user with
  | Some target =>
      if Qeq_bool target 0 then JS.Finite 0
      else
        JS.Math_abs
          (JS.mul (JS.div (target - currentWeight summary) (User.weight user - target)) 100)
  | None => JS.Finite 0
  end.

(** [GET /api/dashboard] *)
Definition getDashboard (env : Env) (db : Collections) (user : User.t)
    (date : option Z) : Response :=
  let startOfMonth := startOfMonthOf env (targetDate env date) in
  let inDay := between user (startOfDay env date) (endOfDay env date) in
  let inWeek := since user (startOfWeek env date) in
  let dailyWorkouts :=
    Mongo.sort (Mongo.dateDescending Workout.date)
      (Mongo.find (fun w => inDay (Workout.user w) (Workout.date w)) (workouts db)) in
  let dailyMeals :=
    Mongo.sort (Mongo.dateDescending Meal.date)
      (Mongo.find (fun m => inDay (Meal.user m) (Meal.date m)) (meals db)) in
  let dailySleep :=
    Mongo.sort (Mongo.dateDescending Sleep.date)
      (Mongo.find (fun s => inDay (Sleep.user s) (Sleep.date s)) (sleeps db)) in
  let weeklyWorkouts :=
    Mongo.sort (Mongo.dateDescending Workout.date)
      (Mongo.find (fun w => inWeek (Workout.user w) (Workout.date w)) (workouts db)) in
  let weeklyMeals :=
    Mongo.sort (Mongo.dateDescending Meal.date)
      (Mongo.find (fun m => inWeek (Meal.user m) (Meal.date m)) (meals db)) in
  let weeklySleep :=
    Mongo.sort (Mongo.dateDescending Sleep.date)
      (Mongo.find (fun s => inWeek (Sleep.user s) (Sleep.date s)) (sleeps db)) in
  let monthlyProgress :=
    Mongo.sort (Mongo.dateDescending Progress.date)
      (Mongo.find (fun p => since user startOfMonth (Progress.user p) (Progress.date p))
         (progress db)) in
  let recentProgress := recentProgress env db user in
  let dailySummary := summary dailyWorkouts dailyMeals dailySleep in
  let weeklySummary := summary weeklyWorkouts weeklyMeals weeklySleep in
  let progressSummary := progressSummary user monthlyProgress recentProgress in
  let currentBMI := computeCurrentBMI user recentProgress in
  let dailyCalorieIntake := m_totalCalories (sum_meals dailySummary) in
  let dailyCalorieBurned := w_totalCalories (sum_workouts dailySummary) in
  let dailyCalorieBalance := dailyCalorieIntake - dailyCalorieBurned in
  let dailyCalorieNeeds := User.calculateDailyCalories user in
  {| r_date := targetDate env date;
     user_bmi := User.calculateBMI user;
     dailyCalorieNeeds := dailyCalorieNeeds;
     daily_summary := dailySummary;
     calorieBalance := dailyCalorieBalance;
     calorieDeficit := inject_Z dailyCalorieNeeds - dailyCalorieIntake;
     daily_workouts := dailyWorkouts;
     daily_meals := dailyMeals;
     daily_sleep := dailySleep;
     weekly_summary := weeklySummary;
     progress_summary := progressSummary;
     currentBMI := currentBMI;
     goalProgress := computeGoalProgress user progressSummary;
     weightTrend := map (fun p => (Progress.date p, Progress.weight p)) recentProgress |}.

(** *** [GET /api/dashboard/stats] *)

Record WorkoutStats : Type := mkWorkoutStats {
  totalWorkouts : Z;
  ws_totalDuration : Q;
  ws_totalCalories : Q;
  ws_averageDuration : Q;
  ws_averageCalories : Q
}.

Record MealStats : Type := mkMealStats {
  totalMeals : Z;
  ms_totalCalories : Q;
  ms_totalProtein : Q;
  ms_totalCarbs : Q;
  ms_totalFat : Q;
  ms_averageCalories : Q
}.

Record SleepStats : Type := mkSleepStats {
  totalSleepRecords : Z;
  totalSleepTime : Q;
  ss_averageDuration : Q;
  ss_averageQuality : Q
}.

Record ProgressStats : Type := mkProgressStats {
  totalEntries : Z;
  ps_currentWeight : Q;
  ps_startingWeight : Q;
  ps_weightChange : Q;
  ps_averageWeight : Q
}.

Record Stats : Type := mkStats {
  stats_workouts : WorkoutStats;
  stats_meals : MealStats;
  stats_sleep : SleepStats;
  stats_progress : ProgressStats
}.

(** [$avg]: over the documents of a group, which is never empty. *)
Definition avg {A : Type} (f : A -> Q) (docs : list A) : Q :=
  JS.sumBy f docs / inject_Z (len docs).

(** [$group] with [_id: null]: one document for all matched documents, and
    no document when nothing matched. *)
Definition group {A B : Type} (accumulate : list A -> B) (docs : list A) : list B :=
  match docs with
  | [] => []
  | _ :: _ => [accumulate docs]
  end.

(** The [$switch] on [$quality]. *)
Definition qualitySwitch (s : Sleep.t) : Q :=
  if String.eqb (Sleep.quality s) "poor" then 25
  else if String.eqb (Sleep.quality s) "fair" then 50
  else if String.eqb (Sleep.quality s) "good" then 75
  else if String.eqb (Sleep.quality s) "excellent" then 100
  else 75.

(** [$first] and [$last] of a non-empty group. *)
Definition firstWeight (docs : list Progress.t) : Q :=
  match docs with
  | p :: _ => Progress.weight p
  | [] => 0
  end.
Definition lastWeight (docs : list Progress.t) : Q :=
  firstWeight (rev docs).

(** The handler, from the start instant its [switch (period)] computed.
    The four aggregations run under one [Promise.all] inside the [try]; when
    one of them rejects, the [catch] answers 500 with the message
    'Server error', written [JS.Rejected "Server error"]. *)
Definition getStats (db : Collections) (user : User.t) (startDate : Z)
  : JS.Settled Stats :=
  let matches := since user startDate in
  let workoutStats :=
    Mongo.aggregate [Mongo.sum_; Mongo.sum_; Mongo.sum_; Mongo.avg_; Mongo.avg_]
      (fun collection =>
         group (fun docs =>
                  {| totalWorkouts := len docs;
                     ws_totalDuration := JS.sumBy Workout.duration docs;
                     ws_totalCalories := JS.sumBy Workout.caloriesBurned docs;
                     ws_averageDuration := avg Workout.duration docs;
                     ws_averageCalories := avg Workout.caloriesBurned docs |})
           (Mongo.find (fun w => matches (Workout.user w) (Workout.date w)) collection))
      (workouts db) in
  let mealStats :=
    Mongo.aggregate
      [Mongo.sum_; Mongo.sum_; Mongo.sum_; Mongo.sum_; Mongo.sum_; Mongo.avg_]
      (fun collection =>
         group (fun docs =>
                  {| totalMeals := len docs;
                     ms_totalCalories := JS.sumBy Meal.totalCalories docs;
                     ms_totalProtein := JS.sumBy Meal.totalProtein docs;
                     ms_totalCarbs := JS.sumBy Meal.totalCarbs docs;
                     ms_totalFat := JS.sumBy Meal.totalFat docs;
                     ms_averageCalories := avg Meal.totalCalories docs |})
           (Mongo.find (fun m => matches (Meal.user m) (Meal.date m)) collection))
      (meals db) in
  let sleepStats :=
    Mongo.aggregate [Mongo.sum_; Mongo.sum_; Mongo.avg_; Mongo.avg_]
      (fun collection =>
         group (fun docs =>
                  {| totalSleepRecords := len docs;
                     totalSleepTime := JS.sumBy Sleep.duration docs;
                     ss_averageDuration := avg Sleep.duration docs;
                     ss_averageQuality := avg qualitySwitch docs |})
           (Mongo.find (fun s => matches (Sleep.user s) (Sleep.date s)) collection))
      (sleeps db) in
  let progressStats :=
    Mongo.aggregate
      [Mongo.sum_; Mongo.last_; Mongo.first_; Mongo.subtract_; Mongo.avg_]
      (fun collection =>
         group (fun docs =>
                  {| totalEntries := len docs;
                     ps_currentWeight := lastWeight docs;
                     ps_startingWeight := firstWeight docs;
                     ps_weightChange := lastWeight docs - firstWeight docs;
                     ps_averageWeight := avg Progress.weight docs |})
           (Mongo.sort (Mongo.dateAscending Progress.date)
              (Mongo.find (fun p => matches (Progress.user p) (Progress.date p))
                 collection)))
      (progress db) in
  match workoutStats, mealStats, sleepStats, progressStats with
  | JS.Resolved workoutStats, JS.Resolved mealStats, JS.Resolved sleepStats,
    JS.Resolved progressStats =>
      JS.Resolved
        {| stats_workouts :=
             Mongo.firstOr workoutStats
               {| totalWorkouts := 0; ws_totalDuration := 0; ws_totalCalories := 0;
                  ws_averageDuration := 0; ws_averageCalories := 0 |};
           stats_meals :=
             Mongo.firstOr mealStats
               {| totalMeals := 0; ms_totalCalories := 0; ms_totalProtein := 0;
                  ms_totalCarbs := 0; ms_totalFat := 0; ms_averageCalories := 0 |};
           stats_sleep :=
             Mongo.firstOr sleepStats
               {| totalSleepRecords := 0; totalSleepTime := 0;
                  ss_averageDuration := 0; ss_averageQuality := 0 |};
           stats_progress :=
             Mongo.firstOr progressStats
               {| totalEntries := 0; ps_currentWeight := 0; ps_startingWeight := 0;
                  ps_weightChange := 0; ps_averageWeight := 0 |} |}
  | _, _, _, _ => JS.Rejected "Server error"
  end.

End Dashboard.

(** ** Vocabulary of the specification *)

Module Spec.

(** [n] is the integer nearest to [x], a tie going to the larger one. *)
Definition nearest (x : Q) (n : Z) : Prop :=
  inject_Z n - (1 # 2) <= x /\ x < inject_Z n + (1 # 2).

(** [r] is [x] rounded half-up to two decimals: [r = k / 100] for the integer
    [k] nearest to [100 x]. *)
Definition half_up_2dp (x r : Q) : Prop :=
  exists k : Z, r == inject_Z k / 100 /\ nearest (x * 100) k.

(** The Harris-Benedict variant of section 4.1: one formula for male, the
    female formula for female and for other. *)
Definition bmr (g : User.Gender) (w h a : Q) : Q :=
  match g with
  | User.male => 88.362 + 13.397 * w + 4.799 * h - 5.677 * a
  | User.female => 447.593 + 9.247 * w + 3.098 * h - 4.330 * a
  | User.other => 447.593 + 9.247 * w + 3.098 * h - 4.330 * a
  end.

(** BMI of section 4.1: weight / (height / 100)^2, to one decimal. *)
Definition bmi (w h : Q) : Q :=
  inject_Z (JS.Math_round (w / (h / 100 * (h / 100)) * 10)) / 10.

(** A record of [owner] dated [d] falls in the window of [user] that starts
    at [start] and, when [stop] is given, ends at [stop]. *)
Definition inWindow (user : User.t) (start : Z) (stop : option Z)
    (owner : JS.ObjectId) (d : Z) : Prop :=
  owner = User._id user /\ (start <= d)%Z /\
  match stop with
  | Some e => (d <= e)%Z
  | None => True
  end.

(** The progress records of [user] within the 30-day lookback window. *)
Definition inLookback (env : Dashboard.Env) (user : User.t) (p : Progress.t) : Prop :=
  inWindow user (Dashboard.lookbackStart env) None (Progress.user p) (Progress.date p).

(** All of them, in stored order, as the query's filter selects them. *)
Definition window (env : Dashboard.Env) (db : Dashboard.Collections) (user : User.t)
  : list Progress.t :=
  filter
    (fun p => Dashboard.since user (Dashboard.lookbackStart env)
                (Progress.user p) (Progress.date p))
    (Dashboard.progress db).

(** Thirty days, in milliseconds. *)
Definition thirtyDays : Z := 2592000000.

(** The progress records of [user] dated within the thirty days before
    now, in stored order. *)
Definition last30Days (env : Dashboard.Env) (db : Dashboard.Collections) (user : User.t)
  : list Progress.t :=
  filter
    (fun p => (Progress.user p =? User._id user)%Z
              && (Dashboard.now env - thirtyDays <=? Progress.date p)%Z)
    (Dashboard.progress db).

(** Newest first, and oldest first, on the dates of progress records and of
    the points of a trend series. *)
Definition newestFirst (a b : Progress.t) : Prop :=
  (Progress.date b <= Progress.date a)%Z.
Definition descendingDates (a b : Z * Q) : Prop := (fst b <= fst a)%Z.
Definition ascendingDates (a b : Z * Q) : Prop := (fst a <= fst b)%Z.

(** Summaries whose numeric fields are all zero. *)
Definition zeroWorkoutSummary : Dashboard.WorkoutSummary :=
  Dashboard.mkWorkoutSummary 0 0 0 (JS.Finite 0).
Definition zeroMealSummary : Dashboard.MealSummary :=
  Dashboard.mkMealSummary 0 0 0 0 0.
Definition zeroSleepSummary : Dashboard.SleepSummary :=
  Dashboard.mkSleepSummary 0 0 (JS.Finite 0) (JS.Finite 0).

(** [average] is the average of [count] values of sum [total] as the
    dashboard reports it: 0 for no value, and else the integer nearest to the
    quotient. *)
Definition roundedAverage (total : Q) (count : Z) (average : JS.Number) : Prop :=
  (count = 0%Z -> average = JS.Finite 0) /\
  ((0 < count)%Z ->
   exists n : Z, average = JS.Finite (inject_Z n) /\ nearest (total / inject_Z count) n).

(** The three averages of a dashboard summary: the two with a total next to
    them, and the average quality, whose total, the sum of the quality scores
    of the sleep records of the window, is not reported. *)
Definition roundedAverages (s : Dashboard.Summary) (qualityTotal : Q) : Prop :=
  roundedAverage (Dashboard.w_totalDuration (Dashboard.sum_workouts s))
    (Dashboard.w_count (Dashboard.sum_workouts s))
    (Dashboard.w_averageDuration (Dashboard.sum_workouts s)) /\
  roundedAverage (Dashboard.s_totalDuration (Dashboard.sum_sleep s))
    (Dashboard.s_count (Dashboard.sum_sleep s))
    (Dashboard.s_averageDuration (Dashboard.sum_sleep s)) /\
  roundedAverage qualityTotal
    (Dashboard.s_count (Dashboard.sum_sleep s))
    (Dashboard.s_averageQuality (Dashboard.sum_sleep s)).

(** The qualities the schema admits. *)
Definition qualities : list string := ["poor"; "fair"; "good"; "excellent"].

(** The score of a quality of the schema: 25, 50, 75, 100 for poor, fair,
    good, excellent; no score, written 0, for any other name. *)
Definition qualityScore (quality : string) : Q :=
  if String.eqb quality "poor" then 25
  else if String.eqb quality "fair" then 50
  else if String.eqb quality "good" then 75
  else if String.eqb quality "excellent" then 100
  else 0.

(** The sum of the quality scores of the sleep records of [user] in a
    window, in stored order. *)
Definition qualityTotal (user : User.t) (start : Z) (stop : option Z)
    (sleeps : list Sleep.t) : Q :=
  JS.sumBy (fun s => qualityScore (Sleep.quality s))
    (filter
       (fun s => (Sleep.user s =? User._id user)%Z
                 && (start <=? Sleep.date s)%Z
                 && match stop with
                    | Some e => (Sleep.date s <=? e)%Z
                    | None => true
                    end)
       sleeps).



End Spec.

(** ** Vocabulary of the specification, on binary64 numbers *)

Module SpecDouble.

(** [r] is [x] rounded to the nearest integer, as a binary64 number: the
    integer nearest to the exact value of [x], a tie going to the larger one;
    [x] itself when it is not finite or is 2^52 or more in absolute value,
    where every number is an integer. *)
Definition rounded (x r : float) : Prop :=
  match Binary64.exact x with
  | Some q =>
      if Qle_bool 4503599627370496 (Qabs q) then r = x
      else exists n : Z,
             Spec.nearest q n /\ r = Binary64.integer (PrimFloat.get_sign x) n
  | None => r = x
  end.

(** The formula of section 4.1 for the basal metabolic rate, each operation
    a binary64 operation, from left to right. *)
Definition bmr (g : User.Gender) (w h a : float) : float :=
  match g with
  | User.male => (88.362 + 13.397 * w + 4.799 * h - 5.677 * a)%float
  | User.female => (447.593 + 9.247 * w + 3.098 * h - 4.330 * a)%float
  | User.other => (447.593 + 9.247 * w + 3.098 * h - 4.330 * a)%float
  end.

(** The sum over the items of [field * quantity], accumulated from 0 in the
    order of the list. *)
Definition sum (field : Double.Meal.FoodItem -> float) (items : list Double.Meal.FoodItem)
  : float :=
  fold_left (fun total item => (total + field item * Double.Meal.quantity item)%float)
    items 0%float.

(** [r] is [x] rounded to two decimals the binary64 way: the quotient by 100
    of the integer nearest to the product [x * 100]. *)
Definition rounded_2dp (x r : float) : Prop :=
  exists k : float, rounded (x * 100)%float k /\ r = (k / 100)%float.

End SpecDouble.

(** ** Sample data for the worked examples of the specification *)

Module Examples.

(** A male user of 80 kg, 180 cm and 30 years. *)
Definition alex : User.t :=
  {| User._id := 1%Z; User.name := "Alex"; User.gender := User.male;
     User.age := 30; User.weight := 80; User.height := 180;
     User.activityLevel := User.moderately_active;
     User.goal := User.maintain_weight; User.targetWeight := None |}.

Definition users : User.Store :=
  fun id => if (id =? 1)%Z then Some alex else None.

(** Thirty minutes of running at 6 mph. *)
Definition run : Workout.t :=
  {| Workout.user := 1%Z; Workout.exerciseType := "running";
     Workout.intensity := "6 mph"; Workout.duration := 30;
     Workout.date := 0%Z; Workout.caloriesBurned := 0 |}.

(** Two food items: 100 kcal per unit, 2 units; 50 kcal per unit, 1 unit. *)
Definition lunch : Meal.t :=
  {| Meal.user := 1%Z; Meal.name := "Lunch"; Meal.mealType := "lunch";
     Meal.date := 0%Z;
     Meal.foods :=
       [ Meal.mkFood "rice" 2 "serving" 100 0 0 0 0 0;
         Meal.mkFood "apple" 1 "piece" 50 0 0 0 0 0 ];
     Meal.totalCalories := 0; Meal.totalProtein := 0; Meal.totalCarbs := 0;
     Meal.totalFat := 0; Meal.totalFiber := 0; Meal.totalSugar := 0 |}.

(** Clock times on the first day of the epoch, in milliseconds. *)
Definition at2300 : Z := (23 * Date.msPerHour)%Z.
Definition at0600 : Z := (6 * Date.msPerHour)%Z.

(** Asleep at 23:00, awake at 06:00, both entered on the same calendar date. *)
Definition night : Sleep.t :=
  {| Sleep.user := 1%Z; Sleep.sleepStart := Some at2300;
     Sleep.sleepEnd := Some at0600; Sleep.date := 0%Z;
     Sleep.duration := 0; Sleep.quality := "good" |}.

(** The same night with the end entered on the next calendar date. *)
Definition nightNextDay : Sleep.t :=
  {| Sleep.user := 1%Z; Sleep.sleepStart := Some at2300;
     Sleep.sleepEnd := Some (Date.msPerDay + at0600)%Z; Sleep.date := 0%Z;
     Sleep.duration := 0; Sleep.quality := "good" |}.

(** A user 200 cm tall, alone in a store, and a progress record of that user
    at a given weight: at 74, 100 and 120 kg the BMI is exactly 18.5, 25 and
    30. *)
Definition tall : User.t :=
  {| User._id := 2%Z; User.name := "Sam"; User.gender := User.other;
     User.age := 40; User.weight := 74; User.height := 200;
     User.activityLevel := User.sedentary;
     User.goal := User.maintain_weight; User.targetWeight := None |}.

Definition tallOnly : User.Store :=
  fun id => if (id =? 2)%Z then Some tall else None.

Definition weighing (kg : Q) : Progress.t :=
  {| Progress.user := 2%Z; Progress.date := 0%Z; Progress.weight := kg |}.

(** An end two days before the start. *)
Definition reversed : Sleep.t :=
  {| Sleep.user := 1%Z; Sleep.sleepStart := Some (2 * Date.msPerDay)%Z;
     Sleep.sleepEnd := Some 0%Z; Sleep.date := 0%Z;
     Sleep.duration := 0; Sleep.quality := "good" |}.

(** A zone one hour east of UTC that moves its clocks from 02:00 to 03:00 on
    the second day of the epoch, at 01:00 UTC; a local time in the skipped
    hour is read with the offset before the change. *)
Definition springForward : Date.Zone :=
  {| Date.offsetAt :=
       fun t => if (t <? 25 * Date.msPerHour)%Z then Date.msPerHour
                else (2 * Date.msPerHour)%Z;
     Date.offsetOfLocal :=
       fun l => if (l <? 27 * Date.msPerHour)%Z then Date.msPerHour
                else (2 * Date.msPerHour)%Z |}.

(** Asleep at 23:00 and awake at 06:00 local time of that zone, both entered
    on the first day: 22:00 and 05:00 UTC. *)
Definition shortNight : Sleep.t :=
  {| Sleep.user := 1%Z; Sleep.sleepStart := Some (22 * Date.msPerHour)%Z;
     Sleep.sleepEnd := Some (5 * Date.msPerHour)%Z; Sleep.date := 0%Z;
     Sleep.duration := 0; Sleep.quality := "good" |}.

(** Awake at 06:00 local time of the first day of that zone, asleep 23 and a
    half hours later: 05:00 and 28:30 UTC. *)
Definition lateStart : Sleep.t :=
  {| Sleep.user := 1%Z;
     Sleep.sleepStart := Some (28 * Date.msPerHour + 1800000)%Z;
     Sleep.sleepEnd := Some (5 * Date.msPerHour)%Z; Sleep.date := 0%Z;
     Sleep.duration := 0; Sleep.quality := "good" |}.

(** The server clock: UTC, the thirteenth day of the epoch at 00:00. *)
Definition env : Dashboard.Env :=
  {| Dashboard.tza := 0%Z;
     Dashboard.now := (12 * Date.msPerDay)%Z;
     Dashboard.startOfMonthOf := fun _ => 0%Z |}.

Definition noRecords : Dashboard.Collections :=
  {| Dashboard.workouts := []; Dashboard.meals := []; Dashboard.sleeps := [];
     Dashboard.progress := [] |}.

(** Weigh-ins of user 1 at noon of day [day]. *)
Definition weighIn (day : Z) (kg : Q) : Progress.t :=
  {| Progress.user := 1%Z;
     Progress.date := (day * Date.msPerDay + 12 * Date.msPerHour)%Z;
     Progress.weight := kg |}.

(** Two weigh-ins, stored oldest first. *)
Definition twoWeighIns : Dashboard.Collections :=
  {| Dashboard.workouts := []; Dashboard.meals := []; Dashboard.sleeps := [];
     Dashboard.progress := [weighIn 10 80; weighIn 11 79] |}.

(** Eleven weigh-ins on eleven days of the last thirty, one kilogram more
    each day. *)
Definition elevenWeighIns : Dashboard.Collections :=
  {| Dashboard.workouts := []; Dashboard.meals := []; Dashboard.sleeps := [];
     Dashboard.progress :=
       [ weighIn 1 61; weighIn 2 62; weighIn 3 63; weighIn 4 64; weighIn 5 65;
         weighIn 6 66; weighIn 7 67; weighIn 8 68; weighIn 9 69; weighIn 10 70;
         weighIn 11 71 ] |}.

(** Two workouts of user 1 on the day of [env], of 30 and 45 minutes. *)
Definition workoutOf (minutes : Q) : Workout.t :=
  {| Workout.user := 1%Z; Workout.exerciseType := "yoga";
     Workout.intensity := "hatha"; Workout.duration := minutes;
     Workout.date := (12 * Date.msPerDay + 8 * Date.msPerHour)%Z;
     Workout.caloriesBurned := 100 |}.

Definition twoWorkouts : Dashboard.Collections :=
  {| Dashboard.workouts := [workoutOf 30; workoutOf 45]; Dashboard.meals := [];
     Dashboard.sleeps := []; Dashboard.progress := [] |}.

(** Two sleep records of user 1 on the day of [env]: a good night of 420
    minutes and a poor one of 300. *)
Definition nightOf (quality : string) (minutes : Q) : Sleep.t :=
  {| Sleep.user := 1%Z; Sleep.sleepStart := None; Sleep.sleepEnd := None;
     Sleep.date := (12 * Date.msPerDay + Date.msPerHour)%Z;
     Sleep.duration := minutes; Sleep.quality := quality |}.

Definition twoNights : Dashboard.Collections :=
  {| Dashboard.workouts := []; Dashboard.meals := [];
     Dashboard.sleeps := [nightOf "good" 420; nightOf "poor" 300];
     Dashboard.progress := [] |}.

(** A user whose stored weight is the target weight. *)
Definition arrived : User.t :=
  {| User._id := 3%Z; User.name := "Kim"; User.gender := User.female;
     User.age := 35; User.weight := 70; User.height := 170;
     User.activityLevel := User.lightly_active;
     User.goal := User.maintain_weight; User.targetWeight := Some 70 |}.

(** One weigh-in of that user, two kilograms above the target. *)
Definition oneWeighInAbove : Dashboard.Collections :=
  {| Dashboard.workouts := []; Dashboard.meals := []; Dashboard.sleeps := [];
     Dashboard.progress :=
       [ {| Progress.user := 3%Z; Progress.date := (11 * Date.msPerDay)%Z;
            Progress.weight := 72 |} ] |}.

End Examples.

(** ** The sample data on binary64 numbers *)

Module DoubleExamples.

(** A male user of 80 kg, 180 cm and 30 years. *)
Definition alex : Double.User.t :=
  {| Double.User._id := 1%Z; Double.User.gender := User.male;
     Double.User.age := 30; Double.User.weight := 80; Double.User.height := 180 |}.

(** A male user of 75 kg, and one of 88 kg, 165 cm and 29 years. *)
Definition kai : Double.User.t :=
  {| Double.User._id := 2%Z; Double.User.gender := User.male;
     Double.User.age := 40; Double.User.weight := 75; Double.User.height := 175 |}.

Definition lee : Double.User.t :=
  {| Double.User._id := 3%Z; Double.User.gender := User.male;
     Double.User.age := 29; Double.User.weight := 88; Double.User.height := 165 |}.

Definition users : Double.User.Store :=
  fun id => if (id =? 1)%Z then Some alex
            else if (id =? 2)%Z then Some kai
            else if (id =? 3)%Z then Some lee
            else None.

(** Thirty minutes of running at 6 mph, by alex. *)
Definition run : Double.Workout.t :=
  {| Double.Workout.user := 1%Z; Double.Workout.exerciseType := "running";
     Double.Workout.intensity := "6 mph"; Double.Workout.duration := 30;
     Double.Workout.caloriesBurned := 0 |}.

(** Forty-four minutes of running at 5 mph, by kai. *)
Definition jog : Double.Workout.t :=
  {| Double.Workout.user := 2%Z; Double.Workout.exerciseType := "running";
     Double.Workout.intensity := "5 mph"; Double.Workout.duration := 44;
     Double.Workout.caloriesBurned := 0 |}.


(** A prototype chain that finds nothing, and one on which every row of the
    table inherits a function named constructor. *)
Definition bare : JS.Chain := fun _ _ => JS.undefined.

Definition withConstructor : JS.Chain :=
  fun e i =>
    match JS.get Double.Workout.MET_VALUES e with
    | Some _ =>
        if String.eqb i "constructor" then JS.other true PrimFloat.nan
        else JS.undefined
    | None => JS.undefined
    end.

Definition food (kcal quantity : float) : Double.Meal.FoodItem :=
  Double.Meal.mkFood "food" quantity kcal 0 0 0 0 0.

Definition meal (foods : list Double.Meal.FoodItem) : Double.Meal.t :=
  {| Double.Meal.foods := foods;
     Double.Meal.totalCalories := 7; Double.Meal.totalProtein := 7;
     Double.Meal.totalCarbs := 7; Double.Meal.totalFat := 7;
     Double.Meal.totalFiber := 7; Double.Meal.totalSugar := 7 |}.

(** Two food items: 100 kcal per unit, 2 units; 50 kcal per unit, 1 unit. *)
Definition lunch : Double.Meal.t := meal [food 100 2; food 50 1].

(** A user 200 cm tall, alone in a store, and a progress record of that
    user at a given weight. *)
Definition tall : Double.User.t :=
  {| Double.User._id := 2%Z; Double.User.gender := User.other;
     Double.User.age := 40; Double.User.weight := 74; Double.User.height := 200 |}.

Definition tallOnly : Double.User.Store :=
  fun id => if (id =? 2)%Z then Some tall else None.

Definition weighing (kg : float) : Double.Progress.t :=
  {| Double.Progress.user := 2%Z; Double.Progress.weight := kg |}.

End DoubleExamples.

(** * Further code of the models and the routes *)

(** ** routes/auth.js: the user a registration creates *)

Module Auth.

(** The fields of [req.body] the handler reads, the optional ones as
    options; e-mail and password do not enter any computation. *)
Record RegisterBody : Type := mkRegisterBody {
  name : string;
  gender : User.Gender;
  age : Q;
  weight : Q;
  height : Q;
  activityLevel : option User.ActivityLevel;
  goal : option User.Goal;
  targetWeight : option Q
}.

(** [User.create({..., activityLevel: activityLevel || 'moderately_active',
    goal: goal || 'maintain_weight', targetWeight: targetWeight || weight})] *)
Definition register (id : JS.ObjectId) (body : RegisterBody) : User.t :=
  {| User._id := id;
     User.name := name body;
     User.gender := gender body;
     User.age := age body;
     User.weight := weight body;
     User.height := height body;
     User.activityLevel :=
       match activityLevel body with
       | Some level => level
       | None => User.moderately_active
       end;
     User.goal :=
       match goal body with
       | Some g => g
       | None => User.maintain_weight
       end;
     User.targetWeight :=
       Some match targetWeight body with
            | Some target => if Qeq_bool target 0 then weight body else target
            | None => weight body
            end |}.

End Auth.

(** ** routes/workouts.js and routes/meals.js *)

Module Routes.

(** [xs.includes(x)] on strings. *)
Definition includes (xs : list string) (x : string) : bool :=
  existsb (String.eqb x) xs.

(** The check of [POST /api/workouts] on the pair of the body:
    [Workout.getIntensities(exerciseType).includes(intensity)]. *)
Definition intensityAllowed (exerciseType intensity : string) : bool :=
  includes (Workout.getIntensities exerciseType) intensity.

(** The query of [GET /api/workouts]: the user, the day of [date] when one
    is given, the exercise type when one is given. *)
Definition workoutQuery (tza : Z) (user : User.t) (date : option Z)
    (exerciseType : option string) (w : Workout.t) : bool :=
  (Workout.user w =? User._id user)%Z
  && match date with
     | Some d =>
         (Date.setHours tza 0 0 0 0 d <=? Workout.date w)%Z
         && (Workout.date w <=? Date.setHours tza 23 59 59 999 d)%Z
     | None => true
     end
  && match exerciseType with
     | Some e => String.eqb (Workout.exerciseType w) e
     | None => true
     end.

(** The same for [GET /api/meals], with the meal type. *)
Definition mealQuery (tza : Z) (user : User.t) (date : option Z)
    (mealType : option string) (m : Meal.t) : bool :=
  (Meal.user m =? User._id user)%Z
  && match date with
     | Some d =>
         (Date.setHours tza 0 0 0 0 d <=? Meal.date m)%Z
         && (Meal.date m <=? Date.setHours tza 23 59 59 999 d)%Z
     | None => true
     end
  && match mealType with
     | Some t => String.eqb (Meal.mealType m) t
     | None => true
     end.

Record Listing (A : Type) : Type := mkListing {
  count : Z;
  total : Z;
  page : Z;
  pages : Z;
  data : list A
}.
Arguments mkListing {A}.
Arguments count {A}.
Arguments total {A}.
Arguments page {A}.
Arguments pages {A}.
Arguments data {A}.

(** [Math.ceil(total / limit)] for a positive [limit]. *)
Definition pageCount (total : Z) (limit : nat) : Z :=
  Qceiling (inject_Z total / inject_Z (Z.of_nat limit)).

(** The body of both list handlers for a page of at least 1 and a limit of
    at least 1: the matching documents sorted by date descending, of which the
    driver skips [(page - 1) * limit] and returns up to [limit], whatever
    the order of [.limit] and [.skip] in the chain. *)
Definition listing {A : Type} (date : A -> Z) (query : A -> bool)
    (collection : list A) (page limit : nat) : Listing A :=
  let matching := Mongo.find query collection in
  let docs :=
    Mongo.limit limit
      (skipn ((page - 1) * limit) (Mongo.sort (Mongo.dateDescending date) matching)) in
  let total := Dashboard.len matching in
  {| count := Dashboard.len docs;
     total := total;
     page := Z.of_nat page;
     pages := pageCount total limit;
     data := docs |}.

(** One group of [$group: { _id: '$exerciseType', count, totalDuration,
    totalCalories }]. *)
Record TypeGroup : Type := mkTypeGroup {
  g_id : string;
  g_count : Z;
  g_totalDuration : Q;
  g_totalCalories : Q
}.

(** The distinct values of a key, in the order they first occur. *)
Fixpoint distinct (keys : list string) : list string :=
  match keys with
  | [] => []
  | k :: rest => k :: filter (fun k' => negb (String.eqb k' k)) (distinct rest)
  end.

(** [$group] by exercise type, one group per type that occurs; the
    database fixes no order of the groups, here it is the order of first
    occurrence. *)
Definition groupByType (docs : list Workout.t) : list TypeGroup :=
  map (fun e =>
         let members := filter (fun w => String.eqb (Workout.exerciseType w) e) docs in
         {| g_id := e;
            g_count := Dashboard.len members;
            g_totalDuration := JS.sumBy Workout.duration members;
            g_totalCalories := JS.sumBy Workout.caloriesBurned members |})
      (distinct (map Workout.exerciseType docs)).

(** [$sort: { count: -1 }] *)
Definition countDescending (a b : TypeGroup) : bool := (g_count b <=? g_count a)%Z.

(** [GET /api/workouts/stats/summary], from the start instant its
    [switch (period)] computed: the summary and the breakdown. *)
Definition workoutStats (workouts : list Workout.t) (user : User.t) (startDate : Z)
  : Dashboard.WorkoutStats * list TypeGroup :=
  let matched :=
    Mongo.find (fun w => Dashboard.since user startDate (Workout.user w) (Workout.date w))
      workouts in
  let stats :=
    Dashboard.group
      (fun docs =>
         {| Dashboard.totalWorkouts := Dashboard.len docs;
            Dashboard.ws_totalDuration := JS.sumBy Workout.duration docs;
            Dashboard.ws_totalCalories := JS.sumBy Workout.caloriesBurned docs;
            Dashboard.ws_averageDuration := Dashboard.avg Workout.duration docs;
            Dashboard.ws_averageCalories := Dashboard.avg Workout.caloriesBurned docs |})
      matched in
  let exerciseBreakdown := Mongo.sort countDescending (groupByType matched) in
  (Mongo.firstOr stats (Dashboard.mkWorkoutStats 0 0 0 0 0), exerciseBreakdown).

End Routes.

(** ** The static methods of the models *)

Module Statics.

(** The start of [getWeightProgress], [getSleepTrends] and the other
    statics with a [days] parameter:
    [startDate.setDate(startDate.getDate() - days)] on the current instant. *)
Definition daysAgo (env : Dashboard.Env) (days : Z) : Z :=
  Date.addDays (Dashboard.tza env) (- days) (Dashboard.now env).

(** [Progress.getWeightProgress(userId, days)], each document by the date
    and weight it selects. *)
Definition getWeightProgress (env : Dashboard.Env) (progress : list Progress.t)
    (userId : JS.ObjectId) (days : Z) : list (Z * Q) :=
  map (fun p => (Progress.date p, Progress.weight p))
    (Mongo.sort (Mongo.dateAscending Progress.date)
       (Mongo.find
          (fun p => (Progress.user p =? userId)%Z
                    && (daysAgo env days <=? Progress.date p)%Z)
          progress)).

(** [Sleep.getSleepTrends(userId, days)], each document by the date,
    duration and quality it selects. *)
Definition getSleepTrends (env : Dashboard.Env) (sleeps : list Sleep.t)
    (userId : JS.ObjectId) (days : Z) : list (Z * Q * string) :=
  map (fun s => (Sleep.date s, Sleep.duration s, Sleep.quality s))
    (Mongo.sort (Mongo.dateAscending Sleep.date)
       (Mongo.find
          (fun s => (Sleep.user s =? userId)%Z
                    && (daysAgo env days <=? Sleep.date s)%Z)
          sleeps)).

End Statics.

(** ** routes/dashboard.js: the breakdowns and the calorie chart *)

Module Charts.

(** The weekly lists the handler fetched. *)
Definition weeklyWorkouts (env : Dashboard.Env) (db : Dashboard.Collections)
    (user : User.t) (date : option Z) : list Workout.t :=
  Mongo.sort (Mongo.dateDescending Workout.date)
    (Mongo.find
       (fun w => Dashboard.since user (Dashboard.startOfWeek env date)
                   (Workout.user w) (Workout.date w))
       (Dashboard.workouts db)).

Definition weeklyMeals (env : Dashboard.Env) (db : Dashboard.Collections)
    (user : User.t) (date : option Z) : list Meal.t :=
  Mongo.sort (Mongo.dateDescending Meal.date)
    (Mongo.find
       (fun m => Dashboard.since user (Dashboard.startOfWeek env date)
                   (Meal.user m) (Meal.date m))
       (Dashboard.meals db)).

(** Assignment [o[k] = v] on an object: an existing property keeps its
    place, a new one goes last. *)
Fixpoint set (o : list (string * Q)) (k : string) (v : Q) : list (string * Q) :=
  match o with
  | [] => [(k, v)]
  | (k', v') :: rest =>
      if String.eqb k k' then (k, v) :: rest else (k', v') :: set rest k v
  end.

(** [acc[k] = (acc[k] || 0) + 1; return acc;] *)
Definition tally (acc : list (string * Q)) (k : string) : list (string * Q) :=
  set acc k
    (match JS.get acc k with
     | Some n => if Qeq_bool n 0 then 0 else n
     | None => 0
     end + 1).

(** [weeklyWorkouts.reduce((acc, workout) => ..., {})] *)
Definition exerciseBreakdown (env : Dashboard.Env) (db : Dashboard.Collections)
    (user : User.t) (date : option Z) : list (string * Q) :=
  fold_left (fun acc workout => tally acc (Workout.exerciseType workout))
    (weeklyWorkouts env db user date) [].

(** [weeklyMeals.reduce((acc, meal) => ..., {})] *)
Definition mealTypeBreakdown (env : Dashboard.Env) (db : Dashboard.Collections)
    (user : User.t) (date : option Z) : list (string * Q) :=
  fold_left (fun acc meal => tally acc (Meal.mealType meal))
    (weeklyMeals env db user date) [].

(** One point of [charts.weeklyCalories].  The [date] of the source is the
    calendar date of [day.toISOString()], a date in UTC; it is kept as the
    number of that day since the epoch. *)
Record DayCalories : Type := mkDayCalories {
  utcDate : Z;
  intake : Q;
  burned : Q
}.

(** The callback of [Array.from({ length: 7 }, (_, i) => ...)]. *)
Definition dayCalories (env : Dashboard.Env) (db : Dashboard.Collections)
    (user : User.t) (date : option Z) (i : Z) : DayCalories :=
  let day := Date.addDays (Dashboard.tza env) i (Dashboard.startOfWeek env date) in
  let dayStart := Date.setHours (Dashboard.tza env) 0 0 0 0 day in
  let dayEnd := Date.setHours (Dashboard.tza env) 23 59 59 999 day in
  let dayMeals :=
    filter (fun m => (dayStart <=? Meal.date m)%Z && (Meal.date m <=? dayEnd)%Z)
      (weeklyMeals env db user date) in
  let dayWorkouts :=
    filter (fun w => (dayStart <=? Workout.date w)%Z && (Workout.date w <=? dayEnd)%Z)
      (weeklyWorkouts env db user date) in
  {| utcDate := Date.Day day;
     intake := JS.sumBy Meal.totalCalories dayMeals;
     burned := JS.sumBy Workout.caloriesBurned dayWorkouts |}.

End Charts.

(** ** More vocabulary *)

Module MoreSpec.

(** The ranges the user schema validates. *)
Definition validUser (u : User.t) : Prop :=
  13 <= User.age u <= 120 /\ 20 <= User.weight u <= 300 /\
  100 <= User.height u <= 250.

(** A food item whose quantity and nutrients are not negative, as the meal
    schema validates. *)
Definition validFood (food : Meal.FoodItem) : Prop :=
  0 <= Meal.quantity food /\ 0 <= Meal.calories food /\ 0 <= Meal.protein food /\
  0 <= Meal.carbs food /\ 0 <= Meal.fat food /\ 0 <= Meal.fiber food /\
  0 <= Meal.sugar food.

(** How many documents of a list have a given value of a string key. *)
Definition occurrences {A : Type} (key : A -> string) (k : string) (l : list A) : Z :=
  Dashboard.len (filter (fun x => String.eqb (key x) k) l).

(** The count an object of counts holds for a key, 0 for a key it lacks. *)
Definition valueOf (o : list (string * Q)) (k : string) : Q :=
  match JS.get o k with
  | Some n => n
  | None => 0
  end.

(** The sum of a list of counts. *)
Definition total (counts : list Z) : Z := fold_right Z.add 0%Z counts.

(** Oldest first, on the points of a sleep trend. *)
Definition ascendingTrend (a b : Z * Q * string) : Prop :=
  (fst (fst a) <= fst (fst b))%Z.

End MoreSpec.

(** ** More sample data *)

Module MoreExamples.

(** Sixty minutes of running at 6 mph. *)
Definition longRun : Workout.t :=
  {| Workout.user := 1%Z; Workout.exerciseType := "running";
     Workout.intensity := "6 mph"; Workout.duration := 60;
     Workout.date := 0%Z; Workout.caloriesBurned := 0 |}.

(** A user at the lower end of every validated range. *)
Definition slight : User.t :=
  {| User._id := 4%Z; User.name := "Lee"; User.gender := User.male;
     User.age := 120; User.weight := 20; User.height := 100;
     User.activityLevel := User.sedentary;
     User.goal := User.gain_weight; User.targetWeight := Some 25 |}.

(** A food within the ranges the schema validates. *)
Definition egg : Meal.FoodItem := Meal.mkFood "egg" 2 "piece" 78 6 (6 # 10) 5 0 (6 # 10).

(** The sample lunch with the egg added. *)
Definition lunchWithEgg : Meal.t :=
  Meal.mk 1%Z "Lunch" "lunch" 0%Z (Meal.foods Examples.lunch ++ [egg]) 0 0 0 0 0 0.

(** A server two hours east of UTC, on the same instant as [Examples.env]. *)
Definition envEast : Dashboard.Env :=
  {| Dashboard.tza := (2 * Date.msPerHour)%Z;
     Dashboard.now := (12 * Date.msPerDay)%Z;
     Dashboard.startOfMonthOf := fun _ => 0%Z |}.

(** A registration that names no target weight. *)
Definition signUp : Auth.RegisterBody :=
  {| Auth.name := "Noa"; Auth.gender := User.female; Auth.age := 28;
     Auth.weight := 64; Auth.height := 168; Auth.activityLevel := None;
     Auth.goal := None; Auth.targetWeight := None |}.

End MoreExamples.

(** * Properties *)

(** ** Rounding *)

Module Rounding.
Import Spec.

Lemma Math_round_nearest (x : Q) : nearest x (JS.Math_round x).
Proof.
  unfold nearest, JS.Math_round.
  pose proof (Qfloor_le (x + (1 # 2))) as Hlo.
  pose proof (Qlt_floor (x + (1 # 2))) as Hhi.
  rewrite inject_Z_plus in Hhi.
  change (inject_Z 1) with 1 in Hhi.
  split; lra.
Qed.

Lemma nearest_unique (x : Q) (n m : Z) : nearest x n -> nearest x m -> n = m.
Proof.
  unfold nearest. intros [Hn1 Hn2] [Hm1 Hm2].
  assert (Hlt1 : inject_Z n < inject_Z m + 1) by lra.
  assert (Hlt2 : inject_Z m < inject_Z n + 1) by lra.
  change 1 with (inject_Z 1) in Hlt1, Hlt2.
  rewrite <- inject_Z_plus in Hlt1, Hlt2.
  rewrite <- Zlt_Qlt in Hlt1, Hlt2.
  lia.
Qed.

Lemma Math_round_monotone (x y : Q) :
  x <= y -> (JS.Math_round x <= JS.Math_round y)%Z.
Proof.
  intros Hxy. unfold JS.Math_round. apply Qfloor_resp_le. lra.
Qed.

Lemma Math_round_Qeq (x y : Q) : x == y -> JS.Math_round x = JS.Math_round y.
Proof.
  intros Hxy. apply Z.le_antisymm; apply Math_round_monotone; lra.
Qed.

Lemma Math_round_integer (z : Z) : JS.Math_round (inject_Z z) = z.
Proof.
  apply (nearest_unique (inject_Z z)); [apply Math_round_nearest|].
  unfold nearest. split; lra.
Qed.

Lemma round2_half_up (x : Q) : half_up_2dp x (Meal.round2 x).
Proof.
  exists (JS.Math_round (x * 100)). split; [reflexivity | apply Math_round_nearest].
Qed.

Lemma round2_Qeq (x y : Q) : x == y -> Meal.round2 x = Meal.round2 y.
Proof.
  intros Hxy. unfold Meal.round2.
  rewrite (Math_round_Qeq (x * 100) (y * 100)); [reflexivity | lra].
Qed.

(** [Math.round] on a binary64 number rounds its exact value. *)
Lemma round_rounded (x : float) : SpecDouble.rounded x (Binary64.round x).
Proof.
  unfold SpecDouble.rounded, Binary64.round.
  destruct (Binary64.exact x) as [q|]; [|reflexivity].
  destruct (Qle_bool 4503599627370496 (Qabs q)); [reflexivity|].
  exists (JS.Math_round q). split; [apply Math_round_nearest | reflexivity].
Qed.

(** The rounding is a function of the number. *)
Lemma rounded_unique (x r1 r2 : float) :
  SpecDouble.rounded x r1 -> SpecDouble.rounded x r2 -> r1 = r2.
Proof.
  unfold SpecDouble.rounded.
  destruct (Binary64.exact x) as [q|]; [|congruence].
  destruct (Qle_bool 4503599627370496 (Qabs q)); [congruence|].
  intros (n1 & Hn1 & ->) (n2 & Hn2 & ->).
  now rewrite (nearest_unique q n1 n2 Hn1 Hn2).
Qed.

End Rounding.

(** ** Calories burned by a workout *)

Module WorkoutFacts.

Lemma get_In {A : Type} (o : list (string * A)) (k : string) (v : A) :
  JS.get o k = Some v -> In (k, v) o.
Proof.
  induction o as [|[k' v'] rest IH]; simpl; [discriminate|].
  destruct (String.eqb k k') eqn:Hk.
  - apply String.eqb_eq in Hk. intros [= ->]. subst. now left.
  - intros Hget. right. now apply IH.
Qed.

Lemma lookupMET_In (e i : string) (met : Q) :
  Workout.lookupMET e i = Some met -> In (e, i, met) Workout.MET_entries.
Proof.
  unfold Workout.lookupMET, Workout.MET_entries.
  destruct (JS.get Workout.MET_VALUES e) as [row|] eqn:Hrow; [|discriminate].
  intros Hcell. apply get_In in Hrow. apply get_In in Hcell.
  apply in_flat_map. exists (e, row). split; [exact Hrow|].
  apply in_map_iff. exists (i, met). now split.
Qed.

(** The table has no repeated key, so a row of it is what the lookup finds. *)
Lemma In_lookupMET (e i : string) (met : Q) :
  In (e, i, met) Workout.MET_entries -> Workout.lookupMET e i = Some met.
Proof.
  intros Hin. cbn in Hin.
  repeat (destruct Hin as [Hin|Hin]; [injection Hin as <- <- <-; reflexivity|]).
  contradiction.
Qed.

(** Every MET value of the table is truthy. *)
Lemma MET_entries_truthy (e i : string) (met : Q) :
  In (e, i, met) Workout.MET_entries -> Workout.falsy (Some met) = false.
Proof.
  intros Hin. cbn in Hin.
  repeat (destruct Hin as [Hin|Hin]; [injection Hin as <- <- <-; reflexivity|]).
  contradiction.
Qed.

(** The intensities the routes accept for an exercise type, through
    [getIntensities(exerciseType).includes(intensity)], are those of the
    rows of the table. *)
Lemma getIntensities_are_table_rows (e i : string) :
  In i (Workout.getIntensities e) <->
  exists met : Q, In (e, i, met) Workout.MET_entries.
Proof.
  unfold Workout.getIntensities. split.
  - destruct (JS.get Workout.MET_VALUES e) as [row|] eqn:Hrow; [|contradiction].
    unfold JS.keys. rewrite in_map_iff. intros ([i' met] & Hi & Hcell).
    cbn in Hi. subst i'. exists met.
    apply get_In in Hrow. unfold Workout.MET_entries.
    apply in_flat_map. exists (e, row). split; [exact Hrow|].
    apply in_map_iff. exists (i, met). now split.
  - intros (met & Hin). cbn in Hin.
    repeat (destruct Hin as [Hin|Hin];
            [injection Hin as <- <- <-; cbn; tauto|]).
    contradiction.
Qed.

Lemma MET_entries_count : List.length Workout.MET_entries = 35%nat
  /\ List.length Workout.MET_VALUES = 11%nat.
Proof. split; reflexivity. Qed.

(** On binary64 numbers: a row of the table is what the lookup finds, and
    its MET value is truthy. *)
Lemma double_lookup_row (chain : JS.Chain) (e i : string) (met : float) :
  In (e, i, met) Double.Workout.MET_entries ->
  Double.Workout.lookupMET chain e i = JS.number met /\
  JS.falsy (JS.number met) = false.
Proof.
  intros Hin. cbn in Hin.
  repeat (destruct Hin as [Hin|Hin]; [injection Hin as <- <- <-; split; reflexivity|]).
  contradiction.
Qed.

(** A pair in no row of the table is left to the prototype chain. *)
Lemma double_lookup_absent (chain : JS.Chain) (e i : string) :
  (forall met : float, ~ In (e, i, met) Double.Workout.MET_entries) ->
  Double.Workout.lookupMET chain e i = chain e i.
Proof.
  intros Habsent. unfold Double.Workout.lookupMET.
  destruct (JS.get Double.Workout.MET_VALUES e) as [row|] eqn:Hrow; [|reflexivity].
  destruct (JS.get row i) as [met|] eqn:Hcell; [|reflexivity].
  exfalso. apply (Habsent met).
  apply get_In in Hrow. apply get_In in Hcell.
  unfold Double.Workout.MET_entries.
  apply in_flat_map. exists (e, row). split; [exact Hrow|].
  apply in_map_iff. exists (i, met). now split.
Qed.

Lemma double_calories_of_row (chain : JS.Chain) (users : Double.User.Store)
    (w : Double.Workout.t) (u : Double.User.t) (met : float) :
  users (Double.Workout.user w) = Some u ->
  In (Double.Workout.exerciseType w, Double.Workout.intensity w, met)
     Double.Workout.MET_entries ->
  let calories :=
    (met * Double.User.weight u * (Double.Workout.duration w / 60))%float in
  Double.Workout.calculateCaloriesBurned chain users w =
    (Double.Workout.set_caloriesBurned w (Binary64.round calories),
     JS.Resolved (Binary64.round calories)).
Proof.
  intros Huser Hin calories.
  destruct (double_lookup_row chain _ _ _ Hin) as [Hlookup Htruthy].
  unfold Double.Workout.calculateCaloriesBurned.
  rewrite Huser, Hlookup, Htruthy. reflexivity.
Qed.

(** C1, as the code has it.  For a workout whose user is found: when
    (exerciseType, intensity) is a row of the MET table with value MET,
    calculateCaloriesBurned stores and resolves with
    Math.round(MET * user.weight * (duration / 60)), the product and the
    quotient being binary64 operations, that is with the integer nearest to
    the binary64 product; when the pair is in no row of the table and the
    prototype chain finds nothing for it, it stores nothing and rejects with
    the invalid-exercise error.  Running at 6 mph for 30 minutes at 80 kg
    gives 392. *)
Theorem calories_burned_from_MET_table :
  (forall (chain : JS.Chain) (users : Double.User.Store) (w : Double.Workout.t)
          (u : Double.User.t),
      users (Double.Workout.user w) = Some u ->
      (forall met : float,
          In (Double.Workout.exerciseType w, Double.Workout.intensity w, met)
             Double.Workout.MET_entries ->
          let product :=
            (met * Double.User.weight u * (Double.Workout.duration w / 60))%float in
          let calories := Binary64.round product in
          SpecDouble.rounded product calories /\
          Double.Workout.calculateCaloriesBurned chain users w =
            (Double.Workout.set_caloriesBurned w calories, JS.Resolved calories)) /\
      ((forall met : float,
           ~ In (Double.Workout.exerciseType w, Double.Workout.intensity w, met)
                Double.Workout.MET_entries) ->
       chain (Double.Workout.exerciseType w) (Double.Workout.intensity w)
       = JS.undefined ->
       Double.Workout.calculateCaloriesBurned chain users w =
         (w, JS.Rejected "Invalid exercise type or intensity"))) /\
  (forall chain : JS.Chain,
      Double.Workout.calculateCaloriesBurned chain DoubleExamples.users
        DoubleExamples.run =
      (Double.Workout.set_caloriesBurned DoubleExamples.run 392,
       JS.Resolved 392%float)).
Proof.
  split; [|reflexivity].
  intros chain users w u Huser. split.
  - intros met Hin product calories. split; [apply Rounding.round_rounded|].
    now apply double_calories_of_row.
  - intros Habsent Hchain.
    unfold Double.Workout.calculateCaloriesBurned.
    rewrite Huser, (double_lookup_absent chain _ _ Habsent), Hchain. reflexivity.
Qed.

(** The row ("running", "6 mph", 9.8) of the table, applied to the sample
    workout. *)
Lemma calories_burned_running_example :
  SpecDouble.rounded (9.8 * 80 * (30 / 60))%float 392%float /\
  Double.Workout.calculateCaloriesBurned DoubleExamples.bare DoubleExamples.users
    DoubleExamples.run =
  (Double.Workout.set_caloriesBurned DoubleExamples.run 392, JS.Resolved 392%float).
Proof.
  destruct calories_burned_from_MET_table as [Hgeneral _].
  destruct (Hgeneral DoubleExamples.bare DoubleExamples.users DoubleExamples.run
              DoubleExamples.alex eq_refl) as [Hpresent _].
  apply (Hpresent 9.8%float).
  cbn. right. left. reflexivity.
Defined.

(** C1 as stated, with the product taken exactly, fails at 44 minutes of
    running at 5 mph by a user of 75 kg: the exact product is 456.5 on the
    decimal values, and just above 456.5 on the binary64 values of 8.3, 75
    and 44, so that the nearest integer is 457, while the binary64 product
    is just below 456.5 and calculateCaloriesBurned stores 456. *)
Lemma calories_at_44_minutes_are_456 :
  Double.Workout.calculateCaloriesBurned DoubleExamples.bare DoubleExamples.users
    DoubleExamples.jog =
  (Double.Workout.set_caloriesBurned DoubleExamples.jog 456, JS.Resolved 456%float) /\
  (exists stored : Q, Binary64.exact 456%float = Some stored /\ stored == 456) /\
  Spec.nearest (8.3 * 75 * (44 / 60)) 457 /\
  (exists met weight duration : Q,
      Binary64.exact 8.3%float = Some met /\
      Binary64.exact 75%float = Some weight /\
      Binary64.exact 44%float = Some duration /\
      Spec.nearest (met * weight * (duration / 60)) 457) /\
  ~ Spec.nearest (8.3 * 75 * (44 / 60)) 456.
Proof.
  split; [reflexivity|]. split; [eexists; split; reflexivity|]. split.
  - unfold Spec.nearest. split; [discriminate | reflexivity].
  - split.
    + do 3 eexists. split; [reflexivity|]. split; [reflexivity|].
      split; [reflexivity|]. unfold Spec.nearest.
      split; vm_compute; [discriminate | reflexivity].
    + unfold Spec.nearest. intros [_ Hhi]. revert Hhi. apply Qle_not_lt. discriminate.
Qed.

End WorkoutFacts.

(** ** Basal metabolic rate *)

Module UserFacts.

(** C2, as the code has it.  calculateBMR is Math.round of
    88.362 + 13.397 w + 4.799 h - 5.677 a for a male user and of
    447.593 + 9.247 w + 3.098 h - 4.330 a for a female or other user, each
    operation a binary64 operation, from left to right: the integer nearest
    to the binary64 value of the formula.  For a male user of 80 kg, 180 cm
    and 30 years that integer is 1854. *)
Theorem bmr_harris_benedict :
  (forall u : Double.User.t,
      let formula :=
        SpecDouble.bmr (Double.User.gender u) (Double.User.weight u)
          (Double.User.height u) (Double.User.age u) in
      Double.User.calculateBMR u = Binary64.round formula /\
      SpecDouble.rounded formula (Double.User.calculateBMR u)) /\
  Double.User.calculateBMR DoubleExamples.alex = 1854%float.
Proof.
  split; [|reflexivity].
  intros u formula.
  assert (Hbmr : Double.User.calculateBMR u = Binary64.round formula).
  { subst formula. unfold Double.User.calculateBMR, SpecDouble.bmr.
    destruct (Double.User.gender u); reflexivity. }
  split; [exact Hbmr|]. rewrite Hbmr. apply Rounding.round_rounded.
Qed.

(** C2 as stated fails on its worked example: the male formula at 80 kg,
    180 cm and 30 years is 1853.632, whose nearest integer is not 1796, and
    calculateBMR returns 1854 there, which is not 1796.  It also fails, with
    the formula taken exactly, at a male user of 88 kg, 165 cm and 29 years:
    the formula is 1894.5 on the decimal values, whose nearest integer is
    1895, and its binary64 value is just below, so that calculateBMR returns
    1894. *)
Lemma bmr_example_is_not_1796 :
  Spec.bmr User.male 80 180 30 == 1853.632 /\
  ~ Spec.nearest (Spec.bmr User.male 80 180 30) 1796 /\
  Double.User.calculateBMR DoubleExamples.alex = 1854%float /\
  (exists returned : Q,
      Binary64.exact (Double.User.calculateBMR DoubleExamples.alex) = Some returned /\
      ~ returned == 1796) /\
  Spec.bmr User.male 88 165 29 == 1894.5 /\
  Spec.nearest (Spec.bmr User.male 88 165 29) 1895 /\
  Double.User.calculateBMR DoubleExamples.lee = 1894%float.
Proof.
  split; [reflexivity|]. split; [|split; [reflexivity|split]].
  - intros [_ Hhi]. revert Hhi. apply Qle_not_lt. discriminate.
  - eexists. split; [reflexivity|]. discriminate.
  - split; [reflexivity|]. split; [|reflexivity].
    unfold Spec.nearest. split; [discriminate | reflexivity].
Qed.

End UserFacts.

(** ** Meal totals *)

Module MealFacts.

(** The [forEach] adds, to each running total, the specification's sum. *)
Lemma fold_addFood (items : list Meal.FoodItem) (m : Meal.t) :
  let m' := fold_left Meal.addFood items m in
  Meal.totalCalories m' == Meal.totalCalories m + Meal.spec_sum Meal.calories items /\
  Meal.totalProtein m' == Meal.totalProtein m + Meal.spec_sum Meal.protein items /\
  Meal.totalCarbs m' == Meal.totalCarbs m + Meal.spec_sum Meal.carbs items /\
  Meal.totalFat m' == Meal.totalFat m + Meal.spec_sum Meal.fat items /\
  Meal.totalFiber m' == Meal.totalFiber m + Meal.spec_sum Meal.fiber items /\
  Meal.totalSugar m' == Meal.totalSugar m + Meal.spec_sum Meal.sugar items /\
  Meal.foods m' = Meal.foods m.
Proof.
  revert m. induction items as [|item rest IH]; intros m; cbn zeta.
  - cbn. repeat split; try lra.
  - cbn [fold_left Meal.spec_sum].
    specialize (IH (Meal.addFood m item)). cbn zeta in IH.
    destruct IH as (Hcal & Hpro & Hcarb & Hfat & Hfib & Hsug & Hfoods).
    cbn in Hcal, Hpro, Hcarb, Hfat, Hfib, Hsug, Hfoods.
    repeat split; try assumption; lra.
Qed.

(** The six totals after [calculateTotals], each as the rounding of its sum. *)
Lemma calculateTotals_fields (m : Meal.t) :
  let m' := Meal.calculateTotals m in
  Meal.totalCalories m' = Meal.round2 (Meal.spec_sum Meal.calories (Meal.foods m)) /\
  Meal.totalProtein m' = Meal.round2 (Meal.spec_sum Meal.protein (Meal.foods m)) /\
  Meal.totalCarbs m' = Meal.round2 (Meal.spec_sum Meal.carbs (Meal.foods m)) /\
  Meal.totalFat m' = Meal.round2 (Meal.spec_sum Meal.fat (Meal.foods m)) /\
  Meal.totalFiber m' = Meal.round2 (Meal.spec_sum Meal.fiber (Meal.foods m)) /\
  Meal.totalSugar m' = Meal.round2 (Meal.spec_sum Meal.sugar (Meal.foods m)) /\
  Meal.foods m' = Meal.foods m.
Proof.
  cbn zeta. unfold Meal.calculateTotals.
  set (zeroed := Meal.set_totals m 0 0 0 0 0 0).
  pose proof (fold_addFood (Meal.foods zeroed) zeroed) as Hfold. cbn zeta in Hfold.
  destruct Hfold as (Hcal & Hpro & Hcarb & Hfat & Hfib & Hsug & Hfoods).
  change (Meal.foods zeroed) with (Meal.foods m) in *.
  cbn [Meal.totalCalories Meal.totalProtein Meal.totalCarbs Meal.totalFat
       Meal.totalFiber Meal.totalSugar Meal.foods Meal.set_totals zeroed]
    in Hcal, Hpro, Hcarb, Hfat, Hfib, Hsug |- *.
  repeat split; try (apply Rounding.round2_Qeq; lra).
  exact Hfoods.
Qed.

(** On binary64 numbers: the [forEach] accumulates the six sums side by
    side, each in the order of the list. *)
Lemma double_fold_addFood (items : list Double.Meal.FoodItem) (m : Double.Meal.t) :
  let m' := fold_left Double.Meal.addFood items m in
  let accumulate field start :=
    fold_left (fun total item => (total + field item * Double.Meal.quantity item)%float)
      items start in
  Double.Meal.totalCalories m'
    = accumulate Double.Meal.calories (Double.Meal.totalCalories m) /\
  Double.Meal.totalProtein m'
    = accumulate Double.Meal.protein (Double.Meal.totalProtein m) /\
  Double.Meal.totalCarbs m'
    = accumulate Double.Meal.carbs (Double.Meal.totalCarbs m) /\
  Double.Meal.totalFat m'
    = accumulate Double.Meal.fat (Double.Meal.totalFat m) /\
  Double.Meal.totalFiber m'
    = accumulate Double.Meal.fiber (Double.Meal.totalFiber m) /\
  Double.Meal.totalSugar m'
    = accumulate Double.Meal.sugar (Double.Meal.totalSugar m).
Proof.
  revert m. induction items as [|item rest IH]; intros m; cbn zeta.
  - cbn. repeat split.
  - cbn [fold_left]. specialize (IH (Double.Meal.addFood m item)). cbn zeta in IH.
    exact IH.
Qed.

(** The six totals after [calculateTotals], each as the rounding of its
    sum. *)
Lemma double_calculateTotals_fields (m : Double.Meal.t) :
  let m' := Double.Meal.calculateTotals m in
  let total field :=
    Double.Meal.round2 (SpecDouble.sum field (Double.Meal.foods m)) in
  Double.Meal.totalCalories m' = total Double.Meal.calories /\
  Double.Meal.totalProtein m' = total Double.Meal.protein /\
  Double.Meal.totalCarbs m' = total Double.Meal.carbs /\
  Double.Meal.totalFat m' = total Double.Meal.fat /\
  Double.Meal.totalFiber m' = total Double.Meal.fiber /\
  Double.Meal.totalSugar m' = total Double.Meal.sugar.
Proof.
  cbn zeta. unfold Double.Meal.calculateTotals, SpecDouble.sum.
  set (zeroed := Double.Meal.set_totals m 0 0 0 0 0 0).
  pose proof (double_fold_addFood (Double.Meal.foods zeroed) zeroed) as Hfold.
  cbn zeta in Hfold.
  destruct Hfold as (Hcal & Hpro & Hcarb & Hfat & Hfib & Hsug).
  cbn [Double.Meal.totalCalories Double.Meal.totalProtein Double.Meal.totalCarbs
       Double.Meal.totalFat Double.Meal.totalFiber Double.Meal.totalSugar
       Double.Meal.set_totals].
  rewrite Hcal, Hpro, Hcarb, Hfat, Hfib, Hsug.
  repeat split.
Qed.

Lemma round2_rounded_2dp (x : float) : SpecDouble.rounded_2dp x (Double.Meal.round2 x).
Proof.
  exists (Binary64.round (x * 100)%float).
  split; [apply Rounding.round_rounded | reflexivity].
Qed.

(** C3, as the code has it.  After calculateTotals each of the six totals is
    Math.round(sum * 100) / 100 for its own sum of field * quantity, the sum
    accumulated from 0 in the order of the foods and every operation a
    binary64 operation: the quotient by 100 of the integer nearest to the
    binary64 product sum * 100.  With no foods all six totals are zero, and
    the foods [{calories: 100, quantity: 2}, {calories: 50, quantity: 1}]
    give totalCalories 250. *)
Theorem meal_totals_are_rounded_sums :
  (forall m : Double.Meal.t,
      let m' := Double.Meal.calculateTotals m in
      let sum field := SpecDouble.sum field (Double.Meal.foods m) in
      SpecDouble.rounded_2dp (sum Double.Meal.calories) (Double.Meal.totalCalories m') /\
      SpecDouble.rounded_2dp (sum Double.Meal.protein) (Double.Meal.totalProtein m') /\
      SpecDouble.rounded_2dp (sum Double.Meal.carbs) (Double.Meal.totalCarbs m') /\
      SpecDouble.rounded_2dp (sum Double.Meal.fat) (Double.Meal.totalFat m') /\
      SpecDouble.rounded_2dp (sum Double.Meal.fiber) (Double.Meal.totalFiber m') /\
      SpecDouble.rounded_2dp (sum Double.Meal.sugar) (Double.Meal.totalSugar m')) /\
  (forall m : Double.Meal.t,
      Double.Meal.foods m = [] ->
      let m' := Double.Meal.calculateTotals m in
      Double.Meal.totalCalories m' = 0%float /\ Double.Meal.totalProtein m' = 0%float /\
      Double.Meal.totalCarbs m' = 0%float /\ Double.Meal.totalFat m' = 0%float /\
      Double.Meal.totalFiber m' = 0%float /\ Double.Meal.totalSugar m' = 0%float) /\
  Double.Meal.totalCalories (Double.Meal.calculateTotals DoubleExamples.lunch)
  = 250%float.
Proof.
  split; [|split].
  - intros m. cbn zeta.
    destruct (double_calculateTotals_fields m) as (-> & -> & -> & -> & -> & ->).
    repeat split; apply round2_rounded_2dp.
  - intros m Hempty. cbn zeta.
    destruct (double_calculateTotals_fields m) as (-> & -> & -> & -> & -> & ->).
    rewrite Hempty. repeat split; reflexivity.
  - reflexivity.
Qed.

(** The empty case at a meal that carried stale totals. *)
Lemma meal_totals_of_no_foods :
  Double.Meal.totalCalories (Double.Meal.calculateTotals (DoubleExamples.meal []))
  = 0%float /\
  Double.Meal.totalSugar (Double.Meal.calculateTotals (DoubleExamples.meal []))
  = 0%float.
Proof.
  destruct meal_totals_are_rounded_sums as (_ & Hempty & _).
  destruct (Hempty (DoubleExamples.meal []) eq_refl) as (Hcal & _ & _ & _ & _ & Hsug).
  split; assumption.
Defined.

(** C3 as stated, with the sum rounded half-up to two decimals, fails.  One
    unit of a food of 2.675 kcal: the binary64 number 2.675 is below the
    decimal 2.675, so that its half-up rounding is 2.67, and the total stored
    is 2.68.  One unit of a food of 1.005 kcal: the decimal 1.005 rounds
    half-up to 1.01, and the total stored is 1. *)
Lemma meal_totals_are_not_half_up :
  (Double.Meal.totalCalories
     (Double.Meal.calculateTotals (DoubleExamples.meal [DoubleExamples.food 2.675 1]))
   = 2.68%float /\
   exists kcal stored : Q,
     Binary64.exact 2.675%float = Some kcal /\
     Binary64.exact 2.68%float = Some stored /\
     Spec.half_up_2dp (kcal * 1) 2.67 /\
     ~ stored == 2.67) /\
  (Double.Meal.totalCalories
     (Double.Meal.calculateTotals (DoubleExamples.meal [DoubleExamples.food 1.005 1]))
   = 1%float /\
   exists stored : Q,
     Binary64.exact 1%float = Some stored /\
     Spec.half_up_2dp (1.005 * 1) 1.01 /\
     ~ stored == 1.01).
Proof.
  split; (split; [reflexivity|]).
  - do 2 eexists. split; [reflexivity|]. split; [reflexivity|]. split.
    + exists 267%Z. split; [reflexivity|].
      unfold Spec.nearest. split; vm_compute; [discriminate | reflexivity].
    + vm_compute. discriminate.
  - eexists. split; [reflexivity|]. split.
    + exists 101%Z. split; [reflexivity|].
      unfold Spec.nearest. split; vm_compute; [discriminate | reflexivity].
    + vm_compute. discriminate.
Qed.

End MealFacts.

(** ** Sleep duration *)

Module SleepFacts.

(** With a constant zone offset, the next calendar day is 24 hours later. *)
Lemma addDays_one (tza t : Z) : Date.addDays tza 1 t = (t + Date.msPerDay)%Z.
Proof.
  unfold Date.addDays, Date.UTC, Date.MakeDate, Date.Day, Date.TimeWithinDay,
    Date.LocalTime, Date.msPerDay.
  pose proof (Z.div_mod (t + tza) 86400000 ltac:(lia)) as Hdm.
  lia.
Qed.

(** In a zone, the next calendar day is 24 hours later when the local time
    reached has the offset of the instant left. *)
Lemma setDateBy_one (zone : Date.Zone) (t : Z) :
  Date.offsetOfLocal zone (t + Date.offsetAt zone t + Date.msPerDay)
  = Date.offsetAt zone t ->
  Date.setDateBy zone 1 t = (t + Date.msPerDay)%Z.
Proof.
  intros Hsame. unfold Date.setDateBy. cbn zeta.
  assert (Hmoved : Date.MakeDate (Date.Day (t + Date.offsetAt zone t) + 1)
                     (Date.TimeWithinDay (t + Date.offsetAt zone t))
                   = (t + Date.offsetAt zone t + Date.msPerDay)%Z).
  { unfold Date.MakeDate, Date.Day, Date.TimeWithinDay, Date.msPerDay.
    pose proof (Z.div_mod (t + Date.offsetAt zone t) 86400000 ltac:(lia)) as Hdm.
    lia. }
  rewrite Hmoved, Hsame. lia.
Qed.

Lemma setDateBy_fixed (tza t : Z) :
  Date.setDateBy (Date.fixed tza) 1 t = (t + Date.msPerDay)%Z.
Proof. apply setDateBy_one. reflexivity. Qed.

Lemma minutes_nonneg (ms : Z) : (0 <= ms)%Z -> (0 <= JS.Math_round (inject_Z ms / (1000 * 60)))%Z.
Proof.
  intros Hms.
  rewrite <- (Rounding.Math_round_integer 0).
  apply Rounding.Math_round_monotone.
  apply Qle_shift_div_l; [reflexivity|].
  rewrite Qmult_0_l. change 0 with (inject_Z 0). now rewrite <- Zle_Qle.
Qed.

(** C4, as the code has it.  With both instants present, the stored and
    returned duration is the integer nearest to (sleepEnd' - sleepStart) in
    minutes, where sleepEnd' is sleepEnd moved by setDate to the same local
    time of the next calendar day when sleepEnd < sleepStart.  When that
    move is one of 24 hours (the local time reached has the zone offset of
    sleepEnd, as in every zone of a constant offset), the duration is not
    negative for a sleepEnd at most one day before sleepStart; and 23:00 to
    06:00 gives 420 minutes in a zone of a constant offset, with the end
    entered on the same date or on the next one. *)
Theorem sleep_duration_rule :
  (forall (zone : Date.Zone) (s : Sleep.t) (start end_ : Z),
      Sleep.sleepStart s = Some start ->
      Sleep.sleepEnd s = Some end_ ->
      let shifted :=
        if (end_ <? start)%Z then Date.setDateBy zone 1 end_ else end_ in
      let minutes := JS.Math_round (inject_Z (shifted - start) / 60000) in
      Spec.nearest (inject_Z (shifted - start) / 60000) minutes /\
      Sleep.calculateDuration zone s
      = (Sleep.set_duration s (inject_Z minutes), inject_Z minutes) /\
      (Date.offsetOfLocal zone (end_ + Date.offsetAt zone end_ + Date.msPerDay)
       = Date.offsetAt zone end_ ->
       ((end_ < start)%Z -> shifted = (end_ + Date.msPerDay)%Z) /\
       ((start - Date.msPerDay <= end_)%Z -> (0 <= minutes)%Z))) /\
  (forall tza : Z,
      snd (Sleep.calculateDuration (Date.fixed tza) Examples.night) = 420 /\
      snd (Sleep.calculateDuration (Date.fixed tza) Examples.nightNextDay) = 420).
Proof.
  split.
  - intros zone s start end_ Hstart Hend shifted minutes.
    split; [apply Rounding.Math_round_nearest|]. split.
    + unfold Sleep.calculateDuration. rewrite Hstart, Hend. reflexivity.
    + intros Hsame.
      assert (Hshift : (end_ < start)%Z -> shifted = (end_ + Date.msPerDay)%Z).
      { intros Hlt. subst shifted. apply Z.ltb_lt in Hlt. rewrite Hlt.
        now apply setDateBy_one. }
      split; [exact Hshift|].
      intros Hclose. apply minutes_nonneg.
      destruct (Z.lt_ge_cases end_ start) as [Hlt|Hge].
      * rewrite (Hshift Hlt). lia.
      * subst shifted. apply Z.ltb_ge in Hge. rewrite Hge.
        apply Z.ltb_ge in Hge. lia.
  - intros tza. unfold Sleep.calculateDuration, Examples.night, Examples.nightNextDay.
    cbn [Sleep.sleepStart Sleep.sleepEnd]. rewrite setDateBy_fixed.
    split; reflexivity.
Qed.

(** The rule at the night of the example, on a server in UTC. *)
Lemma sleep_duration_of_the_night :
  Sleep.calculateDuration (Date.fixed 0) Examples.night =
    (Sleep.set_duration Examples.night 420, 420).
Proof.
  destruct sleep_duration_rule as [Hrule _].
  destruct (Hrule (Date.fixed 0) Examples.night Examples.at2300 Examples.at0600
              eq_refl eq_refl)
    as (_ & Hduration & _).
  exact Hduration.
Defined.

(** C4 as stated fails where it says the duration is negative for no pair:
    with sleepEnd two days before sleepStart, the one-day move leaves
    -1440 minutes.  It also fails in a night in which the clocks go forward,
    where the move to the next calendar day is one of 23 hours: from 23:00
    to 06:00 local time the duration is 360 minutes, not 420, and with
    sleepEnd 23 and a half hours before sleepStart it is -30 minutes. *)
Lemma sleep_duration_can_be_negative :
  (snd (Sleep.calculateDuration (Date.fixed 0) Examples.reversed) == -1440 /\
   ~ 0 <= snd (Sleep.calculateDuration (Date.fixed 0) Examples.reversed)) /\
  (snd (Sleep.calculateDuration Examples.springForward Examples.shortNight) == 360 /\
   ~ snd (Sleep.calculateDuration Examples.springForward Examples.shortNight) == 420) /\
  (snd (Sleep.calculateDuration Examples.springForward Examples.lateStart) == -30 /\
   ~ 0 <= snd (Sleep.calculateDuration Examples.springForward Examples.lateStart)).
Proof.
  split; [|split]; (split; [reflexivity|]).
  - apply Qlt_not_le. reflexivity.
  - discriminate.
  - apply Qlt_not_le. reflexivity.
Qed.

End SleepFacts.

(** ** BMI and its category *)

Module ProgressFacts.











End ProgressFacts.

(** ** Queries: filtering, sorting and limiting *)

Module MongoFacts.

Section Sort.
Context {A : Type} (leb : A -> A -> bool).
Hypothesis leb_total : forall a b, leb a b = true \/ leb b a = true.
Hypothesis leb_trans : forall a b c, leb a b = true -> leb b c = true -> leb a c = true.

Let ordered (a b : A) : Prop := leb a b = true.

Lemma insert_perm (x : A) (l : list A) : Permutation (Mongo.insert leb x l) (x :: l).
Proof.
  induction l as [|y rest IH]; cbn; [reflexivity|].
  destruct (leb x y); [reflexivity|].
  rewrite IH. apply perm_swap.
Qed.

Lemma sort_perm (l : list A) : Permutation (Mongo.sort leb l) l.
Proof.
  induction l as [|x rest IH]; cbn; [reflexivity|].
  rewrite insert_perm. now constructor.
Qed.

Lemma insert_sorted (x : A) (l : list A) :
  StronglySorted ordered l -> StronglySorted ordered (Mongo.insert leb x l).
Proof.
  induction 1 as [|y rest Hsorted IH Hall]; cbn.
  - repeat constructor.
  - destruct (leb x y) eqn:Hxy.
    + constructor; [now constructor|].
      constructor; [exact Hxy|].
      eapply Forall_impl; [|exact Hall].
      intros z Hyz. exact (leb_trans _ _ _ Hxy Hyz).
    + constructor; [exact IH|].
      apply (Permutation_Forall (Permutation_sym (insert_perm x rest))).
      constructor; [|exact Hall].
      destruct (leb_total x y) as [Habs|Hyx]; [congruence | exact Hyx].
Qed.

Lemma sort_sorted (l : list A) : StronglySorted ordered (Mongo.sort leb l).
Proof.
  induction l as [|x rest IH]; cbn; [constructor | now apply insert_sorted].
Qed.

End Sort.

Lemma sorted_app_inv {A : Type} (R : A -> A -> Prop) (l1 l2 : list A) :
  StronglySorted R (l1 ++ l2) ->
  StronglySorted R l1 /\ StronglySorted R l2 /\
  (forall a b, In a l1 -> In b l2 -> R a b).
Proof.
  induction l1 as [|x rest IH]; cbn; intros Hsorted.
  - repeat split; [constructor | exact Hsorted | contradiction].
  - inversion Hsorted as [|? ? Hrest Hall]; subst.
    destruct (IH Hrest) as (H1 & H2 & H12).
    apply Forall_app in Hall as [Hall1 Hall2].
    repeat split; [now constructor | exact H2 |].
    intros a b [<-|Ha] Hb.
    + rewrite Forall_forall in Hall2. now apply Hall2.
    + now apply H12.
Qed.

Lemma sorted_last {A : Type} (R : A -> A -> Prop) (l : list A) (b : A) :
  StronglySorted R l -> (forall x, R x x) ->
  nth_error l (List.length l - 1) = Some b ->
  forall x, In x l -> R x b.
Proof.
  intros Hsorted Hrefl.
  induction Hsorted as [|y rest Hrest IH Hall]; intros Hb x Hx; [contradiction|].
  destruct rest as [|z rest'].
  - cbn in Hb. injection Hb as <-. destruct Hx as [<-|[]]. apply Hrefl.
  - assert (Hb' : nth_error (z :: rest') (List.length (z :: rest') - 1) = Some b).
    { cbn [List.length] in Hb |- *.
      replace (S (S (List.length rest')) - 1)%nat with (S (List.length rest')) in Hb by lia.
      replace (S (List.length rest') - 1)%nat with (List.length rest') by lia.
      exact Hb. }
    destruct Hx as [<-|Hx].
    + rewrite Forall_forall in Hall. apply Hall.
      eapply nth_error_In. exact Hb'.
    + now apply IH.
Qed.

Lemma sorted_head {A : Type} (R : A -> A -> Prop) (l : list A) (a : A) :
  StronglySorted R l -> (forall x, R x x) ->
  nth_error l 0 = Some a ->
  forall x, In x l -> R a x.
Proof.
  intros Hsorted Hrefl Ha x Hx.
  destruct Hsorted as [|y rest _ Hall]; [contradiction|].
  cbn in Ha. injection Ha as ->.
  destruct Hx as [<-|Hx]; [apply Hrefl|].
  rewrite Forall_forall in Hall. now apply Hall.
Qed.

Lemma In_limit {A : Type} (n : nat) (l : list A) (x : A) :
  In x (Mongo.limit n l) -> In x l.
Proof.
  intros Hx. rewrite <- (firstn_skipn n l). apply in_or_app. now left.
Qed.

Lemma find_none {A : Type} (query : A -> bool) (collection : list A) :
  (forall x, In x collection -> query x = false) -> Mongo.find query collection = [].
Proof.
  induction collection as [|x rest IH]; cbn; intros Hnone; [reflexivity|].
  rewrite (Hnone x) by now left.
  apply IH. intros y Hy. apply Hnone. now right.
Qed.

Lemma dateDescending_total {A : Type} (date : A -> Z) (a b : A) :
  Mongo.dateDescending date a b = true \/ Mongo.dateDescending date b a = true.
Proof. unfold Mongo.dateDescending. lia. Qed.

Lemma dateDescending_trans {A : Type} (date : A -> Z) (a b c : A) :
  Mongo.dateDescending date a b = true -> Mongo.dateDescending date b c = true ->
  Mongo.dateDescending date a c = true.
Proof. unfold Mongo.dateDescending. lia. Qed.

End MongoFacts.

(** ** Sums and lengths of query results *)

Module SumFacts.

Lemma fold_sum_shift {A : Type} (f : A -> Q) (xs : list A) (a : Q) :
  fold_left (fun sum x => sum + f x) xs a == a + JS.sumBy f xs.
Proof.
  unfold JS.sumBy. revert a. induction xs as [|x rest IH]; intros a; cbn [fold_left].
  - lra.
  - rewrite (IH (a + f x)), (IH (0 + f x)). lra.
Qed.

Lemma sumBy_cons {A : Type} (f : A -> Q) (x : A) (xs : list A) :
  JS.sumBy f (x :: xs) == f x + JS.sumBy f xs.
Proof.
  unfold JS.sumBy at 1. cbn [fold_left]. rewrite fold_sum_shift. lra.
Qed.

Lemma sumBy_app {A : Type} (f : A -> Q) (xs ys : list A) :
  JS.sumBy f (xs ++ ys) == JS.sumBy f xs + JS.sumBy f ys.
Proof.
  induction xs as [|x rest IH]; cbn [app].
  - unfold JS.sumBy at 2. cbn. lra.
  - rewrite !sumBy_cons, IH. lra.
Qed.

Lemma sumBy_perm {A : Type} (f : A -> Q) (xs ys : list A) :
  Permutation xs ys -> JS.sumBy f xs == JS.sumBy f ys.
Proof.
  induction 1 as [|x xs ys _ IH|x y xs|xs ys zs _ IH1 _ IH2].
  - reflexivity.
  - rewrite !sumBy_cons, IH. reflexivity.
  - rewrite !sumBy_cons. lra.
  - now rewrite IH1.
Qed.

Lemma sumBy_map {A B : Type} (f : B -> Q) (g : A -> B) (xs : list A) :
  JS.sumBy f (map g xs) = JS.sumBy (fun x => f (g x)) xs.
Proof.
  unfold JS.sumBy. generalize 0. induction xs as [|x rest IH]; intros a; cbn; [reflexivity|].
  apply IH.
Qed.

Lemma sumBy_ext {A : Type} (f g : A -> Q) (xs : list A) :
  (forall x, In x xs -> f x == g x) -> JS.sumBy f xs == JS.sumBy g xs.
Proof.
  induction xs as [|x rest IH]; intros Hext; [reflexivity|].
  rewrite !sumBy_cons, (Hext x (or_introl eq_refl)), IH; [reflexivity|].
  intros y Hy. apply Hext. now right.
Qed.

Lemma sumBy_nonneg {A : Type} (f : A -> Q) (xs : list A) :
  (forall x, In x xs -> 0 <= f x) -> 0 <= JS.sumBy f xs.
Proof.
  induction xs as [|x rest IH]; intros Hpos; [discriminate|].
  rewrite sumBy_cons.
  assert (0 <= f x) by (apply Hpos; now left).
  assert (0 <= JS.sumBy f rest) by (apply IH; intros y Hy; apply Hpos; now right).
  lra.
Qed.

Lemma sort_length {A : Type} (leb : A -> A -> bool) (l : list A) :
  Dashboard.len (Mongo.sort leb l) = Dashboard.len l.
Proof.
  unfold Dashboard.len. f_equal. apply Permutation_length, MongoFacts.sort_perm.
Qed.

Lemma sumBy_sort {A : Type} (leb : A -> A -> bool) (f : A -> Q) (l : list A) :
  JS.sumBy f (Mongo.sort leb l) == JS.sumBy f l.
Proof. apply sumBy_perm, MongoFacts.sort_perm. Qed.

(** A narrower query matches no more documents, and sums to no more on a
    field that is not negative. *)
Lemma find_narrower {A : Type} (p q : A -> bool) (f : A -> Q) (l : list A) :
  (forall x, p x = true -> q x = true) ->
  (Dashboard.len (Mongo.find p l) <= Dashboard.len (Mongo.find q l))%Z /\
  ((forall x, In x l -> 0 <= f x) ->
   JS.sumBy f (Mongo.find p l) <= JS.sumBy f (Mongo.find q l)).
Proof.
  intros Himpl. unfold Mongo.find, Dashboard.len.
  induction l as [|x rest [IHlen IHsum]]; cbn [filter].
  - split; [lia | intros _; apply Qle_refl].
  - destruct (p x) eqn:Hp.
    + rewrite (Himpl x Hp). cbn [List.length]. split; [lia|].
      intros Hpos. rewrite !sumBy_cons.
      assert (JS.sumBy f (filter p rest) <= JS.sumBy f (filter q rest))
        by (apply IHsum; intros y Hy; apply Hpos; now right).
      lra.
    + destruct (q x); cbn [List.length]; (split; [lia|]); intros Hpos.
      * rewrite sumBy_cons.
        assert (0 <= f x) by (apply Hpos; now left).
        assert (JS.sumBy f (filter p rest) <= JS.sumBy f (filter q rest))
          by (apply IHsum; intros y Hy; apply Hpos; now right).
        lra.
      * apply IHsum. intros y Hy. apply Hpos. now right.
Qed.

End SumFacts.

(** ** The dashboard's progress block *)

Module ProgressBlockFacts.

Lemma since_spec (user : User.t) (start : Z) (owner : JS.ObjectId) (d : Z) :
  Dashboard.since user start owner d = true <-> Spec.inWindow user start None owner d.
Proof.
  unfold Dashboard.since, Spec.inWindow.
  rewrite andb_true_iff, Z.eqb_eq, Z.leb_le. tauto.
Qed.

Lemma between_spec (user : User.t) (start stop : Z) (owner : JS.ObjectId) (d : Z) :
  Dashboard.between user start stop owner d = true <->
  Spec.inWindow user start (Some stop) owner d.
Proof.
  unfold Dashboard.between, Spec.inWindow.
  rewrite !andb_true_iff, Z.eqb_eq, !Z.leb_le. tauto.
Qed.

Lemma sorted_weaken {A : Type} (R R' : A -> A -> Prop) (l : list A) :
  (forall a b, R a b -> R' a b) -> StronglySorted R l -> StronglySorted R' l.
Proof.
  intros Himpl. induction 1 as [|x rest _ IH Hall]; constructor; [exact IH|].
  eapply Forall_impl; [|exact Hall]. intros y. apply Himpl.
Qed.

Lemma sorted_map {A B : Type} (R : A -> A -> Prop) (R' : B -> B -> Prop)
    (f : A -> B) (l : list A) :
  (forall a b, R a b -> R' (f a) (f b)) ->
  StronglySorted R l -> StronglySorted R' (map f l).
Proof.
  intros Himpl. induction 1 as [|x rest _ IH Hall]; cbn [map]; constructor; [exact IH|].
  apply Forall_map. eapply Forall_impl; [|exact Hall]. intros y. apply Himpl.
Qed.

Lemma window_spec env db user (p : Progress.t) :
  In p (Spec.window env db user) <->
  In p (Dashboard.progress db) /\ Spec.inLookback env user p.
Proof.
  unfold Spec.window, Spec.inLookback.
  rewrite filter_In, since_spec. tauto.
Qed.

Lemma sorted_window env db user :
  StronglySorted Spec.newestFirst
    (Mongo.sort (Mongo.dateDescending Progress.date) (Spec.window env db user)).
Proof.
  eapply sorted_weaken;
    [| apply MongoFacts.sort_sorted;
       [apply MongoFacts.dateDescending_total | apply MongoFacts.dateDescending_trans]].
  intros a b Hab. unfold Mongo.dateDescending in Hab. unfold Spec.newestFirst. lia.
Qed.

Lemma recentProgress_sorted env db user :
  StronglySorted Spec.newestFirst (Dashboard.recentProgress env db user).
Proof.
  pose proof (sorted_window env db user) as Hsorted.
  rewrite <- (firstn_skipn 10) in Hsorted.
  now apply MongoFacts.sorted_app_inv in Hsorted.
Qed.

(** The records fetched are the ten most recent of the window, or all of
    them when the window holds fewer. *)
Lemma recentProgress_most_recent env db user :
  exists older : list Progress.t,
    Permutation (Dashboard.recentProgress env db user ++ older) (Spec.window env db user) /\
    (forall r o, In r (Dashboard.recentProgress env db user) -> In o older ->
                 (Progress.date o <= Progress.date r)%Z) /\
    (List.length (Dashboard.recentProgress env db user) <= 10)%nat /\
    (older <> [] -> List.length (Dashboard.recentProgress env db user) = 10%nat).
Proof.
  set (sorted := Mongo.sort (Mongo.dateDescending Progress.date) (Spec.window env db user)).
  exists (skipn 10 sorted).
  change (Dashboard.recentProgress env db user) with (firstn 10 sorted).
  repeat split.
  - rewrite firstn_skipn. apply MongoFacts.sort_perm.
  - pose proof (sorted_window env db user) as Hsorted. fold sorted in Hsorted.
    rewrite <- (firstn_skipn 10) in Hsorted.
    apply MongoFacts.sorted_app_inv in Hsorted as (_ & _ & Hcross).
    intros r o Hr Ho. exact (Hcross r o Hr Ho).
  - apply firstn_le_length.
  - intros Holder. rewrite length_firstn.
    destruct (Nat.le_gt_cases (List.length sorted) 10) as [Hshort|Hlong]; [|lia].
    exfalso. apply Holder. now apply skipn_all2.
Qed.

Lemma recentProgress_in_window env db user (p : Progress.t) :
  In p (Dashboard.recentProgress env db user) ->
  In p (Dashboard.progress db) /\ Spec.inLookback env user p.
Proof.
  intros Hp. apply window_spec.
  apply (Permutation_in _ (MongoFacts.sort_perm
           (Mongo.dateDescending Progress.date) (Spec.window env db user))).
  eapply MongoFacts.In_limit. exact Hp.
Qed.

Lemma recentProgress_nonempty env db user (p : Progress.t) :
  In p (Dashboard.progress db) -> Spec.inLookback env user p ->
  Dashboard.recentProgress env db user <> [].
Proof.
  intros Hdb Hwin Hnil.
  assert (Hp : In p (Spec.window env db user)) by now apply window_spec.
  apply (Permutation_in _ (Permutation_sym (MongoFacts.sort_perm
           (Mongo.dateDescending Progress.date) _))) in Hp.
  change (Dashboard.recentProgress env db user)
    with (firstn 10 (Mongo.sort (Mongo.dateDescending Progress.date)
                       (Spec.window env db user))) in Hnil.
  destruct (Mongo.sort (Mongo.dateDescending Progress.date) (Spec.window env db user));
    [contradiction | discriminate].
Qed.

Lemma recentProgress_empty env db user :
  (forall p, In p (Dashboard.progress db) -> ~ Spec.inLookback env user p) ->
  Dashboard.recentProgress env db user = [].
Proof.
  intros Hnone. unfold Dashboard.recentProgress.
  rewrite MongoFacts.find_none; [reflexivity|]. cbv beta.
  intros p Hp. apply not_true_iff_false. rewrite since_spec. now apply Hnone.
Qed.

(** The head of the fetched records is the most recent record of the window. *)
Lemma recentProgress_head_newest env db user (newest : Progress.t) :
  nth_error (Dashboard.recentProgress env db user) 0 = Some newest ->
  forall p, In p (Dashboard.progress db) -> Spec.inLookback env user p ->
            (Progress.date p <= Progress.date newest)%Z.
Proof.
  intros Hhead p Hdb Hwin.
  destruct (recentProgress_most_recent env db user) as (older & Hperm & Hcross & _).
  assert (Hp : In p (Spec.window env db user)) by now apply window_spec.
  apply (Permutation_in _ (Permutation_sym Hperm)) in Hp.
  assert (Hnewest : In newest (Dashboard.recentProgress env db user))
    by (eapply nth_error_In; exact Hhead).
  apply in_app_or in Hp as [Hp|Hp].
  - apply (MongoFacts.sorted_head Spec.newestFirst _ newest
             (recentProgress_sorted env db user)); [|exact Hhead|exact Hp].
    intros x. unfold Spec.newestFirst. lia.
  - now apply Hcross.
Qed.

End ProgressBlockFacts.

(** ** What the dashboard reports about progress *)

Module DashboardFacts.
Import ProgressBlockFacts.

Lemma len_ge_2 {A : Type} (l : list A) : (1 <? Dashboard.len l)%Z = true <-> (2 <= List.length l)%nat.
Proof. unfold Dashboard.len. rewrite Z.ltb_lt. lia. Qed.

(** The window of the limited query is the user's records of the thirty days
    before now, 2,592,000,000 ms. *)
Lemma window_is_thirty_days env db user :
  Spec.window env db user = Spec.last30Days env db user.
Proof. reflexivity. Qed.

(** C10. The progress block is computed from the records fetched by the
    limited query: at most ten, and the most recent of the user's records
    dated within the thirty days before now.  currentWeight is the weight of
    the most recent of them (the profile weight when there is none),
    weightTrend lists exactly them, and with two or more of them weightChange
    is the weight of the most recent minus the weight of the earliest of
    them, which with eleven records in the window is not the earliest of the
    window; with fewer than two it is 0.  Every fetched record is a record
    of the user dated no more than 2,592,000,000 ms, thirty days of 24
    hours, before now. *)
Theorem progress_block_uses_ten_most_recent :
  (forall (env : Dashboard.Env) (db : Dashboard.Collections) (user : User.t)
          (date : option Z),
      let recent := Dashboard.recentProgress env db user in
      let block := Dashboard.progress_summary (Dashboard.getDashboard env db user date) in
      (exists older : list Progress.t,
          Permutation (recent ++ older) (Spec.last30Days env db user) /\
          (forall r o, In r recent -> In o older ->
                       (Progress.date o <= Progress.date r)%Z) /\
          (List.length recent <= 10)%nat /\
          (older <> [] -> List.length recent = 10%nat)) /\
      (forall p, In p recent ->
                 Progress.user p = User._id user /\
                 (Dashboard.now env - 2592000000 <= Progress.date p)%Z) /\
      Dashboard.weightTrend (Dashboard.getDashboard env db user date) =
        map (fun p => (Progress.date p, Progress.weight p)) recent /\
      (recent = [] -> Dashboard.currentWeight block = User.weight user) /\
      (forall newest : Progress.t,
          nth_error recent 0 = Some newest ->
          Dashboard.currentWeight block = Progress.weight newest /\
          forall r, In r recent -> (Progress.date r <= Progress.date newest)%Z) /\
      ((2 <= List.length recent)%nat ->
       exists newest earliest : Progress.t,
         nth_error recent 0 = Some newest /\
         nth_error recent (List.length recent - 1) = Some earliest /\
         (forall r, In r recent ->
                    (Progress.date earliest <= Progress.date r <= Progress.date newest)%Z) /\
         Dashboard.weightChange block = Progress.weight newest - Progress.weight earliest) /\
      ((List.length recent < 2)%nat -> Dashboard.weightChange block = 0)) /\
  (let block :=
     Dashboard.progress_summary
       (Dashboard.getDashboard Examples.env Examples.elevenWeighIns Examples.alex None) in
   List.length (Spec.last30Days Examples.env Examples.elevenWeighIns Examples.alex)
   = 11%nat /\
   Dashboard.currentWeight block = 71 /\
   Dashboard.weightChange block = 71 - 62 /\
   ~ Dashboard.weightChange block == 71 - 61).
Proof.
  split.
  - intros env db user date recent block.
    pose proof (recentProgress_sorted env db user) as Hsorted. fold recent in Hsorted.
    assert (Hrefl : forall x, Spec.newestFirst x x)
      by (intros x; unfold Spec.newestFirst; lia).
    split; [rewrite <- window_is_thirty_days; apply recentProgress_most_recent|].
    split.
    { intros p Hp.
      destruct (recentProgress_in_window env db user p Hp) as [_ (Huser & Hdate & _)].
      split; [exact Huser|]. unfold Dashboard.lookbackStart in Hdate. lia. }
    split; [reflexivity|].
    split; [|split; [|split]].
    + intros Hnil. subst block. unfold Dashboard.getDashboard.
      cbn [Dashboard.progress_summary Dashboard.progressSummary Dashboard.currentWeight].
      fold recent. now rewrite Hnil.
    + intros newest Hhead. split.
      * subst block. unfold Dashboard.getDashboard.
        cbn [Dashboard.progress_summary Dashboard.progressSummary Dashboard.currentWeight].
        fold recent. destruct recent as [|p rest]; [discriminate|].
        cbn in Hhead. now injection Hhead as ->.
      * intros r Hr.
        exact (MongoFacts.sorted_head Spec.newestFirst recent newest Hsorted Hrefl Hhead r Hr).
    + intros Hlen.
      destruct (nth_error recent 0) as [newest|] eqn:Hhead;
        [|apply nth_error_None in Hhead; lia].
      destruct (nth_error recent (List.length recent - 1)) as [earliest|] eqn:Hlast;
        [|apply nth_error_None in Hlast; lia].
      exists newest, earliest.
      split; [reflexivity|]. split; [reflexivity|]. split.
      * intros r Hr. split.
        -- exact (MongoFacts.sorted_last Spec.newestFirst recent earliest
                    Hsorted Hrefl Hlast r Hr).
        -- exact (MongoFacts.sorted_head Spec.newestFirst recent newest
                    Hsorted Hrefl Hhead r Hr).
      * subst block. unfold Dashboard.getDashboard.
        cbn [Dashboard.progress_summary Dashboard.progressSummary Dashboard.weightChange].
        fold recent. apply len_ge_2 in Hlen. rewrite Hlen, Hhead, Hlast. reflexivity.
    + intros Hlen. subst block. unfold Dashboard.getDashboard.
      cbn [Dashboard.progress_summary Dashboard.progressSummary Dashboard.weightChange].
      fold recent.
      destruct (1 <? Dashboard.len recent)%Z eqn:Hguard; [|reflexivity].
      apply len_ge_2 in Hguard. lia.
  - cbn zeta. repeat split. discriminate.
Qed.

(** C8, as the code has it.  weightTrend lists the (date, weight) pairs of the
    fetched progress records, at most ten, each of a record of the user
    within the lookback window, in descending date order: most recent first. *)
Theorem weight_trend_most_recent_first :
  forall (env : Dashboard.Env) (db : Dashboard.Collections) (user : User.t)
         (date : option Z),
    let trend := Dashboard.weightTrend (Dashboard.getDashboard env db user date) in
    StronglySorted Spec.descendingDates trend /\
    trend = map (fun p => (Progress.date p, Progress.weight p))
              (Dashboard.recentProgress env db user) /\
    (List.length trend <= 10)%nat /\
    (forall point, In point trend ->
       exists p : Progress.t,
         In p (Dashboard.progress db) /\ Spec.inLookback env user p /\
         point = (Progress.date p, Progress.weight p)).
Proof.
  intros env db user date trend.
  assert (Htrend : trend = map (fun p => (Progress.date p, Progress.weight p))
                             (Dashboard.recentProgress env db user)) by reflexivity.
  split; [|split; [exact Htrend|split]].
  - rewrite Htrend.
    apply (sorted_map Spec.newestFirst); [|apply recentProgress_sorted].
    intros a b Hab. exact Hab.
  - rewrite Htrend, length_map.
    destruct (recentProgress_most_recent env db user) as (_ & _ & _ & Hlen & _).
    exact Hlen.
  - intros point Hpoint. rewrite Htrend in Hpoint.
    apply in_map_iff in Hpoint as (p & <- & Hp).
    exists p. destruct (recentProgress_in_window env db user p Hp) as [Hdb Hwin].
    split; [exact Hdb|]. split; [exact Hwin | reflexivity].
Qed.

(** C8 as stated fails: with a weigh-in on day 10 and one on day 11, the
    series starts with day 11 and is not in ascending date order. *)
Lemma weight_trend_is_not_ascending :
  let trend :=
    Dashboard.weightTrend
      (Dashboard.getDashboard Examples.env Examples.twoWeighIns Examples.alex None) in
  trend = [ (Progress.date (Examples.weighIn 11 79), 79);
            (Progress.date (Examples.weighIn 10 80), 80) ] /\
  ~ StronglySorted Spec.ascendingDates trend.
Proof.
  cbn zeta. split; [reflexivity|].
  intros Hsorted.
  change (Dashboard.weightTrend
            (Dashboard.getDashboard Examples.env Examples.twoWeighIns Examples.alex None))
    with [ (Progress.date (Examples.weighIn 11 79), 79);
           (Progress.date (Examples.weighIn 10 80), 80) ] in Hsorted.
  inversion Hsorted as [|? ? _ Hall]; subst.
  inversion Hall as [|? ? Hfirst _]; subst.
  unfold Spec.ascendingDates in Hfirst. cbn in Hfirst. lia.
Qed.

(** The BMI string the dashboard builds from a weight and the user's height. *)
Lemma currentBMI_of_recent env db user date :
  Dashboard.currentBMI (Dashboard.getDashboard env db user date) =
    Dashboard.computeCurrentBMI user (Dashboard.recentProgress env db user).
Proof. reflexivity. Qed.

(** C7, as the code has it.  When a progress record of the user lies within
    the lookback window, currentBMI is computed from the weight of the most
    recent such record and the user's height; when none does, currentBMI is
    null. *)
Theorem current_bmi_from_latest_record_or_null :
  forall (env : Dashboard.Env) (db : Dashboard.Collections) (user : User.t)
         (date : option Z),
    let response := Dashboard.getDashboard env db user date in
    let heightInMeters := User.height user / 100 in
    ((exists p, In p (Dashboard.progress db) /\ Spec.inLookback env user p) ->
     exists latest : Progress.t,
       In latest (Dashboard.progress db) /\ Spec.inLookback env user latest /\
       (forall p, In p (Dashboard.progress db) -> Spec.inLookback env user p ->
                  (Progress.date p <= Progress.date latest)%Z) /\
       Dashboard.currentBMI response =
         Some (JS.toFixed1
                 (JS.div (Progress.weight latest) (heightInMeters * heightInMeters)))) /\
    ((forall p, In p (Dashboard.progress db) -> ~ Spec.inLookback env user p) ->
     Dashboard.currentBMI response = None).
Proof.
  intros env db user date response heightInMeters. subst response.
  rewrite currentBMI_of_recent. split.
  - intros (p & Hdb & Hwin).
    pose proof (recentProgress_nonempty env db user p Hdb Hwin) as Hnonempty.
    destruct (Dashboard.recentProgress env db user) as [|latest rest] eqn:Hrecent;
      [contradiction|].
    exists latest.
    assert (Hin : In latest (Dashboard.recentProgress env db user))
      by (rewrite Hrecent; now left).
    destruct (recentProgress_in_window env db user latest Hin) as [Hldb Hlwin].
    split; [exact Hldb|]. split; [exact Hlwin|]. split; [|reflexivity].
    apply recentProgress_head_newest. now rewrite Hrecent.
  - intros Hnone. now rewrite (recentProgress_empty env db user Hnone).
Qed.

(** The two cases at sample data: two weigh-ins, the later one of 79 kg, for a
    user 180 cm tall. *)
Lemma current_bmi_of_two_weigh_ins :
  exists latest : Progress.t,
    Progress.weight latest = 79 /\
    Dashboard.currentBMI
      (Dashboard.getDashboard Examples.env Examples.twoWeighIns Examples.alex None) =
      Some (JS.toFixed1 (JS.div (Progress.weight latest) (180 / 100 * (180 / 100)))).
Proof.
  destruct (current_bmi_from_latest_record_or_null
              Examples.env Examples.twoWeighIns Examples.alex None) as [Hsome _].
  destruct Hsome as (latest & Hdb & _ & Hnewest & Hbmi).
  - exists (Examples.weighIn 11 79). split; [cbn; tauto|].
    unfold Spec.inLookback, Spec.inWindow. cbn. repeat split; lia.
  - exists latest. split; [|exact Hbmi].
    specialize (Hnewest (Examples.weighIn 11 79)).
    cbn in Hdb. destruct Hdb as [<-|[<-|[]]]; [|reflexivity].
    exfalso.
    assert (Hle : (Progress.date (Examples.weighIn 11 79)
                   <= Progress.date (Examples.weighIn 10 80))%Z).
    { apply Hnewest; [cbn; tauto|].
      unfold Spec.inLookback, Spec.inWindow. cbn. repeat split; lia. }
    cbn in Hle. lia.
Defined.

(** C7 as stated fails where no progress record exists: currentBMI is null,
    not the BMI of the profile weight, which the response carries separately
    as user.bmi. *)
Lemma current_bmi_is_null_without_records :
  let response :=
    Dashboard.getDashboard Examples.env Examples.noRecords Examples.alex None in
  Dashboard.currentBMI response = None /\
  Dashboard.user_bmi response = "24.7" /\
  Dashboard.currentBMI response <> Some (User.calculateBMI Examples.alex).
Proof.
  cbn zeta. repeat split. discriminate.
Qed.

End DashboardFacts.

(** ** Goal progress *)

Module GoalFacts.

(** C6, what the code does instead.  When the stored weight equals a set,
    non-zero target weight, the quotient is not guarded: goalProgress is NaN
    when the current weight is the target too, and Infinity otherwise; it is
    never 0. *)
Theorem goal_progress_divides_by_zero :
  forall (env : Dashboard.Env) (db : Dashboard.Collections) (user : User.t)
         (date : option Z) (target : Q),
    User.targetWeight user = Some target ->
    ~ target == 0 ->
    User.weight user == target ->
    let response := Dashboard.getDashboard env db user date in
    let current := Dashboard.currentWeight (Dashboard.progress_summary response) in
    (current == target -> Dashboard.goalProgress response = JS.NaN) /\
    (~ current == target -> Dashboard.goalProgress response = JS.PosInfinity) /\
    Dashboard.goalProgress response <> JS.Finite 0.
Proof.
  intros env db user date target Htarget Hnonzero Hsame response current.
  assert (Hgoal : Dashboard.goalProgress response =
                  JS.Math_abs (JS.mul (JS.div (target - current)
                                         (User.weight user - target)) 100)).
  { subst response current. unfold Dashboard.getDashboard.
    cbn [Dashboard.goalProgress Dashboard.progress_summary].
    unfold Dashboard.computeGoalProgress. rewrite Htarget.
    destruct (Qeq_bool target 0) eqn:Hzero; [|reflexivity].
    apply Qeq_bool_eq in Hzero. contradiction. }
  assert (Hdenominator : Qeq_bool (User.weight user - target) 0 = true)
    by (apply Qeq_eq_bool; lra).
  rewrite Hgoal. unfold JS.div. rewrite Hdenominator.
  destruct (Qeq_bool (target - current) 0) eqn:Hnumerator.
  - apply Qeq_bool_eq in Hnumerator.
    split; [reflexivity|]. split; [|discriminate].
    intros Hne. exfalso. apply Hne. lra.
  - split; [|split].
    + intros Heq. exfalso.
      assert (Htrue : Qeq_bool (target - current) 0 = true) by (apply Qeq_eq_bool; lra).
      congruence.
    + intros _. destruct (Qle_bool (target - current) 0); reflexivity.
    + destruct (Qle_bool (target - current) 0); discriminate.
Qed.

(** A user of 70 kg whose target is 70 kg: NaN with no weigh-in, Infinity with
    a weigh-in of 72 kg. *)
Lemma goal_progress_at_equal_weights :
  Dashboard.goalProgress
    (Dashboard.getDashboard Examples.env Examples.noRecords Examples.arrived None)
    = JS.NaN /\
  Dashboard.goalProgress
    (Dashboard.getDashboard Examples.env Examples.oneWeighInAbove Examples.arrived None)
    = JS.PosInfinity.
Proof.
  split.
  - apply (goal_progress_divides_by_zero
             Examples.env Examples.noRecords Examples.arrived None 70 eq_refl);
      [discriminate | reflexivity | reflexivity].
  - apply (goal_progress_divides_by_zero
             Examples.env Examples.oneWeighInAbove Examples.arrived None 70 eq_refl);
      [discriminate | reflexivity | discriminate].
Defined.

End GoalFacts.

(** ** Summaries over a window *)

Module SummaryFacts.
Import ProgressBlockFacts.

(** The summaries of the dashboard are [summary] of the fetched lists. *)
Lemma daily_summary_eq env db user date :
  let response := Dashboard.getDashboard env db user date in
  Dashboard.daily_summary response =
    Dashboard.summary (Dashboard.daily_workouts response)
      (Dashboard.daily_meals response) (Dashboard.daily_sleep response).
Proof. reflexivity. Qed.

Lemma average_empty {A : Type} (f : A -> Q) : Dashboard.average f [] = JS.Finite 0.
Proof. reflexivity. Qed.

Lemma len_positive {A : Type} (xs : list A) : xs <> [] -> (0 < Dashboard.len xs)%Z.
Proof.
  intros Hne. destruct xs as [|x rest]; [contradiction|].
  unfold Dashboard.len. cbn [List.length]. lia.
Qed.

Lemma average_nonempty {A : Type} (f : A -> Q) (xs : list A) :
  xs <> [] ->
  Dashboard.average f xs =
    JS.Finite (inject_Z (JS.Math_round (JS.sumBy f xs / inject_Z (Dashboard.len xs)))).
Proof.
  intros Hne. pose proof (len_positive xs Hne) as Hlen.
  unfold Dashboard.average, JS.div.
  destruct (0 <? Dashboard.len xs)%Z eqn:Hguard; [|apply Z.ltb_ge in Hguard; lia].
  destruct (Qeq_bool (inject_Z (Dashboard.len xs)) 0) eqn:Hzero; [|reflexivity].
  apply Qeq_bool_eq in Hzero.
  change 0 with (inject_Z 0) in Hzero.
  apply (proj1 (inject_Z_injective _ _)) in Hzero. lia.
Qed.

Lemma average_rounded {A : Type} (f : A -> Q) (xs : list A) :
  Spec.roundedAverage (JS.sumBy f xs) (Dashboard.len xs) (Dashboard.average f xs).
Proof.
  split.
  - intros Hcount. destruct xs as [|x rest]; [reflexivity|].
    unfold Dashboard.len in Hcount. cbn [List.length] in Hcount. lia.
  - intros Hcount.
    assert (Hne : xs <> []) by (intros ->; cbn in Hcount; lia).
    eexists. split; [apply (average_nonempty f xs Hne)|].
    apply Rounding.Math_round_nearest.
Qed.

Lemma roundedAverage_Qeq (t1 t2 : Q) (count : Z) (average : JS.Number) :
  t1 == t2 -> Spec.roundedAverage t1 count average -> Spec.roundedAverage t2 count average.
Proof.
  intros Ht [Hzero Hpos]. split; [exact Hzero|].
  intros Hcount. destruct (Hpos Hcount) as (n & Haverage & Hnearest).
  exists n. split; [exact Haverage|].
  unfold Spec.nearest in *. now rewrite <- Ht.
Qed.

(** On the four qualities the scores of the method are those of the
    specification. *)
Lemma getQualityScore_score (s : Sleep.t) :
  In (Sleep.quality s) Spec.qualities ->
  Sleep.getQualityScore s = Spec.qualityScore (Sleep.quality s).
Proof.
  unfold Spec.qualities, Sleep.getQualityScore.
  intros [<-|[<-|[<-|[<-|[]]]]]; reflexivity.
Qed.

(** The three averages of the summary of fetched lists, the sleep records
    being those a query selected and sorted. *)
Lemma summary_averages ws ms (leb : Sleep.t -> Sleep.t -> bool)
    (query query' : Sleep.t -> bool) (sleeps : list Sleep.t) :
  (forall s, In s sleeps -> In (Sleep.quality s) Spec.qualities) ->
  (forall s, query s = query' s) ->
  Spec.roundedAverages
    (Dashboard.summary ws ms (Mongo.sort leb (Mongo.find query sleeps)))
    (JS.sumBy (fun s => Spec.qualityScore (Sleep.quality s)) (filter query' sleeps)).
Proof.
  intros Hqualities Hquery. unfold Spec.roundedAverages, Dashboard.summary.
  cbn [Dashboard.sum_workouts Dashboard.sum_sleep Dashboard.w_totalDuration
       Dashboard.w_count Dashboard.w_averageDuration Dashboard.s_totalDuration
       Dashboard.s_count Dashboard.s_averageDuration Dashboard.s_averageQuality].
  split; [apply average_rounded|]. split; [apply average_rounded|].
  eapply roundedAverage_Qeq; [|apply average_rounded].
  rewrite SumFacts.sumBy_sort. unfold Mongo.find.
  rewrite (filter_ext query query' Hquery).
  apply SumFacts.sumBy_ext. intros s Hs. apply filter_In in Hs.
  rewrite getQualityScore_score by (apply Hqualities; tauto). reflexivity.
Qed.

Ltac no_match H :=
  rewrite MongoFacts.find_none;
  [ reflexivity
  | intros x Hx; cbv beta; apply not_true_iff_false;
    first [rewrite between_spec | rewrite since_spec]; now apply H ].

(** C5, as the code has it.  In the daily and weekly summaries of the
    dashboard a kind with no record of the user in the window gets a summary
    whose numeric fields are all zero; and, the stored sleep records having
    qualities the schema admits, every average of these summaries, of the
    workout durations, of the sleep durations and of the quality scores of
    the sleep records of the window, is 0 for no record and otherwise
    sum / count rounded to the nearest integer, always a finite number. *)
Theorem empty_windows_give_zero_summaries :
  (forall (env : Dashboard.Env) (db : Dashboard.Collections) (user : User.t)
          (date : option Z),
      let response := Dashboard.getDashboard env db user date in
      let inDay := Spec.inWindow user (Dashboard.startOfDay env date)
                     (Some (Dashboard.endOfDay env date)) in
      let inWeek := Spec.inWindow user (Dashboard.startOfWeek env date) None in
      ((forall w, In w (Dashboard.workouts db) ->
                  ~ inDay (Workout.user w) (Workout.date w)) ->
       Dashboard.sum_workouts (Dashboard.daily_summary response) = Spec.zeroWorkoutSummary) /\
      ((forall m, In m (Dashboard.meals db) -> ~ inDay (Meal.user m) (Meal.date m)) ->
       Dashboard.sum_meals (Dashboard.daily_summary response) = Spec.zeroMealSummary) /\
      ((forall s, In s (Dashboard.sleeps db) -> ~ inDay (Sleep.user s) (Sleep.date s)) ->
       Dashboard.sum_sleep (Dashboard.daily_summary response) = Spec.zeroSleepSummary) /\
      ((forall w, In w (Dashboard.workouts db) ->
                  ~ inWeek (Workout.user w) (Workout.date w)) ->
       Dashboard.sum_workouts (Dashboard.weekly_summary response) = Spec.zeroWorkoutSummary) /\
      ((forall m, In m (Dashboard.meals db) -> ~ inWeek (Meal.user m) (Meal.date m)) ->
       Dashboard.sum_meals (Dashboard.weekly_summary response) = Spec.zeroMealSummary) /\
      ((forall s, In s (Dashboard.sleeps db) -> ~ inWeek (Sleep.user s) (Sleep.date s)) ->
       Dashboard.sum_sleep (Dashboard.weekly_summary response) = Spec.zeroSleepSummary)) /\
  (forall (env : Dashboard.Env) (db : Dashboard.Collections) (user : User.t)
          (date : option Z),
      (forall s, In s (Dashboard.sleeps db) -> In (Sleep.quality s) Spec.qualities) ->
      let response := Dashboard.getDashboard env db user date in
      Spec.roundedAverages (Dashboard.daily_summary response)
        (Spec.qualityTotal user (Dashboard.startOfDay env date)
           (Some (Dashboard.endOfDay env date)) (Dashboard.sleeps db)) /\
      Spec.roundedAverages (Dashboard.weekly_summary response)
        (Spec.qualityTotal user (Dashboard.startOfWeek env date) None
           (Dashboard.sleeps db))).
Proof.
  split.
  - intros env db user date response inDay inWeek. subst response inDay inWeek.
    unfold Dashboard.getDashboard.
    cbn [Dashboard.daily_summary Dashboard.weekly_summary Dashboard.summary
         Dashboard.sum_workouts Dashboard.sum_meals Dashboard.sum_sleep].
    repeat split; intros Hnone; no_match Hnone.
  - intros env db user date Hqualities response. subst response.
    unfold Dashboard.getDashboard, Spec.qualityTotal.
    cbn [Dashboard.daily_summary Dashboard.weekly_summary].
    split; (apply summary_averages; [exact Hqualities|]); intros s.
    + reflexivity.
    + unfold Dashboard.since. now rewrite andb_true_r.
Qed.

(** With no record at all, every summary of the dashboard is zero; with a
    good and a poor night on the day, the average quality is 50. *)
Lemma summaries_of_an_empty_store :
  Dashboard.daily_summary
    (Dashboard.getDashboard Examples.env Examples.noRecords Examples.alex None) =
    Dashboard.mkSummary Spec.zeroWorkoutSummary Spec.zeroMealSummary Spec.zeroSleepSummary /\
  Spec.roundedAverages
    (Dashboard.daily_summary
       (Dashboard.getDashboard Examples.env Examples.twoNights Examples.alex None))
    (75 + 25).
Proof.
  destruct empty_windows_give_zero_summaries as (Hdashboard & Haverages).
  destruct (Hdashboard Examples.env Examples.noRecords Examples.alex None)
    as (Hw & Hm & Hs & _).
  split.
  - rewrite daily_summary_eq. cbn zeta. rewrite daily_summary_eq in Hw, Hm, Hs.
    cbn zeta in Hw, Hm, Hs. unfold Dashboard.summary in *.
    cbn [Dashboard.sum_workouts Dashboard.sum_meals Dashboard.sum_sleep] in Hw, Hm, Hs.
    rewrite Hw, Hm, Hs by (intros x []). reflexivity.
  - refine (proj1 (Haverages Examples.env Examples.twoNights Examples.alex None _)).
    intros s [<-|[<-|[]]]; cbn; tauto.
Defined.

(** C5 as stated fails where it says an average is sum / count: with
    workouts of 30 and 45 minutes on the day, the dashboard reports an
    average duration of 38, not 75 / 2. *)
Lemma dashboard_average_is_rounded :
  let workouts :=
    Dashboard.sum_workouts
      (Dashboard.daily_summary
         (Dashboard.getDashboard Examples.env Examples.twoWorkouts Examples.alex None)) in
  Dashboard.w_count workouts = 2%Z /\
  Dashboard.w_totalDuration workouts = 75 /\
  Dashboard.w_averageDuration workouts = JS.Finite 38 /\
  ~ 38 == Dashboard.w_totalDuration workouts / inject_Z (Dashboard.w_count workouts).
Proof.
  cbn zeta. repeat split. discriminate.
Qed.

End SummaryFacts.

(** ** The worked examples on binary64 numbers

    The expressions of the source, with its literals and its order of
    operations, evaluated in IEEE 754 double precision. *)

Module Binary64Facts.

Local Open Scope float_scope.

(** [Math.round(9.8 * 80 * (30 / 60))] *)
Lemma binary64_calories_running :
  Binary64.Math_round (9.8 * 80 * (30 / 60)) = Some 392%Z.
Proof. reflexivity. Qed.

(** [Math.round(88.362 + (13.397 * 80) + (4.799 * 180) - (5.677 * 30))] *)
Lemma binary64_bmr_male_80_180_30 :
  Binary64.Math_round (88.362 + (13.397 * 80) + (4.799 * 180) - (5.677 * 30))
  = Some 1854%Z.
Proof. reflexivity. Qed.

(** [Math.round((0 + 100 * 2 + 50 * 1) * 100) / 100] *)
Lemma binary64_meal_total_calories :
  option_map (fun k => Binary64.ofZ k / 100)
    (Binary64.Math_round ((0 + 100 * 2 + 50 * 1) * 100)) = Some 250.
Proof. reflexivity. Qed.

(** [Math.round(durationMs / (1000 * 60))] for 23:00 to 06:00 of the next day *)
Lemma binary64_sleep_minutes :
  Binary64.Math_round ((21600000 + 86400000 - 82800000) / (1000 * 60)) = Some 420%Z.
Proof. reflexivity. Qed.

(** [(80 / ((180 / 100) * (180 / 100))).toFixed(1)] *)
Lemma binary64_profile_bmi :
  Binary64.toFixed1 (80 / ((180 / 100) * (180 / 100))) = Some "24.7"%string.
Proof. reflexivity. Qed.

(** [Math.round((30 + 45) / 2)] *)
Lemma binary64_average_duration :
  Binary64.Math_round ((30 + 45) / 2) = Some 38%Z.
Proof. reflexivity. Qed.

(** [Math.abs(((70 - 70) / (70 - 70)) * 100)] and
    [Math.abs(((70 - 72) / (70 - 70)) * 100)] *)
Lemma binary64_goal_progress :
  PrimFloat.is_nan (abs (((70 - 70) / (70 - 70)) * 100)) = true /\
  abs (((70 - 72) / (70 - 70)) * 100) = infinity.
Proof. split; reflexivity. Qed.

End Binary64Facts.

(** * Properties of the further code *)

(** ** The workout routes and the MET table *)

Module WorkoutRouteFacts.

Lemma includes_In (xs : list string) (x : string) :
  Routes.includes xs x = true <-> In x xs.
Proof.
  unfold Routes.includes. rewrite existsb_exists. split.
  - intros (y & Hy & Heq). apply String.eqb_eq in Heq. now subst.
  - intros Hx. exists x. split; [exact Hx | apply String.eqb_refl].
Qed.

Lemma intensityAllowed_table (e i : string) :
  Routes.intensityAllowed e i = true <->
  exists met : Q, In (e, i, met) Workout.MET_entries.
Proof.
  unfold Routes.intensityAllowed. rewrite includes_In.
  apply WorkoutFacts.getIntensities_are_table_rows.
Qed.

(** The table on binary64 numbers has the rows of the table on rationals. *)
Lemma double_rows :
  map (fun row => (fst (fst row), snd (fst row))) Double.Workout.MET_entries
  = map (fun row => (fst (fst row), snd (fst row))) Workout.MET_entries.
Proof. reflexivity. Qed.

Lemma intensityAllowed_double (e i : string) :
  Routes.intensityAllowed e i = true <->
  exists met : float, In (e, i, met) Double.Workout.MET_entries.
Proof.
  rewrite intensityAllowed_table. split.
  - intros (met & Hin).
    apply (in_map (fun row => (fst (fst row), snd (fst row)))) in Hin.
    rewrite <- double_rows in Hin. apply in_map_iff in Hin as ([[e' i'] met'] & Hkey & Hin).
    cbn in Hkey. injection Hkey as -> ->. now exists met'.
  - intros (met & Hin).
    apply (in_map (fun row => (fst (fst row), snd (fst row)))) in Hin.
    rewrite double_rows in Hin. apply in_map_iff in Hin as ([[e' i'] met'] & Hkey & Hin).
    cbn in Hkey. injection Hkey as -> ->. now exists met'.
Qed.

Lemma refused_is_absent (e i : string) :
  Routes.intensityAllowed e i = false ->
  forall met : float, ~ In (e, i, met) Double.Workout.MET_entries.
Proof.
  intros Hrefused met Hin.
  assert (Routes.intensityAllowed e i = true)
    by (apply intensityAllowed_double; now exists met).
  congruence.
Qed.



Lemma MET_entries_bounds (e i : string) (met : Q) :
  In (e, i, met) Workout.MET_entries -> 2 <= met /\ met <= 15.8.
Proof.
  intros Hin. cbn in Hin.
  repeat (destruct Hin as [Hin|Hin];
          [injection Hin as <- <- <-; split; discriminate|]).
  contradiction.
Qed.

Lemma double_MET_entries_bounds (e i : string) (met : float) :
  In (e, i, met) Double.Workout.MET_entries ->
  (2 <=? met)%float = true /\ (met <=? 15.8)%float = true.
Proof.
  intros Hin. cbn in Hin.
  repeat (destruct Hin as [Hin|Hin];
          [injection Hin as <- <- <-; split; reflexivity|]).
  contradiction.
Qed.

(** X3. getMETValue against the check of the route.  For a pair the route
    lets through it is the MET value of the row, between 2 and 15.8.  For a
    pair the route turns down it is 0 when the prototype chain finds nothing
    for the pair, and the value the chain finds when that value is truthy, as
    the function an object inherits under the name constructor. *)
Theorem getMETValue_of_a_pair :
  forall (chain : JS.Chain) (e i : string),
    (Routes.intensityAllowed e i = true ->
     exists met : float,
       In (e, i, met) Double.Workout.MET_entries /\
       Double.Workout.getMETValue chain e i = JS.number met /\
       (2 <=? met)%float = true /\ (met <=? 15.8)%float = true) /\
    (Routes.intensityAllowed e i = false ->
     (chain e i = JS.undefined ->
      Double.Workout.getMETValue chain e i = JS.number 0) /\
     (forall asNumber : float,
         chain e i = JS.other true asNumber ->
         Double.Workout.getMETValue chain e i = JS.other true asNumber)).
Proof.
  intros chain e i. split.
  - intros Hallowed. apply intensityAllowed_double in Hallowed as (met & Hin).
    exists met. split; [exact Hin|].
    destruct (WorkoutFacts.double_lookup_row chain _ _ _ Hin) as [Hlookup Htruthy].
    split; [|now apply (double_MET_entries_bounds e i)].
    unfold Double.Workout.getMETValue. rewrite Hlookup, Htruthy. reflexivity.
  - intros Hrefused.
    pose proof (WorkoutFacts.double_lookup_absent chain e i
                  (refused_is_absent e i Hrefused)) as Hlookup.
    unfold Double.Workout.getMETValue. rewrite Hlookup.
    split; [intros ->; reflexivity | intros asNumber ->; reflexivity].
Qed.

(** The MET value of running at 6 mph is 9.8; for running at an intensity
    named constructor getMETValue returns what the row inherits. *)
Lemma getMETValue_of_the_sample_pairs :
  (exists met : float,
      In ("running", "6 mph", met) Double.Workout.MET_entries /\
      Double.Workout.getMETValue DoubleExamples.bare "running" "6 mph" = JS.number met /\
      (2 <=? met)%float = true /\ (met <=? 15.8)%float = true) /\
  Double.Workout.getMETValue DoubleExamples.bare "running" "constructor" = JS.number 0 /\
  Double.Workout.getMETValue DoubleExamples.withConstructor "running" "constructor"
  = JS.other true PrimFloat.nan.
Proof.
  split; [|split].
  - exact (proj1 (getMETValue_of_a_pair DoubleExamples.bare "running" "6 mph") eq_refl).
  - exact (proj1 (proj2 (getMETValue_of_a_pair DoubleExamples.bare "running" "constructor")
                    eq_refl) eq_refl).
  - exact (proj2 (proj2 (getMETValue_of_a_pair DoubleExamples.withConstructor
                           "running" "constructor") eq_refl)
             PrimFloat.nan eq_refl).
Defined.

(** X4. For a table pair, a user of 20 to 300 kg and a duration of 1 to 480
    minutes (the ranges the schemas validate) the calories stored are an
    integer between 1 and 37920, and a longer workout of the same kind by the
    same user never burns less. *)
Theorem calories_within_bounds_and_monotone :
  forall (users : User.Store) (w1 w2 : Workout.t) (u : User.t) (met : Q),
    users (Workout.user w1) = Some u ->
    users (Workout.user w2) = Some u ->
    In (Workout.exerciseType w1, Workout.intensity w1, met) Workout.MET_entries ->
    Workout.exerciseType w2 = Workout.exerciseType w1 ->
    Workout.intensity w2 = Workout.intensity w1 ->
    20 <= User.weight u <= 300 ->
    1 <= Workout.duration w1 ->
    Workout.duration w1 <= Workout.duration w2 ->
    Workout.duration w2 <= 480 ->
    exists c1 c2 : Z,
      snd (Workout.calculateCaloriesBurned users w1) = JS.Resolved (inject_Z c1) /\
      snd (Workout.calculateCaloriesBurned users w2) = JS.Resolved (inject_Z c2) /\
      (1 <= c1 <= c2)%Z /\ (c2 <= 37920)%Z.
Proof.
  intros users w1 w2 u met Hu1 Hu2 Hin He Hi [Hwlo Hwhi] Hd1 Hd12 Hd2.
  assert (Hin2 : In (Workout.exerciseType w2, Workout.intensity w2, met)
                   Workout.MET_entries) by (rewrite He, Hi; exact Hin).
  pose proof (MET_entries_bounds _ _ _ Hin) as [Hmlo Hmhi].
  exists (JS.Math_round (met * User.weight u * (Workout.duration w1 / 60))),
    (JS.Math_round (met * User.weight u * (Workout.duration w2 / 60))).
  split; [|split].
  - unfold Workout.calculateCaloriesBurned. rewrite Hu1.
    rewrite (WorkoutFacts.In_lookupMET _ _ _ Hin),
      (WorkoutFacts.MET_entries_truthy _ _ _ Hin). reflexivity.
  - unfold Workout.calculateCaloriesBurned. rewrite Hu2.
    rewrite (WorkoutFacts.In_lookupMET _ _ _ Hin2),
      (WorkoutFacts.MET_entries_truthy _ _ _ Hin2). reflexivity.
  - set (k := met * User.weight u).
    assert (Hk : 40 <= k /\ k <= 4740).
    { assert (Hlo : 0 <= (met - 2) * (User.weight u - 20))
        by (apply Qmult_le_0_compat; lra).
      assert (Hhi : 0 <= (15.8 - met) * User.weight u)
        by (apply Qmult_le_0_compat; lra).
      unfold k. split; lra. }
    destruct Hk as [Hklo Hkhi]. clearbody k.
    assert (H1 : 0 <= (k - 40) * (Workout.duration w1 - 1))
      by (apply Qmult_le_0_compat; lra).
    assert (H12 : 0 <= k * (Workout.duration w2 - Workout.duration w1))
      by (apply Qmult_le_0_compat; lra).
    assert (H2 : 0 <= (4740 - k) * Workout.duration w2)
      by (apply Qmult_le_0_compat; lra).
    assert (E1 : k * (Workout.duration w1 / 60) == k * Workout.duration w1 * (1 # 60))
      by (unfold Qdiv; change (/ 60) with (1 # 60); ring).
    assert (E2 : k * (Workout.duration w2 / 60) == k * Workout.duration w2 * (1 # 60))
      by (unfold Qdiv; change (/ 60) with (1 # 60); ring).
    split; [split|].
    + change 1%Z with (JS.Math_round (1 # 2)).
      apply Rounding.Math_round_monotone. rewrite E1. lra.
    + apply Rounding.Math_round_monotone. rewrite E1, E2. lra.
    + rewrite <- (Rounding.Math_round_integer 37920).
      apply Rounding.Math_round_monotone. change (inject_Z 37920) with 37920.
      rewrite E2. lra.
Qed.

(** The bounds at the sample run, against a run of twice the time. *)
Lemma calories_of_a_longer_run :
  exists c1 c2 : Z,
    snd (Workout.calculateCaloriesBurned Examples.users Examples.run)
      = JS.Resolved (inject_Z c1) /\
    snd (Workout.calculateCaloriesBurned Examples.users MoreExamples.longRun)
      = JS.Resolved (inject_Z c2) /\
    (1 <= c1 <= c2)%Z /\ (c2 <= 37920)%Z.
Proof.
  apply (calories_within_bounds_and_monotone Examples.users Examples.run
           MoreExamples.longRun Examples.alex 9.8).
  - reflexivity.
  - reflexivity.
  - cbn. right. left. reflexivity.
  - reflexivity.
  - reflexivity.
  - split; discriminate.
  - discriminate.
  - discriminate.
  - discriminate.
Defined.

End WorkoutRouteFacts.

(** ** The derived fields of a profile *)

Module ProfileFacts.

Lemma Math_round_ge (x : Q) (n : Z) :
  inject_Z n - (1 # 2) <= x -> (n <= JS.Math_round x)%Z.
Proof.
  intros Hx.
  destruct (Rounding.Math_round_nearest x) as [_ Hhi].
  assert (Hlt : inject_Z n < inject_Z (JS.Math_round x) + 1) by lra.
  change 1 with (inject_Z 1) in Hlt. rewrite <- inject_Z_plus, <- Zlt_Qlt in Hlt. lia.
Qed.

Lemma Math_round_le (x : Q) (n : Z) :
  x < inject_Z n + (1 # 2) -> (JS.Math_round x <= n)%Z.
Proof.
  intros Hx.
  destruct (Rounding.Math_round_nearest x) as [Hlo _].
  assert (Hlt : inject_Z (JS.Math_round x) < inject_Z n + 1) by lra.
  change 1 with (inject_Z 1) in Hlt. rewrite <- inject_Z_plus, <- Zlt_Qlt in Hlt. lia.
Qed.

(** X5. For a user within the ranges the schema validates (age 13 to 120,
    weight 20 to 300 kg, height 100 to 250 cm) the BMR is between 155 and
    5233, and the daily calorie need is above the BMR and at most 9943. *)
Theorem bmr_and_daily_calories_in_range :
  forall u : User.t,
    MoreSpec.validUser u ->
    (155 <= User.calculateBMR u <= 5233)%Z /\
    (User.calculateBMR u < User.calculateDailyCalories u <= 9943)%Z.
Proof.
  intros u ([Halo Hahi] & [Hwlo Hwhi] & [Hhlo Hhhi]).
  assert (Hbmr : (155 <= User.calculateBMR u <= 5233)%Z).
  { unfold User.calculateBMR. destruct (User.gender u); split;
      first [apply Math_round_ge; change (inject_Z 155) with 155; lra
            | apply Math_round_le; change (inject_Z 5233) with 5233; lra]. }
  split; [exact Hbmr|].
  unfold User.calculateDailyCalories.
  set (b := User.calculateBMR u) in *. destruct Hbmr as [Hblo Hbhi].
  assert (Hqlo : 155 <= inject_Z b)
    by (change 155 with (inject_Z 155); now rewrite <- Zle_Qle).
  assert (Hqhi : inject_Z b <= 5233)
    by (change 5233 with (inject_Z 5233); now rewrite <- Zle_Qle).
  split.
  - apply Z.lt_le_trans with (b + 1)%Z; [lia|].
    apply Math_round_ge. rewrite inject_Z_plus. change (inject_Z 1) with 1.
    destruct (User.activityLevel u); cbn [User.activityMultipliers]; lra.
  - apply Math_round_le. change (inject_Z 9943) with 9943.
    destruct (User.activityLevel u); cbn [User.activityMultipliers]; lra.
Qed.

(** The bounds at the smallest user the schema admits. *)
Lemma bmr_of_the_smallest_user :
  (155 <= User.calculateBMR MoreExamples.slight <= 5233)%Z /\
  (User.calculateBMR MoreExamples.slight
   < User.calculateDailyCalories MoreExamples.slight <= 9943)%Z.
Proof.
  apply bmr_and_daily_calories_in_range.
  repeat split; discriminate.
Defined.

End ProfileFacts.

(** ** Sleep quality *)

Module SleepQualityFacts.

(** X7. On the four qualities the schema admits, the score of the method
    and the score of the [$switch] of the aggregation pipelines are the same:
    25, 50, 75 or 100 for poor, fair, good, excellent. *)
Theorem quality_score_matches_the_pipeline :
  forall s : Sleep.t,
    In (Sleep.quality s) Spec.qualities ->
    Sleep.getQualityScore s = Dashboard.qualitySwitch s /\
    (Sleep.quality s = "poor" -> Sleep.getQualityScore s = 25) /\
    (Sleep.quality s = "fair" -> Sleep.getQualityScore s = 50) /\
    (Sleep.quality s = "good" -> Sleep.getQualityScore s = 75) /\
    (Sleep.quality s = "excellent" -> Sleep.getQualityScore s = 100).
Proof.
  intros s Hquality.
  unfold Sleep.getQualityScore, Dashboard.qualitySwitch, Sleep.qualityScores.
  cbn in Hquality.
  destruct Hquality as [<-|[<-|[<-|[<-|[]]]]]; cbn;
    (split; [reflexivity|]); repeat split; intros; try reflexivity; discriminate.
Qed.

(** The sample night is a good one. *)
Lemma quality_score_of_the_night :
  Sleep.getQualityScore Examples.night = Dashboard.qualitySwitch Examples.night /\
  Sleep.getQualityScore Examples.night = 75.
Proof.
  destruct (quality_score_matches_the_pipeline Examples.night) as (Hsame & _ & _ & Hgood & _).
  - cbn. tauto.
  - split; [exact Hsame | now apply Hgood].
Defined.

End SleepQualityFacts.

(** ** More on meal totals *)

Module MealMoreFacts.

Lemma spec_sum_app (field : Meal.FoodItem -> Q) (l1 l2 : list Meal.FoodItem) :
  Meal.spec_sum field (l1 ++ l2) == Meal.spec_sum field l1 + Meal.spec_sum field l2.
Proof.
  induction l1 as [|item rest IH]; cbn [app Meal.spec_sum]; [lra | rewrite IH; lra].
Qed.

Lemma spec_sum_nonneg (field : Meal.FoodItem -> Q) (items : list Meal.FoodItem) :
  (forall item, In item items -> 0 <= Meal.quantity item /\ 0 <= field item) ->
  0 <= Meal.spec_sum field items.
Proof.
  induction items as [|item rest IH]; cbn [Meal.spec_sum]; intros Hall; [lra|].
  destruct (Hall item (or_introl eq_refl)) as [Hq Hf].
  assert (0 <= field item * Meal.quantity item) by now apply Qmult_le_0_compat.
  assert (0 <= Meal.spec_sum field rest) by (apply IH; intros i Hi; apply Hall; now right).
  lra.
Qed.

Lemma round2_monotone (x y : Q) : x <= y -> Meal.round2 x <= Meal.round2 y.
Proof.
  intros Hxy. unfold Meal.round2.
  apply Qmult_le_compat_r; [|discriminate].
  rewrite <- Zle_Qle. apply Rounding.Math_round_monotone. lra.
Qed.

Lemma round2_nonneg (x : Q) : 0 <= x -> 0 <= Meal.round2 x.
Proof.
  intros Hx. apply Qle_trans with (Meal.round2 0); [discriminate|].
  now apply round2_monotone.
Qed.

(** The accumulation touches the six totals only. *)
Lemma fold_addFood_frame (items : list Meal.FoodItem) (m : Meal.t) :
  let m' := fold_left Meal.addFood items m in
  Meal.user m' = Meal.user m /\ Meal.name m' = Meal.name m /\
  Meal.mealType m' = Meal.mealType m /\ Meal.date m' = Meal.date m.
Proof.
  revert m. induction items as [|item rest IH]; intros m; cbn zeta;
    [repeat split|].
  cbn [fold_left]. specialize (IH (Meal.addFood m item)). cbn zeta in IH.
  exact IH.
Qed.

(** [calculateTotals] as one assignment of the six rounded sums. *)
Lemma calculateTotals_eq (m : Meal.t) :
  Meal.calculateTotals m =
    Meal.set_totals m
      (Meal.round2 (Meal.spec_sum Meal.calories (Meal.foods m)))
      (Meal.round2 (Meal.spec_sum Meal.protein (Meal.foods m)))
      (Meal.round2 (Meal.spec_sum Meal.carbs (Meal.foods m)))
      (Meal.round2 (Meal.spec_sum Meal.fat (Meal.foods m)))
      (Meal.round2 (Meal.spec_sum Meal.fiber (Meal.foods m)))
      (Meal.round2 (Meal.spec_sum Meal.sugar (Meal.foods m))).
Proof.
  unfold Meal.calculateTotals.
  set (zeroed := Meal.set_totals m 0 0 0 0 0 0).
  pose proof (fold_addFood_frame (Meal.foods zeroed) zeroed) as Hframe.
  pose proof (MealFacts.fold_addFood (Meal.foods zeroed) zeroed) as Hsums.
  cbn zeta in Hframe, Hsums.
  set (summed := fold_left Meal.addFood (Meal.foods zeroed) zeroed) in *.
  destruct Hframe as (Huser & Hname & Htype & Hdate).
  destruct Hsums as (Hcal & Hpro & Hcarb & Hfat & Hfib & Hsug & Hfoods).
  unfold Meal.set_totals.
  rewrite Huser, Hname, Htype, Hdate, Hfoods.
  rewrite (Rounding.round2_Qeq _ _ Hcal), (Rounding.round2_Qeq _ _ Hpro),
    (Rounding.round2_Qeq _ _ Hcarb), (Rounding.round2_Qeq _ _ Hfat),
    (Rounding.round2_Qeq _ _ Hfib), (Rounding.round2_Qeq _ _ Hsug).
  change (Meal.foods zeroed) with (Meal.foods m).
  cbn [zeroed Meal.set_totals Meal.user Meal.name Meal.mealType Meal.date
       Meal.totalCalories Meal.totalProtein Meal.totalCarbs Meal.totalFat
       Meal.totalFiber Meal.totalSugar].
  rewrite !(Rounding.round2_Qeq (0 + _) _ (Qplus_0_l _)).
  reflexivity.
Qed.

(** X8. calculateTotals reads the foods only: the totals a meal carried
    before do not matter, two meals with the same foods get the same six
    totals, and computing the totals a second time changes nothing. *)
Theorem meal_totals_depend_on_foods_only :
  (forall m1 m2 : Meal.t,
      Meal.foods m1 = Meal.foods m2 ->
      let t1 := Meal.calculateTotals m1 in
      let t2 := Meal.calculateTotals m2 in
      Meal.totalCalories t1 = Meal.totalCalories t2 /\
      Meal.totalProtein t1 = Meal.totalProtein t2 /\
      Meal.totalCarbs t1 = Meal.totalCarbs t2 /\
      Meal.totalFat t1 = Meal.totalFat t2 /\
      Meal.totalFiber t1 = Meal.totalFiber t2 /\
      Meal.totalSugar t1 = Meal.totalSugar t2) /\
  (forall m : Meal.t,
      Meal.calculateTotals (Meal.calculateTotals m) = Meal.calculateTotals m).
Proof.
  split.
  - intros m1 m2 Hfoods. cbn zeta.
    rewrite (calculateTotals_eq m1), (calculateTotals_eq m2), Hfoods.
    repeat split.
  - intros m. rewrite (calculateTotals_eq (Meal.calculateTotals m)).
    rewrite (calculateTotals_eq m). reflexivity.
Qed.

(** The sample lunch against the same foods with stale totals. *)
Lemma lunch_totals_ignore_stale_values :
  Meal.totalCalories (Meal.calculateTotals Examples.lunch) =
  Meal.totalCalories
    (Meal.calculateTotals (Meal.set_totals Examples.lunch 9 9 9 9 9 9)).
Proof.
  destruct meal_totals_depend_on_foods_only as [Hsame _].
  destruct (Hsame Examples.lunch (Meal.set_totals Examples.lunch 9 9 9 9 9 9) eq_refl)
    as (Hcal & _).
  exact Hcal.
Defined.

(** X9. With quantities and nutrients that are not negative, none of the
    six totals is negative, and a meal with one more food pushed onto its
    foods has no smaller total of calories. *)
Theorem meal_totals_nonnegative_and_growing :
  (forall m : Meal.t,
      (forall food, In food (Meal.foods m) -> MoreSpec.validFood food) ->
      let t := Meal.calculateTotals m in
      0 <= Meal.totalCalories t /\ 0 <= Meal.totalProtein t /\
      0 <= Meal.totalCarbs t /\ 0 <= Meal.totalFat t /\
      0 <= Meal.totalFiber t /\ 0 <= Meal.totalSugar t) /\
  (forall (m1 m2 : Meal.t) (food : Meal.FoodItem),
      Meal.foods m2 = (Meal.foods m1 ++ [food])%list ->
      MoreSpec.validFood food ->
      Meal.totalCalories (Meal.calculateTotals m1)
      <= Meal.totalCalories (Meal.calculateTotals m2)).
Proof.
  split.
  - intros m Hvalid. cbn zeta.
    destruct (MealFacts.calculateTotals_fields m) as (-> & -> & -> & -> & -> & -> & _).
    repeat split; apply round2_nonneg, spec_sum_nonneg;
      intros item Hitem; destruct (Hvalid item Hitem) as (Hq & Hc & Hp & Hcb & Hf & Hfb & Hs);
      split; assumption.
  - intros m1 m2 food Hfoods (Hq & Hc & _).
    destruct (MealFacts.calculateTotals_fields m1) as (-> & _).
    destruct (MealFacts.calculateTotals_fields m2) as (-> & _).
    apply round2_monotone. rewrite Hfoods, spec_sum_app. cbn [Meal.spec_sum].
    assert (0 <= Meal.calories food * Meal.quantity food) by now apply Qmult_le_0_compat.
    lra.
Qed.

(** The sample lunch, and the same with two eggs more. *)
Lemma lunch_with_an_egg :
  0 <= Meal.totalCalories (Meal.calculateTotals Examples.lunch) /\
  Meal.totalCalories (Meal.calculateTotals Examples.lunch)
  <= Meal.totalCalories (Meal.calculateTotals MoreExamples.lunchWithEgg).
Proof.
  destruct meal_totals_nonnegative_and_growing as [Hnonneg Hgrow].
  split.
  - apply (Hnonneg Examples.lunch).
    intros food [<-|[<-|[]]]; repeat split; discriminate.
  - apply (Hgrow Examples.lunch MoreExamples.lunchWithEgg MoreExamples.egg eq_refl).
    repeat split; discriminate.
Defined.

End MealMoreFacts.

(** ** The day and the week of the dashboard *)

Module WindowFacts.

Lemma addDays_eq (tza n t : Z) : Date.addDays tza n t = (t + n * Date.msPerDay)%Z.
Proof.
  unfold Date.addDays, Date.UTC, Date.MakeDate, Date.Day, Date.TimeWithinDay,
    Date.LocalTime, Date.msPerDay.
  Z.to_euclidean_division_equations. lia.
Qed.

Lemma startOfDay_eq (tza t : Z) :
  Date.setHours tza 0 0 0 0 t = (t - (t + tza) mod Date.msPerDay)%Z.
Proof.
  unfold Date.setHours, Date.UTC, Date.MakeDate, Date.MakeTime, Date.Day,
    Date.LocalTime, Date.msPerDay.
  Z.to_euclidean_division_equations. lia.
Qed.

Lemma endOfDay_eq (tza t : Z) :
  Date.setHours tza 23 59 59 999 t =
    (Date.setHours tza 0 0 0 0 t + Date.msPerDay - 1)%Z.
Proof.
  unfold Date.setHours, Date.UTC, Date.MakeDate, Date.MakeTime, Date.Day,
    Date.LocalTime, Date.msPerDay, Date.msPerHour, Date.msPerMinute, Date.msPerSecond.
  lia.
Qed.

(** X10. The windows the dashboard derives from its target date: the day
    runs from local midnight to one millisecond before the next and holds
    the target instant; the week starts on a Sunday at local midnight, not
    after the day, and the day ends within seven days of it. *)
Theorem day_and_week_of_the_target_date :
  forall (env : Dashboard.Env) (date : option Z),
    let t := Dashboard.targetDate env date in
    let day0 := Dashboard.startOfDay env date in
    let day1 := Dashboard.endOfDay env date in
    let week0 := Dashboard.startOfWeek env date in
    let localMidnight x :=
      Date.TimeWithinDay (Date.LocalTime (Dashboard.tza env) x) = 0%Z in
    (day0 <= t <= day1)%Z /\
    day1 = (day0 + Date.msPerDay - 1)%Z /\
    localMidnight day0 /\
    localMidnight week0 /\
    Date.getDay (Dashboard.tza env) week0 = 0%Z /\
    (week0 <= day0)%Z /\
    (day1 < week0 + 7 * Date.msPerDay)%Z.
Proof.
  intros env date. cbn zeta.
  unfold Dashboard.startOfWeek, Dashboard.endOfDay, Dashboard.startOfDay.
  set (t := Dashboard.targetDate env date). set (tza := Dashboard.tza env).
  rewrite endOfDay_eq, addDays_eq, !startOfDay_eq.
  unfold Date.getDay, Date.WeekDay, Date.Day, Date.TimeWithinDay, Date.LocalTime,
    Date.msPerDay.
  repeat split; Z.to_euclidean_division_equations; lia.
Qed.

Lemma week_before_day (env : Dashboard.Env) (date : option Z) :
  (Dashboard.startOfWeek env date <= Dashboard.startOfDay env date)%Z.
Proof.
  unfold Dashboard.startOfWeek, Dashboard.startOfDay.
  rewrite addDays_eq, !startOfDay_eq.
  unfold Date.getDay, Date.WeekDay, Date.Day, Date.LocalTime, Date.msPerDay.
  Z.to_euclidean_division_equations. lia.
Qed.

End WindowFacts.

(** ** Day against week *)

Module DailyFacts.

Lemma day_within_week (env : Dashboard.Env) (user : User.t) (date : option Z)
    (owner : JS.ObjectId) (d : Z) :
  Dashboard.between user (Dashboard.startOfDay env date) (Dashboard.endOfDay env date)
    owner d = true ->
  Dashboard.since user (Dashboard.startOfWeek env date) owner d = true.
Proof.
  unfold Dashboard.between, Dashboard.since.
  pose proof (WindowFacts.week_before_day env date) as Hweek.
  rewrite !andb_true_iff, !Z.leb_le. intros [[Howner Hfrom] _].
  split; [exact Howner | lia].
Qed.

(** X11. What the dashboard counts for the day it also counts for the
    week: the daily numbers of workouts, meals and sleep records are at most
    the weekly ones, and so are the daily totals of workout minutes, calories
    burned and calories eaten when no record carries a negative value. *)
Theorem daily_summary_within_weekly :
  forall (env : Dashboard.Env) (db : Dashboard.Collections) (user : User.t)
         (date : option Z),
    let response := Dashboard.getDashboard env db user date in
    let daily := Dashboard.daily_summary response in
    let weekly := Dashboard.weekly_summary response in
    (Dashboard.w_count (Dashboard.sum_workouts daily)
     <= Dashboard.w_count (Dashboard.sum_workouts weekly))%Z /\
    (Dashboard.m_count (Dashboard.sum_meals daily)
     <= Dashboard.m_count (Dashboard.sum_meals weekly))%Z /\
    (Dashboard.s_count (Dashboard.sum_sleep daily)
     <= Dashboard.s_count (Dashboard.sum_sleep weekly))%Z /\
    ((forall w, In w (Dashboard.workouts db) ->
                0 <= Workout.duration w /\ 0 <= Workout.caloriesBurned w) ->
     Dashboard.w_totalDuration (Dashboard.sum_workouts daily)
     <= Dashboard.w_totalDuration (Dashboard.sum_workouts weekly) /\
     Dashboard.w_totalCalories (Dashboard.sum_workouts daily)
     <= Dashboard.w_totalCalories (Dashboard.sum_workouts weekly)) /\
    ((forall m, In m (Dashboard.meals db) -> 0 <= Meal.totalCalories m) ->
     Dashboard.m_totalCalories (Dashboard.sum_meals daily)
     <= Dashboard.m_totalCalories (Dashboard.sum_meals weekly)).
Proof.
  intros env db user date response daily weekly. subst daily weekly response.
  unfold Dashboard.getDashboard.
  cbn [Dashboard.daily_summary Dashboard.weekly_summary Dashboard.summary
       Dashboard.sum_workouts Dashboard.sum_meals Dashboard.sum_sleep
       Dashboard.w_count Dashboard.m_count Dashboard.s_count
       Dashboard.w_totalDuration Dashboard.w_totalCalories Dashboard.m_totalCalories].
  rewrite !SumFacts.sort_length, !SumFacts.sumBy_sort.
  split; [|split; [|split; [|split]]].
  - apply (SumFacts.find_narrower _ _ (fun _ => 0)).
    intros w. apply day_within_week.
  - apply (SumFacts.find_narrower _ _ (fun _ => 0)).
    intros m. apply day_within_week.
  - apply (SumFacts.find_narrower _ _ (fun _ => 0)).
    intros s. apply day_within_week.
  - intros Hpos. split.
    + apply SumFacts.find_narrower; [intros w; apply day_within_week|].
      intros w Hw. apply (Hpos w Hw).
    + apply SumFacts.find_narrower; [intros w; apply day_within_week|].
      intros w Hw. apply (Hpos w Hw).
  - intros Hpos.
    apply SumFacts.find_narrower; [intros m; apply day_within_week | exact Hpos].
Qed.

(** The day against the week with two workouts on the day. *)
Lemma daily_summary_of_two_workouts :
  let response :=
    Dashboard.getDashboard Examples.env Examples.twoWorkouts Examples.alex None in
  Dashboard.w_totalDuration (Dashboard.sum_workouts (Dashboard.daily_summary response))
  <= Dashboard.w_totalDuration (Dashboard.sum_workouts (Dashboard.weekly_summary response)).
Proof.
  cbn zeta.
  destruct (daily_summary_within_weekly Examples.env Examples.twoWorkouts
              Examples.alex None) as (_ & _ & _ & Htotals & _).
  apply Htotals.
  intros w [<-|[<-|[]]]; split; discriminate.
Defined.

End DailyFacts.

(** ** The calorie chart of the week *)

Module ChartFacts.

Lemma day_bounds (env : Dashboard.Env) (date : option Z) (i : Z) :
  let day := Date.addDays (Dashboard.tza env) i (Dashboard.startOfWeek env date) in
  Date.setHours (Dashboard.tza env) 0 0 0 0 day
    = (Dashboard.startOfWeek env date + i * Date.msPerDay)%Z /\
  Date.setHours (Dashboard.tza env) 23 59 59 999 day
    = (Dashboard.startOfWeek env date + i * Date.msPerDay + Date.msPerDay - 1)%Z.
Proof.
  cbn zeta. rewrite WindowFacts.endOfDay_eq.
  assert (Hstart :
            Date.setHours (Dashboard.tza env) 0 0 0 0
              (Date.addDays (Dashboard.tza env) i (Dashboard.startOfWeek env date))
            = (Dashboard.startOfWeek env date + i * Date.msPerDay)%Z).
  { unfold Dashboard.startOfWeek.
    rewrite !WindowFacts.addDays_eq, !WindowFacts.startOfDay_eq.
    unfold Date.getDay, Date.WeekDay, Date.Day, Date.LocalTime, Date.msPerDay.
    Z.to_euclidean_division_equations. lia. }
  rewrite Hstart. split; reflexivity.
Qed.

(** X14. The date that labels a point of the calorie chart is the UTC
    calendar date of the local midnight that starts its day: on a server
    at or west of UTC that is the local date of the day, and on a server
    east of UTC it is the date before. *)
Theorem chart_dates_are_utc_dates :
  forall (env : Dashboard.Env) (db : Dashboard.Collections) (user : User.t)
         (date : option Z) (i : Z),
    let tza := Dashboard.tza env in
    let point := Charts.dayCalories env db user date i in
    let localDate :=
      Date.Day (Date.LocalTime tza
                  (Date.addDays tza i (Dashboard.startOfWeek env date))) in
    ((- Date.msPerDay < tza <= 0)%Z -> Charts.utcDate point = localDate) /\
    ((0 < tza < Date.msPerDay)%Z -> Charts.utcDate point = (localDate - 1)%Z).
Proof.
  intros env db user date i tza point localDate. subst point localDate.
  unfold Charts.dayCalories. cbn [Charts.utcDate].
  unfold Dashboard.startOfWeek. fold tza.
  rewrite !WindowFacts.addDays_eq, !WindowFacts.startOfDay_eq.
  unfold Date.getDay, Date.WeekDay, Date.Day, Date.LocalTime, Date.msPerDay.
  split; intros Htza; Z.to_euclidean_division_equations; lia.
Qed.

(** Two hours east of UTC the first point of the chart is labelled with the
    date before its Sunday. *)
Lemma chart_date_east_of_utc :
  Charts.utcDate
    (Charts.dayCalories MoreExamples.envEast Examples.noRecords Examples.alex None 0)
  = (Date.Day (Date.LocalTime (Dashboard.tza MoreExamples.envEast)
                 (Date.addDays (Dashboard.tza MoreExamples.envEast) 0
                    (Dashboard.startOfWeek MoreExamples.envEast None))) - 1)%Z.
Proof.
  destruct (chart_dates_are_utc_dates MoreExamples.envEast Examples.noRecords
              Examples.alex None 0%Z) as [_ Heast].
  apply Heast. split; reflexivity.
Defined.

End ChartFacts.

(** ** The breakdowns by type *)

Module BreakdownFacts.

Lemma get_set_same (o : list (string * Q)) (k : string) (v : Q) :
  JS.get (Charts.set o k v) k = Some v.
Proof.
  induction o as [|[k' v'] rest IH]; cbn.
  - now rewrite String.eqb_refl.
  - destruct (String.eqb k k') eqn:Hk; cbn.
    + now rewrite String.eqb_refl.
    + now rewrite Hk.
Qed.

Lemma get_set_other (o : list (string * Q)) (k e : string) (v : Q) :
  e <> k -> JS.get (Charts.set o k v) e = JS.get o e.
Proof.
  intros Hne. apply String.eqb_neq in Hne.
  induction o as [|[k' v'] rest IH]; cbn.
  - now rewrite Hne.
  - destruct (String.eqb k k') eqn:Hk; cbn.
    + apply String.eqb_eq in Hk. subst k'. now rewrite Hne.
    + destruct (String.eqb e k'); [reflexivity | exact IH].
Qed.

Lemma sum_set (o : list (string * Q)) (k : string) (v : Q) :
  JS.sumBy snd (Charts.set o k v) == JS.sumBy snd o - MoreSpec.valueOf o k + v.
Proof.
  unfold MoreSpec.valueOf. induction o as [|[k' v'] rest IH]; cbn [Charts.set JS.get].
  - rewrite SumFacts.sumBy_cons. unfold JS.sumBy. cbn. lra.
  - destruct (String.eqb k k'); rewrite !SumFacts.sumBy_cons; cbn [snd]; [lra|].
    rewrite IH. lra.
Qed.

Lemma tally_value (acc : list (string * Q)) (k e : string) :
  MoreSpec.valueOf (Charts.tally acc k) e
  == MoreSpec.valueOf acc e + (if String.eqb k e then 1 else 0).
Proof.
  unfold Charts.tally, MoreSpec.valueOf at 1.
  destruct (String.eqb k e) eqn:Hk.
  - apply String.eqb_eq in Hk. subst e. rewrite get_set_same.
    unfold MoreSpec.valueOf. destruct (JS.get acc k) as [n|]; [|lra].
    destruct (Qeq_bool n 0) eqn:Hzero; [|lra].
    apply Qeq_bool_eq in Hzero. lra.
  - apply String.eqb_neq in Hk.
    rewrite get_set_other by congruence. fold (MoreSpec.valueOf acc e). lra.
Qed.

Lemma tally_absent (acc : list (string * Q)) (k e : string) :
  JS.get (Charts.tally acc k) e = None <-> JS.get acc e = None /\ e <> k.
Proof.
  unfold Charts.tally. destruct (String.eqb e k) eqn:Hk.
  - apply String.eqb_eq in Hk. subst e. rewrite get_set_same.
    split; [discriminate | intros [_ Hne]; congruence].
  - apply String.eqb_neq in Hk. rewrite get_set_other by exact Hk. tauto.
Qed.

Lemma tally_sum (acc : list (string * Q)) (k : string) :
  JS.sumBy snd (Charts.tally acc k) == JS.sumBy snd acc + 1.
Proof.
  unfold Charts.tally. rewrite sum_set. unfold MoreSpec.valueOf.
  destruct (JS.get acc k) as [n|]; [|lra].
  destruct (Qeq_bool n 0) eqn:Hzero; [|lra].
  apply Qeq_bool_eq in Hzero. lra.
Qed.

Lemma occurrences_cons {A : Type} (key : A -> string) (k : string) (x : A) (l : list A) :
  inject_Z (MoreSpec.occurrences key k (x :: l))
  == (if String.eqb (key x) k then 1 else 0) + inject_Z (MoreSpec.occurrences key k l).
Proof.
  unfold MoreSpec.occurrences, Dashboard.len. cbn [filter].
  destruct (String.eqb (key x) k); cbn [List.length]; [|lra].
  rewrite Nat2Z.inj_succ. unfold Z.succ. rewrite inject_Z_plus. change (inject_Z 1) with 1. lra.
Qed.

(** The reduce, from any accumulator. *)
Lemma tallies {A : Type} (key : A -> string) (l : list A) (acc : list (string * Q))
    (e : string) :
  let result := fold_left (fun acc x => Charts.tally acc (key x)) l acc in
  MoreSpec.valueOf result e == MoreSpec.valueOf acc e + inject_Z (MoreSpec.occurrences key e l) /\
  (JS.get result e = None <->
   JS.get acc e = None /\ MoreSpec.occurrences key e l = 0%Z) /\
  JS.sumBy snd result == JS.sumBy snd acc + inject_Z (Dashboard.len l).
Proof.
  revert acc. induction l as [|x rest IH]; intros acc; cbn zeta; cbn [fold_left].
  - unfold MoreSpec.occurrences, Dashboard.len. cbn [filter List.length Z.of_nat].
    change (inject_Z 0) with 0.
    split; [lra|]. split; [tauto | lra].
  - destruct (IH (Charts.tally acc (key x))) as (Hvalue & Hnone & Hsum).
    cbn zeta in Hvalue, Hnone, Hsum.
    split; [|split].
    + rewrite Hvalue, tally_value, occurrences_cons. lra.
    + rewrite Hnone, tally_absent.
      unfold MoreSpec.occurrences, Dashboard.len. cbn [filter].
      destruct (String.eqb (key x) e) eqn:Hk.
      * apply String.eqb_eq in Hk. cbn [List.length]. split.
        -- intros [[_ Hne] _]. congruence.
        -- intros [_ Habs]. lia.
      * apply String.eqb_neq in Hk. split.
        -- intros [[Hacc _] Hocc]. now split.
        -- intros [Hacc Hocc]. repeat split; try assumption. congruence.
    + rewrite Hsum, tally_sum. unfold Dashboard.len. cbn [List.length].
      rewrite Nat2Z.inj_succ. unfold Z.succ. rewrite inject_Z_plus.
      change (inject_Z 1) with 1. lra.
Qed.

(** X15. The exercise and meal type breakdowns of the dashboard count
    right: a type has an entry exactly when a record of the week has that
    type, the entry is the number of the week's records of that type, and
    the entries add up to the weekly count of the summary. *)
Theorem breakdowns_count_the_week :
  forall (env : Dashboard.Env) (db : Dashboard.Collections) (user : User.t)
         (date : option Z),
    let weekly :=
      Dashboard.weekly_summary (Dashboard.getDashboard env db user date) in
    let exercises := Charts.exerciseBreakdown env db user date in
    let mealTypes := Charts.mealTypeBreakdown env db user date in
    (forall e : string,
        let n := MoreSpec.occurrences Workout.exerciseType e
                   (Charts.weeklyWorkouts env db user date) in
        (JS.get exercises e = None <-> n = 0%Z) /\
        (forall v, JS.get exercises e = Some v -> v == inject_Z n)) /\
    JS.sumBy snd exercises
    == inject_Z (Dashboard.w_count (Dashboard.sum_workouts weekly)) /\
    (forall t : string,
        let n := MoreSpec.occurrences Meal.mealType t
                   (Charts.weeklyMeals env db user date) in
        (JS.get mealTypes t = None <-> n = 0%Z) /\
        (forall v, JS.get mealTypes t = Some v -> v == inject_Z n)) /\
    JS.sumBy snd mealTypes
    == inject_Z (Dashboard.m_count (Dashboard.sum_meals weekly)).
Proof.
  intros env db user date weekly exercises mealTypes.
  subst weekly exercises mealTypes.
  unfold Charts.exerciseBreakdown, Charts.mealTypeBreakdown.
  split; [|split; [|split]].
  - intros e. cbn zeta.
    destruct (tallies Workout.exerciseType (Charts.weeklyWorkouts env db user date) [] e)
      as (Hvalue & Hnone & _). cbn zeta in Hvalue, Hnone.
    split.
    + rewrite Hnone. cbn [JS.get]. tauto.
    + intros v Hv. unfold MoreSpec.valueOf in Hvalue. rewrite Hv in Hvalue.
      cbn [JS.get] in Hvalue. lra.
  - destruct (tallies Workout.exerciseType (Charts.weeklyWorkouts env db user date) []
                "") as (_ & _ & Hsum). cbn zeta in Hsum.
    rewrite Hsum. unfold JS.sumBy at 1. cbn [fold_left].
    change (Dashboard.w_count
              (Dashboard.sum_workouts
                 (Dashboard.weekly_summary (Dashboard.getDashboard env db user date))))
      with (Dashboard.len (Charts.weeklyWorkouts env db user date)).
    lra.
  - intros t. cbn zeta.
    destruct (tallies Meal.mealType (Charts.weeklyMeals env db user date) [] t)
      as (Hvalue & Hnone & _). cbn zeta in Hvalue, Hnone.
    split.
    + rewrite Hnone. cbn [JS.get]. tauto.
    + intros v Hv. unfold MoreSpec.valueOf in Hvalue. rewrite Hv in Hvalue.
      cbn [JS.get] in Hvalue. lra.
  - destruct (tallies Meal.mealType (Charts.weeklyMeals env db user date) [] "")
      as (_ & _ & Hsum). cbn zeta in Hsum.
    rewrite Hsum. unfold JS.sumBy at 1. cbn [fold_left].
    change (Dashboard.m_count
              (Dashboard.sum_meals
                 (Dashboard.weekly_summary (Dashboard.getDashboard env db user date))))
      with (Dashboard.len (Charts.weeklyMeals env db user date)).
    lra.
Qed.

(** Two yoga workouts in the week: one entry, of 2. *)
Lemma breakdown_of_two_workouts :
  exists v : Q,
    JS.get (Charts.exerciseBreakdown Examples.env Examples.twoWorkouts Examples.alex None)
      "yoga" = Some v /\
    v == inject_Z
           (MoreSpec.occurrences Workout.exerciseType "yoga"
              (Charts.weeklyWorkouts Examples.env Examples.twoWorkouts Examples.alex None)).
Proof.
  destruct (breakdowns_count_the_week Examples.env Examples.twoWorkouts
              Examples.alex None) as (Hentries & _).
  destruct (Hentries "yoga") as [_ Hvalue].
  exists (0 + 1 + 1). split; [reflexivity|].
  apply Hvalue. reflexivity.
Defined.

End BreakdownFacts.

(** ** Progress over a period *)

Module ProgressSpanFacts.

Lemma dateAscending_total {A : Type} (date : A -> Z) (a b : A) :
  Mongo.dateAscending date a b = true \/ Mongo.dateAscending date b a = true.
Proof. unfold Mongo.dateAscending. lia. Qed.

Lemma dateAscending_trans {A : Type} (date : A -> Z) (a b c : A) :
  Mongo.dateAscending date a b = true -> Mongo.dateAscending date b c = true ->
  Mongo.dateAscending date a c = true.
Proof. unfold Mongo.dateAscending. lia. Qed.

Lemma sorted_ascending {A : Type} (date : A -> Z) (l : list A) :
  StronglySorted (fun a b => (date a <= date b)%Z)
    (Mongo.sort (Mongo.dateAscending date) l).
Proof.
  eapply ProgressBlockFacts.sorted_weaken;
    [| apply MongoFacts.sort_sorted;
       [apply dateAscending_total | apply dateAscending_trans]].
  intros a b Hab. unfold Mongo.dateAscending in Hab. lia.
Qed.

(** X16. GET /api/dashboard/stats answers 500 'Server error' for every
    user, period and content of the database: the [$group] stage of its
    progress pipeline computes weightChange with [$subtract], which is no
    accumulator, so that the server refuses the aggregation and the
    [Promise.all] of the four aggregations rejects. *)
Theorem stats_are_refused :
  forall (db : Dashboard.Collections) (user : User.t) (startDate : Z),
    Dashboard.getStats db user startDate = JS.Rejected "Server error".
Proof.
  intros db user startDate. unfold Dashboard.getStats.
  cbn [Mongo.aggregate forallb Mongo.accumulator andb]. reflexivity.
Qed.

(** X17. getWeightProgress and getSleepTrends return the records of the
    user from [days] days before now on, all of them, oldest first. *)
Theorem trends_are_complete_and_chronological :
  forall (env : Dashboard.Env) (db : Dashboard.Collections) (userId : JS.ObjectId)
         (days : Z),
    let start := (Dashboard.now env - days * Date.msPerDay)%Z in
    let weights := Statics.getWeightProgress env (Dashboard.progress db) userId days in
    let nights := Statics.getSleepTrends env (Dashboard.sleeps db) userId days in
    StronglySorted Spec.ascendingDates weights /\
    Permutation weights
      (map (fun p => (Progress.date p, Progress.weight p))
         (filter (fun p => (Progress.user p =? userId)%Z && (start <=? Progress.date p)%Z)
            (Dashboard.progress db))) /\
    StronglySorted MoreSpec.ascendingTrend nights /\
    Permutation nights
      (map (fun s => (Sleep.date s, Sleep.duration s, Sleep.quality s))
         (filter (fun s => (Sleep.user s =? userId)%Z && (start <=? Sleep.date s)%Z)
            (Dashboard.sleeps db))).
Proof.
  intros env db userId days start weights nights. subst start weights nights.
  unfold Statics.getWeightProgress, Statics.getSleepTrends, Statics.daysAgo, Mongo.find.
  rewrite WindowFacts.addDays_eq.
  replace (Dashboard.now env + - days * Date.msPerDay)%Z
    with (Dashboard.now env - days * Date.msPerDay)%Z by lia.
  split; [|split; [|split]].
  - apply (ProgressBlockFacts.sorted_map (fun a b => (Progress.date a <= Progress.date b)%Z));
      [intros a b Hab; exact Hab | apply sorted_ascending].
  - apply Permutation_map, MongoFacts.sort_perm.
  - apply (ProgressBlockFacts.sorted_map (fun a b => (Sleep.date a <= Sleep.date b)%Z));
      [intros a b Hab; exact Hab | apply sorted_ascending].
  - apply Permutation_map, MongoFacts.sort_perm.
Qed.

(** X18. recentEntries are the most recent of the fetched progress records:
    a prefix of at most five of them, with every other fetched record no more
    recent; monthlyEntries counts the user's records from the start of the
    month on. *)
Theorem recent_entries_are_the_latest_five :
  forall (env : Dashboard.Env) (db : Dashboard.Collections) (user : User.t)
         (date : option Z),
    let block := Dashboard.progress_summary (Dashboard.getDashboard env db user date) in
    let entries := Dashboard.recentEntries block in
    (exists rest : list Progress.t,
        Dashboard.recentProgress env db user = (entries ++ rest)%list /\
        (rest <> [] -> List.length entries = 5%nat) /\
        (forall r o, In r entries -> In o rest ->
                     (Progress.date o <= Progress.date r)%Z)) /\
    (List.length entries <= 5)%nat /\
    Dashboard.monthlyEntries block
      = Dashboard.len
          (filter (fun p => Dashboard.since user
                              (Dashboard.startOfMonthOf env (Dashboard.targetDate env date))
                              (Progress.user p) (Progress.date p))
             (Dashboard.progress db)).
Proof.
  intros env db user date block entries. subst entries block.
  unfold Dashboard.getDashboard.
  cbn [Dashboard.progress_summary Dashboard.progressSummary Dashboard.recentEntries
       Dashboard.monthlyEntries].
  set (recent := Dashboard.recentProgress env db user).
  split; [|split].
  - exists (skipn 5 recent). split; [now rewrite firstn_skipn|]. split.
    + intros Hrest. rewrite length_firstn.
      destruct (Nat.le_gt_cases (List.length recent) 5) as [Hshort|Hlong]; [|lia].
      exfalso. apply Hrest. now apply skipn_all2.
    + pose proof (ProgressBlockFacts.recentProgress_sorted env db user) as Hsorted.
      fold recent in Hsorted. rewrite <- (firstn_skipn 5 recent) in Hsorted.
      apply MongoFacts.sorted_app_inv in Hsorted as (_ & _ & Hcross).
      intros r o Hr Ho. exact (Hcross r o Hr Ho).
  - apply firstn_le_length.
  - apply SumFacts.sort_length.
Qed.

End ProgressSpanFacts.

(** ** Healthy nights *)

Module SleepHealthFacts.

Lemma Math_round_ge_iff (x : Q) (n : Z) :
  (n <= JS.Math_round x)%Z <-> inject_Z n - (1 # 2) <= x.
Proof.
  split; [|apply ProfileFacts.Math_round_ge].
  intros Hn. destruct (Rounding.Math_round_nearest x) as [Hlo _].
  rewrite Zle_Qle in Hn. lra.
Qed.

Lemma Math_round_le_iff (x : Q) (n : Z) :
  (JS.Math_round x <= n)%Z <-> x < inject_Z n + (1 # 2).
Proof.
  split; [|apply ProfileFacts.Math_round_le].
  intros Hn. destruct (Rounding.Math_round_nearest x) as [_ Hhi].
  rewrite Zle_Qle in Hn. lra.
Qed.

Lemma hours_in_minutes (minutes : Z) :
  Qle_bool 7 (inject_Z minutes / 60) && Qle_bool (inject_Z minutes / 60) 9 = true
  <-> (420 <= minutes <= 540)%Z.
Proof.
  rewrite andb_true_iff, !Qle_bool_iff, !Zle_Qle.
  change (inject_Z 420) with 420. change (inject_Z 540) with 540.
  assert (E : inject_Z minutes / 60 == inject_Z minutes * (1 # 60))
    by (unfold Qdiv; change (/ 60) with (1 # 60); ring).
  rewrite E. split; intros [H1 H2]; split; lra.
Qed.

(** X19. A record with both instants is healthy after calculateDuration
    exactly when the time from sleepStart to sleepEnd, the end moved by
    setDate to the next calendar day when it is before the start, is at
    least 6 h 59 min 30 s and less than 9 h 0 min 30 s: the rounding to
    minutes widens the 7 to 9 hours by half a minute each way. *)
Theorem healthy_duration_in_milliseconds :
  forall (zone : Date.Zone) (s : Sleep.t) (start end_ : Z),
    Sleep.sleepStart s = Some start ->
    Sleep.sleepEnd s = Some end_ ->
    let durationMs :=
      ((if (end_ <? start)%Z then Date.setDateBy zone 1 end_ else end_) - start)%Z in
    Sleep.isHealthyDuration (fst (Sleep.calculateDuration zone s)) = true
    <-> (25170000 <= durationMs < 32430000)%Z.
Proof.
  intros zone s start end_ Hstart Hend durationMs.
  unfold Sleep.calculateDuration. rewrite Hstart, Hend. cbn zeta.
  fold durationMs.
  unfold Sleep.isHealthyDuration. cbn [fst Sleep.set_duration Sleep.duration].
  cbn zeta. rewrite hours_in_minutes, Math_round_ge_iff, Math_round_le_iff.
  assert (E : inject_Z durationMs / (1000 * 60) == inject_Z durationMs * (1 # 60000))
    by (unfold Qdiv; change (/ (1000 * 60)) with (1 # 60000); ring).
  rewrite E. clearbody durationMs.
  rewrite Zle_Qle, Zlt_Qlt.
  change (inject_Z 25170000) with 25170000. change (inject_Z 32430000) with 32430000.
  change (inject_Z 420) with 420. change (inject_Z 540) with 540.
  split; intros [H1 H2]; split; lra.
Qed.

(** The night from 23:00 to 06:00 lasts 25,200,000 ms in a zone of a
    constant offset and is healthy; in the night in which the clocks go
    forward it lasts 21,600,000 ms and is not. *)
Lemma the_night_is_healthy :
  (Sleep.isHealthyDuration (fst (Sleep.calculateDuration (Date.fixed 0) Examples.night))
   = true
   <-> (25170000 <= 25200000 < 32430000)%Z) /\
  (Sleep.isHealthyDuration
     (fst (Sleep.calculateDuration Examples.springForward Examples.shortNight))
   = true
   <-> (25170000 <= 21600000 < 32430000)%Z).
Proof.
  split.
  - exact (healthy_duration_in_milliseconds (Date.fixed 0) Examples.night
             Examples.at2300 Examples.at0600 eq_refl eq_refl).
  - exact (healthy_duration_in_milliseconds Examples.springForward Examples.shortNight
             (22 * Date.msPerHour)%Z (5 * Date.msPerHour)%Z eq_refl eq_refl).
Defined.

End SleepHealthFacts.

(** ** The dashboard of a new account *)

Module RegistrationFacts.

Lemma goal_progress_without_records env db (user : User.t) (date : option Z) :
  Dashboard.recentProgress env db user = [] ->
  Dashboard.goalProgress (Dashboard.getDashboard env db user date)
  = match User.targetWeight user with
    | Some target =>
        if Qeq_bool target 0 then JS.Finite 0
        else JS.Math_abs
               (JS.mul (JS.div (target - User.weight user) (User.weight user - target)) 100)
    | None => JS.Finite 0
    end.
Proof.
  intros Hnone. unfold Dashboard.getDashboard. cbn [Dashboard.goalProgress].
  unfold Dashboard.computeGoalProgress, Dashboard.progressSummary.
  cbn [Dashboard.currentWeight]. rewrite Hnone. reflexivity.
Qed.

(** X20. The dashboard of an account registered with a valid weight, before
    any progress record of it exists: without a target weight in the request
    (or with 0, or with the weight itself) the account's target is its weight
    and goalProgress is NaN; with any other target goalProgress is 100. *)
Theorem goal_progress_of_a_new_account :
  forall (id : JS.ObjectId) (body : Auth.RegisterBody) (env : Dashboard.Env)
         (db : Dashboard.Collections) (date : option Z),
    20 <= Auth.weight body <= 300 ->
    (forall p, In p (Dashboard.progress db) -> Progress.user p <> id) ->
    let user := Auth.register id body in
    let response := Dashboard.getDashboard env db user date in
    match Auth.targetWeight body with
    | Some target =>
        if Qeq_bool target 0 || Qeq_bool target (Auth.weight body)
        then Dashboard.goalProgress response = JS.NaN
        else exists percent : Q,
               Dashboard.goalProgress response = JS.Finite percent /\ percent == 100
    | None =>
        User.targetWeight user = Some (Auth.weight body) /\
        Dashboard.goalProgress response = JS.NaN
    end.
Proof.
  intros id body env db date Hweight Hnew user response. subst response.
  assert (Hnone : Dashboard.recentProgress env db user = []).
  { apply ProgressBlockFacts.recentProgress_empty. intros p Hp [Huser _].
    apply (Hnew p Hp). exact Huser. }
  rewrite (goal_progress_without_records _ _ _ _ Hnone).
  assert (Hnonzero : Qeq_bool (Auth.weight body) 0 = false).
  { apply not_true_iff_false. intros Hzero. apply Qeq_bool_eq in Hzero. lra. }
  assert (Hsame : forall w : Q,
             Qeq_bool w 0 = false ->
             JS.Math_abs (JS.mul (JS.div (w - w) (w - w)) 100) = JS.NaN).
  { intros w _. unfold JS.div.
    assert (Hdiff : Qeq_bool (w - w) 0 = true) by (apply Qeq_eq_bool; ring).
    now rewrite Hdiff. }
  subst user. cbn [Auth.register User.targetWeight User.weight].
  destruct (Auth.targetWeight body) as [target|].
  - destruct (Qeq_bool target 0) eqn:Hzero; cbn [orb].
    + rewrite Hnonzero. now apply Hsame.
    + rewrite Hzero. destruct (Qeq_bool target (Auth.weight body)) eqn:Hequal.
      * apply Qeq_bool_eq in Hequal. unfold JS.div.
        assert (Hdenominator : Qeq_bool (Auth.weight body - target) 0 = true)
          by (apply Qeq_eq_bool; lra).
        assert (Hnumerator : Qeq_bool (target - Auth.weight body) 0 = true)
          by (apply Qeq_eq_bool; lra).
        now rewrite Hdenominator, Hnumerator.
      * assert (Hdistinct : ~ Auth.weight body - target == 0).
        { intros Heq. apply not_true_iff_false in Hequal. apply Hequal.
          apply Qeq_eq_bool. lra. }
        unfold JS.div.
        destruct (Qeq_bool (Auth.weight body - target) 0) eqn:Hdenominator;
          [apply Qeq_bool_eq in Hdenominator; contradiction|].
        cbn [JS.mul JS.Math_abs]. eexists. split; [reflexivity|].
        assert (E : (target - Auth.weight body) / (Auth.weight body - target) * 100
                    == - (100)) by (field; exact Hdistinct).
        rewrite E. reflexivity.
  - split; [reflexivity|]. rewrite Hnonzero. now apply Hsame.
Qed.

(** Noa registers at 64 kg and names no target weight. *)
Lemma goal_progress_after_sign_up :
  User.targetWeight (Auth.register 7%Z MoreExamples.signUp) = Some 64 /\
  Dashboard.goalProgress
    (Dashboard.getDashboard Examples.env Examples.noRecords
       (Auth.register 7%Z MoreExamples.signUp) None)
  = JS.NaN.
Proof.
  apply (goal_progress_of_a_new_account 7%Z MoreExamples.signUp Examples.env
           Examples.noRecords None).
  - split; discriminate.
  - intros p [].
Defined.

End RegistrationFacts.

(** ** The pages of the list routes *)

Module PaginationFacts.

Lemma firstn_add {A : Type} (a b : nat) (l : list A) :
  firstn (a + b) l = (firstn a l ++ firstn b (skipn a l))%list.
Proof.
  revert l. induction a as [|a IH]; intros l; [reflexivity|].
  destruct l as [|x rest]; cbn.
  - now rewrite firstn_nil.
  - now rewrite IH.
Qed.

(** The first [k] pages, one after the other, are the first [k * limit]
    documents. *)
Lemma pages_concat {A : Type} (l : list A) (limit k : nat) :
  List.concat (map (fun page => firstn limit (skipn ((page - 1) * limit) l)) (seq 1 k))
  = firstn (k * limit) l.
Proof.
  induction k as [|k IH]; [reflexivity|].
  rewrite seq_S, map_app, concat_app, IH. cbn [map List.concat].
  rewrite app_nil_r. replace (1 + k - 1)%nat with k by lia.
  rewrite <- firstn_add. f_equal. lia.
Qed.

(** [Math.ceil(total / limit)] is the least number of pages that holds
    [total] documents. *)
Lemma pageCount_spec (total : Z) (limit : nat) :
  (1 <= limit)%nat ->
  (total <= Routes.pageCount total limit * Z.of_nat limit < total + Z.of_nat limit)%Z.
Proof.
  intros Hlimit. unfold Routes.pageCount.
  set (n := Z.of_nat limit). assert (Hn : (1 <= n)%Z) by lia.
  assert (Hq : 0 < inject_Z n).
  { change 0 with (inject_Z 0). rewrite <- Zlt_Qlt. lia. }
  set (x := inject_Z total / inject_Z n).
  assert (Hx : x * inject_Z n == inject_Z total).
  { unfold x. field. lra. }
  pose proof (Qle_ceiling x) as Hup.
  pose proof (Qceiling_lt x) as Hlow.
  set (c := Qceiling x) in *. clearbody c.
  assert (E0 : inject_Z (c - 1) == inject_Z c - 1)
    by (unfold Z.sub; rewrite inject_Z_plus; reflexivity).
  rewrite E0 in Hlow.
  assert (H1 : x * inject_Z n <= inject_Z c * inject_Z n)
    by (apply Qmult_le_compat_r; lra).
  assert (H2 : (inject_Z c - 1) * inject_Z n < x * inject_Z n)
    by (apply Qmult_lt_compat_r; lra).
  rewrite Hx in H1, H2.
  assert (H3 : inject_Z (c * n) < inject_Z (total + n)).
  { rewrite inject_Z_mult, inject_Z_plus.
    assert (E : (inject_Z c - 1) * inject_Z n == inject_Z c * inject_Z n - inject_Z n)
      by ring.
    rewrite E in H2. lra. }
  rewrite <- inject_Z_mult, <- Zle_Qle in H1. rewrite <- Zlt_Qlt in H3. lia.
Qed.

(** X21. Paging through a list route.  For a limit of at least 1, every page
    from 1 on holds at most [limit] documents and reports the number of all
    matching documents; [pages] is the least number of pages that holds them
    all; the pages 1 to [pages], one after the other, are exactly the matching
    documents, most recent first; and every later page is empty. *)
Theorem listing_pages_partition_the_matches :
  forall (A : Type) (date : A -> Z) (query : A -> bool) (collection : list A)
         (limit : nat),
    (1 <= limit)%nat ->
    let all := Mongo.sort (Mongo.dateDescending date) (Mongo.find query collection) in
    let response page := Routes.listing date query collection page limit in
    let pages := Routes.pages (response 1%nat) in
    (forall page : nat,
        (1 <= page)%nat ->
        (Routes.count (response page) <= Z.of_nat limit)%Z /\
        Routes.total (response page) = Dashboard.len (Mongo.find query collection) /\
        Routes.pages (response page) = pages /\
        ((pages < Z.of_nat page)%Z -> Routes.data (response page) = [])) /\
    (Routes.total (response 1%nat) <= pages * Z.of_nat limit
     < Routes.total (response 1%nat) + Z.of_nat limit)%Z /\
    List.concat (map (fun page => Routes.data (response page)) (seq 1 (Z.to_nat pages))) = all.
Proof.
  intros A date query collection limit Hlimit all response pages.
  assert (Hpages : (Dashboard.len all <= pages * Z.of_nat limit
                    < Dashboard.len all + Z.of_nat limit)%Z).
  { subst pages response all. unfold Routes.listing. cbn [Routes.pages].
    rewrite SumFacts.sort_length. now apply pageCount_spec. }
  assert (Hnonneg : (0 <= pages)%Z).
  { unfold Dashboard.len in Hpages. nia. }
  split; [|split].
  - intros page _. subst response. unfold Routes.listing.
    cbn [Routes.count Routes.total Routes.pages Routes.data]. fold all.
    split; [|split; [reflexivity|split; [reflexivity|]]].
    + unfold Dashboard.len, Mongo.limit. rewrite length_firstn. lia.
    + intros Hbeyond. unfold Mongo.limit.
      rewrite skipn_all2; [now rewrite firstn_nil|].
      unfold Dashboard.len in Hpages. nia.
  - change (Routes.total (response 1%nat))
      with (Dashboard.len (Mongo.find query collection)).
    rewrite <- (SumFacts.sort_length (Mongo.dateDescending date)).
    exact Hpages.
  - subst response. unfold Routes.listing. cbn [Routes.data]. fold all.
    unfold Mongo.limit. rewrite pages_concat.
    apply firstn_all2. unfold Dashboard.len in Hpages. nia.
Qed.

(** Two workouts, one to a page: the pages hold all of them, the later
    workout first. *)
Lemma listing_of_two_workouts :
  List.concat
    (map (fun page =>
            Routes.data
              (Routes.listing Workout.date
                 (Routes.workoutQuery 0 Examples.alex None None)
                 (Dashboard.workouts Examples.twoWorkouts) page 1))
       (seq 1 (Z.to_nat
                 (Routes.pages
                    (Routes.listing Workout.date
                       (Routes.workoutQuery 0 Examples.alex None None)
                       (Dashboard.workouts Examples.twoWorkouts) 1 1)))))
  = Mongo.sort (Mongo.dateDescending Workout.date)
      (Mongo.find (Routes.workoutQuery 0 Examples.alex None None)
         (Dashboard.workouts Examples.twoWorkouts)).
Proof.
  apply (listing_pages_partition_the_matches Workout.t Workout.date
           (Routes.workoutQuery 0 Examples.alex None None)
           (Dashboard.workouts Examples.twoWorkouts) 1 (le_n 1)).
Defined.

End PaginationFacts.

(** ** The breakdown of the workout statistics *)

Module TypeGroupFacts.

Lemma distinct_In (keys : list string) (k : string) :
  In k (Routes.distinct keys) <-> In k keys.
Proof.
  induction keys as [|k' rest IH]; cbn; [tauto|].
  rewrite filter_In, IH, negb_true_iff, String.eqb_neq.
  destruct (String.eqb_spec k k') as [->|Hne]; [tauto|].
  split; [intros [Heq|[Hin _]]; [now left | now right]|].
  intros [Heq|Hin]; [now left | right; now split].
Qed.

Lemma distinct_NoDup (keys : list string) : NoDup (Routes.distinct keys).
Proof.
  induction keys as [|k rest IH]; cbn; constructor.
  - rewrite filter_In, negb_true_iff, String.eqb_neq. intros [_ Hne]. now apply Hne.
  - now apply NoDup_filter.
Qed.

(** Over keys without repetition, a document is counted once when its key
    is among them and never otherwise. *)
Lemma total_counts {A : Type} (key : A -> string) (keys : list string) (docs : list A) :
  NoDup keys ->
  MoreSpec.total
    (map (fun k => Dashboard.len (filter (fun d => String.eqb (key d) k) docs)) keys)
  = Dashboard.len (filter (fun d => Routes.includes keys (key d)) docs).
Proof.
  intros Hnodup. unfold Dashboard.len.
  induction Hnodup as [|k rest Hfresh _ IH]; cbn [map MoreSpec.total fold_right].
  - unfold Routes.includes. cbn [existsb].
    induction docs as [|d docs' IHd]; [reflexivity | exact IHd].
  - fold (MoreSpec.total
            (map (fun k0 => Z.of_nat
                    (List.length (filter (fun d => String.eqb (key d) k0) docs))) rest)).
    rewrite IH. clear IH.
    induction docs as [|d docs' IHd]; [reflexivity|].
    unfold Routes.includes in *. cbn [existsb] in IHd. cbn [filter existsb].
    destruct (String.eqb_spec (key d) k) as [Heq|Hne]; cbn [orb].
    + assert (Hrest : existsb (String.eqb (key d)) rest = false).
      { apply not_true_iff_false. rewrite existsb_exists. intros (k' & Hk' & Heqb).
        apply String.eqb_eq in Heqb. apply Hfresh. congruence. }
      rewrite Hrest. cbn [List.length]. lia.
    + destruct (existsb (String.eqb (key d)) rest); cbn [List.length]; lia.
Qed.

Lemma keys_cover {A : Type} (key : A -> string) (docs : list A) :
  filter (fun d => Routes.includes (Routes.distinct (map key docs)) (key d)) docs = docs.
Proof.
  apply forallb_filter_id, forallb_forall. intros d Hd.
  unfold Routes.includes. apply existsb_exists. exists (key d).
  split; [|apply String.eqb_refl].
  apply distinct_In, in_map, Hd.
Qed.

Lemma countDescending_total (a b : Routes.TypeGroup) :
  Routes.countDescending a b = true \/ Routes.countDescending b a = true.
Proof. unfold Routes.countDescending. lia. Qed.

Lemma countDescending_trans (a b c : Routes.TypeGroup) :
  Routes.countDescending a b = true -> Routes.countDescending b c = true ->
  Routes.countDescending a c = true.
Proof. unfold Routes.countDescending. lia. Qed.

Lemma total_perm (l l' : list Z) : Permutation l l' -> MoreSpec.total l = MoreSpec.total l'.
Proof.
  unfold MoreSpec.total. induction 1; cbn; lia.
Qed.

(** X22. The exercise breakdown of the workout statistics has one group for
    every exercise type among the user's workouts of the period and no other,
    largest count first; a group's count and totals are those of the workouts
    of its type, its count is at least 1, and the counts add up to the
    summary's totalWorkouts. *)
Theorem breakdown_groups_the_period_by_type :
  forall (workouts : list Workout.t) (user : User.t) (startDate : Z),
    let matched :=
      filter (fun w => Dashboard.since user startDate (Workout.user w) (Workout.date w))
        workouts in
    let summary := fst (Routes.workoutStats workouts user startDate) in
    let breakdown := snd (Routes.workoutStats workouts user startDate) in
    StronglySorted (fun a b => (Routes.g_count b <= Routes.g_count a)%Z) breakdown /\
    NoDup (map Routes.g_id breakdown) /\
    (forall e : string,
        In e (map Routes.g_id breakdown)
        <-> exists w, In w matched /\ Workout.exerciseType w = e) /\
    (forall g : Routes.TypeGroup,
        In g breakdown ->
        let members :=
          filter (fun w => String.eqb (Workout.exerciseType w) (Routes.g_id g)) matched in
        Routes.g_count g = Dashboard.len members /\
        (1 <= Routes.g_count g)%Z /\
        Routes.g_totalDuration g = JS.sumBy Workout.duration members /\
        Routes.g_totalCalories g = JS.sumBy Workout.caloriesBurned members) /\
    MoreSpec.total (map Routes.g_count breakdown) = Dashboard.totalWorkouts summary.
Proof.
  intros workouts user startDate matched summary breakdown.
  subst summary breakdown. unfold Routes.workoutStats, Mongo.find. fold matched.
  cbn [fst snd].
  set (groups := Routes.groupByType matched).
  assert (Hperm : Permutation (Mongo.sort Routes.countDescending groups) groups)
    by apply MongoFacts.sort_perm.
  assert (Hids : map Routes.g_id groups = Routes.distinct (map Workout.exerciseType matched)).
  { unfold groups, Routes.groupByType. rewrite map_map. cbn [Routes.g_id]. apply map_id. }
  split; [|split; [|split; [|split]]].
  - eapply ProgressBlockFacts.sorted_weaken;
      [| apply MongoFacts.sort_sorted;
         [apply countDescending_total | apply countDescending_trans]].
    intros a b Hab. unfold Routes.countDescending in Hab. lia.
  - eapply Permutation_NoDup;
      [apply Permutation_sym, Permutation_map, Hperm|].
    rewrite Hids. apply distinct_NoDup.
  - intros e. split.
    + intros He. apply (Permutation_in _ (Permutation_map Routes.g_id Hperm)) in He.
      rewrite Hids, distinct_In, in_map_iff in He.
      destruct He as (w & Hw & Hin). now exists w.
    + intros (w & Hin & Hw).
      apply (Permutation_in _ (Permutation_sym (Permutation_map Routes.g_id Hperm))).
      rewrite Hids, distinct_In, in_map_iff. now exists w.
  - intros g Hg. apply (Permutation_in _ Hperm) in Hg.
    unfold groups, Routes.groupByType in Hg. apply in_map_iff in Hg as (e & <- & He).
    cbn [Routes.g_id Routes.g_count Routes.g_totalDuration Routes.g_totalCalories].
    cbn zeta. split; [reflexivity|split; [|split; reflexivity]].
    apply distinct_In, in_map_iff in He as (w & Hw & Hin).
    assert (Hmember : In w (filter (fun w' => String.eqb (Workout.exerciseType w') e) matched))
      by (apply filter_In; split; [exact Hin | now apply String.eqb_eq]).
    unfold Dashboard.len.
    destruct (filter (fun w' => String.eqb (Workout.exerciseType w') e) matched);
      [contradiction | cbn [List.length]; lia].
  - rewrite (total_perm _ _ (Permutation_map Routes.g_count Hperm)).
    unfold groups, Routes.groupByType. rewrite map_map. cbn [Routes.g_count].
    rewrite (total_counts Workout.exerciseType) by apply distinct_NoDup.
    rewrite keys_cover.
    destruct matched as [|w rest]; reflexivity.
Qed.

End TypeGroupFacts.

(** ** The filters of the list routes *)

Module QueryFacts.

Lemma same_local_day (tza d t : Z) :
  (Date.setHours tza 0 0 0 0 d <= t <= Date.setHours tza 23 59 59 999 d)%Z ->
  Date.Day (Date.LocalTime tza t) = Date.Day (Date.LocalTime tza d).
Proof.
  rewrite WindowFacts.endOfDay_eq, WindowFacts.startOfDay_eq.
  unfold Date.Day, Date.LocalTime, Date.msPerDay.
  intros Hday. Z.to_euclidean_division_equations. lia.
Qed.

Lemma In_page {A : Type} (date : A -> Z) (query : A -> bool) (collection : list A)
    (page limit : nat) (x : A) :
  In x (Routes.data (Routes.listing date query collection page limit)) ->
  In x collection /\ query x = true.
Proof.
  unfold Routes.listing. cbn [Routes.data]. intros Hx.
  apply MongoFacts.In_limit in Hx.
  rewrite <- (firstn_skipn ((page - 1) * limit)) in Hx at 1.
  assert (Hsorted : In x (Mongo.sort (Mongo.dateDescending date)
                            (Mongo.find query collection))).
  { rewrite <- (firstn_skipn ((page - 1) * limit)). apply in_or_app. right.
    rewrite firstn_skipn in Hx. exact Hx. }
  apply (Permutation_in _ (MongoFacts.sort_perm _ _)) in Hsorted.
  now apply filter_In in Hsorted.
Qed.

(** X23. A page of GET /api/workouts or GET /api/meals holds only documents
    of the collection that belong to the requesting user, that fall on the
    local calendar day of the date filter when one is given, and that have
    the requested exercise type or meal type when one is given. *)
Theorem listed_documents_match_the_filters :
  forall (tza : Z) (user : User.t) (date : option Z) (exerciseType mealType : option string)
         (workouts : list Workout.t) (meals : list Meal.t) (page limit : nat),
    (1 <= page)%nat -> (1 <= limit)%nat ->
    (forall w,
        In w (Routes.data
                (Routes.listing Workout.date
                   (Routes.workoutQuery tza user date exerciseType) workouts page limit)) ->
        In w workouts /\
        Workout.user w = User._id user /\
        (forall d, date = Some d ->
                   Date.Day (Date.LocalTime tza (Workout.date w))
                   = Date.Day (Date.LocalTime tza d)) /\
        (forall e, exerciseType = Some e -> Workout.exerciseType w = e)) /\
    (forall m,
        In m (Routes.data
                (Routes.listing Meal.date
                   (Routes.mealQuery tza user date mealType) meals page limit)) ->
        In m meals /\
        Meal.user m = User._id user /\
        (forall d, date = Some d ->
                   Date.Day (Date.LocalTime tza (Meal.date m))
                   = Date.Day (Date.LocalTime tza d)) /\
        (forall t, mealType = Some t -> Meal.mealType m = t)).
Proof.
  intros tza user date exerciseType mealType workouts meals page limit _ _.
  split.
  - intros w Hw. apply In_page in Hw as [Hin Hquery].
    unfold Routes.workoutQuery in Hquery.
    apply andb_true_iff in Hquery as [Hquery Htype].
    apply andb_true_iff in Hquery as [Huser Hdate].
    split; [exact Hin|]. split; [lia|]. split.
    + intros d ->. apply same_local_day. lia.
    + intros e ->. now apply String.eqb_eq.
  - intros m Hm. apply In_page in Hm as [Hin Hquery].
    unfold Routes.mealQuery in Hquery.
    apply andb_true_iff in Hquery as [Hquery Htype].
    apply andb_true_iff in Hquery as [Huser Hdate].
    split; [exact Hin|]. split; [lia|]. split.
    + intros d ->. apply same_local_day. lia.
    + intros t ->. now apply String.eqb_eq.
Qed.

(** The yoga session of 30 minutes is on the first page of ten. *)
Lemma the_listed_session_is_of_alex :
  Workout.user (Examples.workoutOf 30) = User._id Examples.alex.
Proof.
  refine (proj1 (proj2 (proj1 (listed_documents_match_the_filters
                                 0 Examples.alex None None None
                                 (Dashboard.workouts Examples.twoWorkouts) [] 1 10
                                 (le_n 1) _) (Examples.workoutOf 30) _))).
  - repeat constructor.
  - cbn. tauto.
Defined.

End QueryFacts.
